(** * android_packager: a shallow embedding and its verified properties

    The development follows [src/android_packager.py]: Python strings are
    lists of Unicode code points, [pathlib] paths are an anchor with a list
    of components, the file system is a finite map from normalised locations
    to nodes, and the effectful functions thread a state (the file system
    with the working directory, and a log of the calls made) through an
    exception monad in which the state survives a raised exception.  The
    path and file-system model is the POSIX one, without symbolic links and
    without permissions; the anchor [//] is not distinguished from [/]. *)

From Stdlib Require Import NArith ZArith List Ascii String Bool Lia.
From stdpp Require Import base option list gmap.

Local Open Scope N_scope.

(** ** Python strings *)

(** A [str] is a sequence of code points; [bytes] is a sequence of octets. *)
Abbreviation char := N (only parsing).
Abbreviation str := (list N) (only parsing).
Abbreviation bytes := (list N) (only parsing).

(** String literals of the source, which are all ASCII. *)
Definition lit (s : string) : str :=
  List.map N_of_ascii (list_ascii_of_string s).

(** Template literals: the text of the source constant, in which every
    double quote is written as an apostrophe (no template of the source
    contains an apostrophe). *)
Definition tpl (s : string) : str :=
  List.map (fun a => let c := N_of_ascii a in if c =? 39 then 34 else c)
           (list_ascii_of_string s).

Definition str_eqb (a b : str) : bool := bool_decide (a = b).

(** [str.isspace] on one code point: the characters that [str.strip()]
    removes when it is called without an argument. *)
Definition is_space (c : char) : bool :=
  ((9 <=? c) && (c <=? 13)) || ((28 <=? c) && (c <=? 32))
  || (c =? 133) || (c =? 160) || (c =? 5760)
  || ((8192 <=? c) && (c <=? 8202))
  || (c =? 8232) || (c =? 8233) || (c =? 8239) || (c =? 8287) || (c =? 12288).

Fixpoint lstrip (s : str) : str :=
  match s with
  | c :: t => if is_space c then lstrip t else s
  | [] => []
  end.

Definition rstrip (s : str) : str := rev (lstrip (rev s)).

(** [s.strip()] *)
Definition strip (s : str) : str := rstrip (lstrip s).

(** The complement of the character class [[^A-Za-z0-9_\-]]. *)
Definition is_safe_char (c : char) : bool :=
  ((65 <=? c) && (c <=? 90)) || ((97 <=? c) && (c <=? 122))
  || ((48 <=? c) && (c <=? 57)) || (c =? 95) || (c =? 45).

(** [re.sub(r"[^A-Za-z0-9_\-]", "", s)]: every character matched by the
    class is replaced by the empty string. *)
Definition re_sub_unsafe (s : str) : str := List.filter is_safe_char s.

(** [safe_name(name, fallback)]; [cleaned or fallback] takes the fallback
    exactly when [cleaned] is the empty string. *)
Definition safe_name (name fallback : str) : str :=
  let cleaned := re_sub_unsafe (strip name) in
  match cleaned with
  | [] => fallback
  | _ :: _ => cleaned
  end.

Definition all_safe (s : str) : Prop := Forall (fun c => is_safe_char c = true) s.

(** [s.startswith(p)] *)
Fixpoint is_prefix (p s : str) : bool :=
  match p, s with
  | [], _ => true
  | a :: p', b :: s' => (a =? b) && is_prefix p' s'
  | _ :: _, [] => false
  end.

(** [s.replace(old, new)] for a non-empty [old]: scan from the left; at an
    occurrence of [old] emit [new] and continue behind the occurrence
    ([skip] counts the characters of the occurrence still to be passed). *)
Fixpoint replace_from (old new : str) (skip : nat) (s : str) : str :=
  match s with
  | [] => []
  | c :: t =>
      match skip with
      | S k => replace_from old new k t
      | O =>
          if is_prefix old s
          then new ++ replace_from old new (Nat.pred (length old)) t
          else c :: replace_from old new 0 t
      end
  end.

(** [s.replace(old, new)]; an empty [old] matches before every character
    and at the end. *)
Definition replace (old new s : str) : str :=
  match old with
  | [] => new ++ flat_map (fun c => c :: new) s
  | _ :: _ => replace_from old new 0 s
  end.

(** [old in s] *)
Fixpoint occurs (old s : str) : bool :=
  is_prefix old s || match s with [] => false | _ :: t => occurs old t end.

(** [s.split(sep)] for a one-character separator: empty pieces are kept,
    and the result is never empty. *)
Fixpoint split_on (sep : char) (s : str) : list str :=
  match s with
  | [] => [[]]
  | c :: t =>
      if c =? sep then [] :: split_on sep t
      else match split_on sep t with
           | w :: ws => (c :: w) :: ws
           | [] => [[c]]
           end
  end.

(** [sep.join(l)] *)
Fixpoint join (sep : str) (l : list str) : str :=
  match l with
  | [] => []
  | [x] => x
  | x :: rest => x ++ sep ++ join sep rest
  end.

(** [str(n)] for an [int]: decimal digits, most significant first, behind a
    minus sign for a negative number.  The digits of [n] are produced from
    the least significant one; [fuel] bounds the number of digits. *)
Fixpoint digits_from (fuel : nat) (n : N) (acc : str) : str :=
  match fuel with
  | O => acc
  | S f =>
      let acc' := (48 + n mod 10) :: acc in
      if n <? 10 then acc' else digits_from f (n / 10) acc'
  end.

Definition str_of_N (n : N) : str := digits_from (S (N.size_nat n)) n [].

Definition str_of_int (z : Z) : str :=
  if (z <? 0)%Z then 45 :: str_of_N (Z.to_N (- z)) else str_of_N (Z.to_N z).

(** Python exceptions raised along the paths of the program. *)
Inductive exn :=
  | FileExistsError
  | FileNotFoundError
  | NotADirectoryError
  | IsADirectoryError
  | SameFileError
  | UnicodeEncodeError
  | FormatError
  | CalledProcessError (returncode : Z).

Inductive result (A : Type) :=
  | Ok (a : A)
  | Raise (e : exn).
Arguments Ok {A} a.
Arguments Raise {A} e.

(** [data.encode("utf-8")]: surrogates cannot be encoded. *)
Definition utf8_char (c : char) : option bytes :=
  if c <? 128 then Some [c]
  else if c <? 2048 then Some [192 + c / 64; 128 + c mod 64]
  else if (55296 <=? c) && (c <=? 57343) then None
  else if c <? 65536 then
    Some [224 + c / 4096; 128 + (c / 64) mod 64; 128 + c mod 64]
  else if c <? 1114112 then
    Some [240 + c / 262144; 128 + (c / 4096) mod 64;
          128 + (c / 64) mod 64; 128 + c mod 64]
  else None.

Fixpoint utf8_encode (s : str) : option bytes :=
  match s with
  | [] => Some []
  | c :: t =>
      match utf8_char c, utf8_encode t with
      | Some b, Some r => Some (b ++ r)
      | _, _ => None
      end
  end.

(** [template.format(key=value)] for templates whose replacement fields are
    plain names: [{{] and [}}] are escapes, [{name}] is replaced by the
    value of the keyword argument of that name, and the value is not
    scanned again.  [field] is the name read so far inside a field. *)
Fixpoint format_from (key value : str) (field : option str) (s : str) : result str :=
  match field, s with
  | None, [] => Ok []
  | Some _, [] => Raise FormatError
  | None, c :: t =>
      if c =? 123 then
        match t with
        | c' :: t' =>
            if c' =? 123 then
              match format_from key value None t' with
              | Ok r => Ok (123 :: r)
              | Raise e => Raise e
              end
            else format_from key value (Some []) t
        | [] => Raise FormatError
        end
      else if c =? 125 then
        match t with
        | c' :: t' =>
            if c' =? 125 then
              match format_from key value None t' with
              | Ok r => Ok (125 :: r)
              | Raise e => Raise e
              end
            else Raise FormatError
        | [] => Raise FormatError
        end
      else
        match format_from key value None t with
        | Ok r => Ok (c :: r)
        | Raise e => Raise e
        end
  | Some name, c :: t =>
      if c =? 125 then
        if str_eqb (rev name) key then
          match format_from key value None t with
          | Ok r => Ok (value ++ r)
          | Raise e => Raise e
          end
        else Raise FormatError
      else if c =? 123 then Raise FormatError
      else format_from key value (Some (c :: name)) t
  end.

Definition format (template key value : str) : result str :=
  format_from key value None template.

(** ** The templates of the source *)

Definition ANDROID_MANIFEST : str := tpl "<?xml version='1.0' encoding='utf-8'?>
<manifest xmlns:android='http://schemas.android.com/apk/res/android'>

    <application
        android:allowBackup='true'
        android:icon='@android:drawable/sym_def_app_icon'
        android:label='@string/app_name'
        android:roundIcon='@android:drawable/sym_def_app_icon'
        android:supportsRtl='true'
        android:theme='@style/Theme.AppCompat.Light.NoActionBar'>
        <activity
            android:name='.MainActivity'
            android:exported='true'>
            <intent-filter>
                <action android:name='android.intent.action.MAIN' />
                <category android:name='android.intent.category.LAUNCHER' />
            </intent-filter>
        </activity>
    </application>

</manifest>
".

Definition STRINGS_XML : str := tpl "<?xml version='1.0' encoding='utf-8'?>
<resources>
    <string name='app_name'>{app_name}</string>
</resources>
".

Definition SETTINGS_GRADLE : str := tpl "pluginManagement {
    repositories {
        google()
        mavenCentral()
        gradlePluginPortal()
    }
}

dependencyResolutionManagement {
    repositoriesMode.set(RepositoriesMode.FAIL_ON_PROJECT_REPOS)
    repositories {
        google()
        mavenCentral()
    }
}

rootProject.name = '__PROJECT_NAME__'
include(':app')
".

Definition ROOT_BUILD_GRADLE : str := tpl "plugins {
    id('com.android.application') version '8.5.2' apply false
    id('org.jetbrains.kotlin.android') version '1.9.24' apply false
}
".

Definition APP_BUILD_GRADLE : str := tpl "plugins {
    id('com.android.application')
    id('org.jetbrains.kotlin.android')
}

android {
    namespace = '__APPLICATION_ID__'
    compileSdk = __COMPILE_SDK__

    defaultConfig {
        applicationId = '__APPLICATION_ID__'
        minSdk = __MIN_SDK__
        targetSdk = __TARGET_SDK__
        versionCode = 1
        versionName = '1.0'

        testInstrumentationRunner = 'androidx.test.runner.AndroidJUnitRunner'
    }

    buildTypes {
        release {
            isMinifyEnabled = false
            proguardFiles(
                getDefaultProguardFile('proguard-android-optimize.txt'),
                'proguard-rules.pro'
            )
        }
    }

    compileOptions {
        sourceCompatibility = JavaVersion.VERSION_17
        targetCompatibility = JavaVersion.VERSION_17
    }

    kotlinOptions {
        jvmTarget = '17'
    }
}

dependencies {
    implementation('androidx.core:core-ktx:1.13.1')
    implementation('androidx.appcompat:appcompat:1.7.0')
    implementation('com.google.android.material:material:1.12.0')
}
".

Definition GRADLE_PROPERTIES : str := tpl "org.gradle.jvmargs=-Xmx2048m -Dfile.encoding=UTF-8
android.useAndroidX=true
kotlin.code.style=official
android.nonTransitiveRClass=true
".

Definition MAIN_ACTIVITY_TEMPLATE : str := tpl "package __APPLICATION_ID__

import android.os.Bundle
import android.widget.TextView
import androidx.appcompat.app.AppCompatActivity

class MainActivity : AppCompatActivity() {
    override fun onCreate(savedInstanceState: Bundle?) {
        super.onCreate(savedInstanceState)
        val textView = TextView(this).apply {
            text = 'Hello from generated Android app'
            textSize = 24f
        }
        setContentView(textView)
    }
}
".

(** ** pathlib (PurePosixPath) *)

(** A path is an anchor (absolute or not) and its components; [pathlib]
    never keeps an empty component or a [.] component, and it keeps [..]. *)
Record Path := mkPath { absolute : bool; parts : list str }.

Definition is_dotdot (c : str) : bool := str_eqb c [46; 46].

Definition kept_part (c : str) : bool :=
  negb (str_eqb c []) && negb (str_eqb c [46]).

(** The components of one string argument. *)
Definition parse_parts (s : str) : list str :=
  List.filter kept_part (split_on 47 s).

Definition is_abs_str (s : str) : bool :=
  match s with
  | c :: _ => c =? 47
  | [] => false
  end.

(** [p / s] for a string [s]: an absolute [s] replaces [p]. *)
Definition joinpath (p : Path) (s : str) : Path :=
  if is_abs_str s then mkPath true (parse_parts s)
  else mkPath (absolute p) (parts p ++ parse_parts s).

(** [p / q] for a path [q]. *)
Definition join_paths (p q : Path) : Path :=
  if absolute q then q else mkPath (absolute p) (parts p ++ parts q).

(** The constructor [Path] applied to the segments, one argument each. *)
Definition Path_of (segments : list str) : Path :=
  fold_left joinpath segments (mkPath false []).

(** [p.parent]; a path without components is its own parent. *)
Definition parent (p : Path) : Path :=
  mkPath (absolute p) (removelast (parts p)).

(** [os.path.basename(p)] *)
Definition basename (p : Path) : str := List.last (parts p) [].

(** [str(p)] *)
Definition path_str (p : Path) : str :=
  match absolute p, parts p with
  | false, [] => [46]
  | false, ps => join [47] ps
  | true, ps => 47 :: join [47] ps
  end.

(** ** The file system *)

Inductive node :=
  | File (data : bytes)
  | Dir.

(** A location is the list of names from the root directory down; the
    file system maps the locations that exist to their nodes, and the root
    directory [[]] always exists. *)
Abbreviation loc := (list str) (only parsing).
Abbreviation FS := (gmap (list str) node) (only parsing).

Definition node_at (fs : FS) (l : loc) : option node :=
  match l with
  | [] => Some Dir
  | _ :: _ => fs !! l
  end.

Inductive errno := ENOENT | ENOTDIR | EEXIST | EISDIR.

Definition exn_of_errno (e : errno) : exn :=
  match e with
  | ENOENT => FileNotFoundError
  | ENOTDIR => NotADirectoryError
  | EEXIST => FileExistsError
  | EISDIR => IsADirectoryError
  end.

(** Path resolution through directories: every component but [..] must
    name a directory below the current one; [..] moves to the parent. *)
Fixpoint walk (fs : FS) (cur : loc) (comps : list str) : errno + loc :=
  match comps with
  | [] => inr cur
  | c :: rest =>
      if is_dotdot c then walk fs (removelast cur) rest
      else
        match node_at fs (cur ++ [c]) with
        | Some Dir => walk fs (cur ++ [c]) rest
        | Some (File _) => inl ENOTDIR
        | None => inl ENOENT
        end
  end.

(** The last component of a list with what precedes it. *)
Definition split_last (l : list str) : option (list str * str) :=
  match l with
  | [] => None
  | _ :: _ => Some (removelast l, List.last l [])
  end.

Record world := mkWorld {
  fs : FS;              (* the file system *)
  cwd : list str;       (* the location of the working directory *)
}.

Definition base (w : world) (p : Path) : loc :=
  if absolute p then [] else cwd w.

(** The directory that holds the last component of [p], and that
    component; [None] for a path without components. *)
Definition lookup_parent (w : world) (p : Path) : errno + option (loc * str) :=
  match split_last (parts p) with
  | None => inr None
  | Some (dirs, name) =>
      match walk (fs w) (base w p) dirs with
      | inl e => inl e
      | inr d => inr (Some (d, name))
      end
  end.

(** The location that [p] denotes; it need not exist. *)
Definition locate (w : world) (p : Path) : errno + loc :=
  match lookup_parent w p with
  | inl e => inl e
  | inr None => inr (base w p)
  | inr (Some (d, name)) =>
      inr (if is_dotdot name then removelast d else d ++ [name])
  end.

(** [os.stat(p)] *)
Definition stat (w : world) (p : Path) : errno + (loc * node) :=
  match locate w p with
  | inl e => inl e
  | inr l =>
      match node_at (fs w) l with
      | Some n => inr (l, n)
      | None => inl ENOENT
      end
  end.

(** [p.exists()] and [p.is_dir()]: a failing [stat] answers [False]. *)
Definition exists_ (w : world) (p : Path) : bool :=
  match stat w p with
  | inr _ => true
  | inl _ => false
  end.

Definition is_dir (w : world) (p : Path) : bool :=
  match stat w p with
  | inr (_, Dir) => true
  | _ => false
  end.

(** The bytes of the regular file at [p]. *)
Definition file_bytes (w : world) (p : Path) : option bytes :=
  match stat w p with
  | inr (_, File b) => Some b
  | _ => None
  end.

Definition set_node (w : world) (l : loc) (n : node) : world :=
  mkWorld (<[l := n]> (fs w)) (cwd w).

(** [os.mkdir(p)] *)
Definition os_mkdir (p : Path) (w : world) : errno + world :=
  match lookup_parent w p with
  | inl e => inl e
  | inr None => inl EEXIST
  | inr (Some (d, name)) =>
      if is_dotdot name then inl EEXIST
      else
        match node_at (fs w) (d ++ [name]) with
        | Some _ => inl EEXIST
        | None => inr (set_node w (d ++ [name]) Dir)
        end
  end.

(** [open(p, "w")] up to the truncation: the file exists and is empty
    afterwards; its location is returned as the handle. *)
Definition open_trunc (p : Path) (w : world) : errno + (loc * world) :=
  match lookup_parent w p with
  | inl e => inl e
  | inr None => inl EISDIR
  | inr (Some (d, name)) =>
      if is_dotdot name then inl EISDIR
      else
        match node_at (fs w) (d ++ [name]) with
        | Some Dir => inl EISDIR
        | _ => inr (d ++ [name], set_node w (d ++ [name]) (File []))
        end
  end.

(** [open(p, "rb").read()] *)
Definition read_bytes (p : Path) (w : world) : errno + bytes :=
  match stat w p with
  | inl e => inl e
  | inr (_, Dir) => inl EISDIR
  | inr (_, File b) => inr b
  end.

(** [os.path.samefile(a, b)], answering [False] when a [stat] fails as
    [shutil._samefile] does. *)
Definition samefile (w : world) (a b : Path) : bool :=
  match stat w a, stat w b with
  | inr (la, _), inr (lb, _) => bool_decide (la = lb)
  | _, _ => false
  end.

(** ** Effects: a state and exception monad, with a log of the calls *)

Inductive message :=
  | MsgSourceMissing (p : Path)
  | MsgError (e : exn)
  | MsgCreated (root : Path)
  | MsgApkHint
  | MsgNoWrapper
  | MsgRunning (cmd : list str)
  | MsgBuildDone
  | MsgBuildFailed (returncode : Z)
  | MsgGradleMissing.

Inductive event :=
  | WroteText (p : Path) (content : str)
  | Copied (src dst : Path) (data : bytes)
  | Spawned (cmd : list str) (dir : Path)
  | Printed (m : message).

Record state := mkState {
  st_world : world;
  st_log : list event;   (* oldest event first *)
}.

Definition M (A : Type) : Type := state -> result A * state.

Definition ret {A} (a : A) : M A := fun s => (Ok a, s).
Definition raise {A} (e : exn) : M A := fun s => (Raise e, s).

Definition bind {A B} (m : M A) (k : A -> M B) : M B :=
  fun s =>
    match m s with
    | (Ok a, s') => k a s'
    | (Raise e, s') => (Raise e, s')
    end.

Notation "'do' x <- m ; k" := (bind m (fun x => k))
  (at level 10, x name, m at level 100, k at level 200).
Notation "m ;; k" := (bind m (fun _ => k))
  (at level 100, k at level 200, right associativity).

(** [try: m except <handles>: ...]: the handler sees the exception and
    either handles it or lets it pass on. *)
Definition try_except {A} (m : M A) (handler : exn -> option (M A)) : M A :=
  fun s =>
    match m s with
    | (Ok a, s') => (Ok a, s')
    | (Raise e, s') =>
        match handler e with
        | Some h => h s'
        | None => (Raise e, s')
        end
    end.

Definition emit (ev : event) : M unit :=
  fun s => (Ok tt, mkState (st_world s) (st_log s ++ [ev])).

Definition print (m : message) : M unit := emit (Printed m).

(** Run a system call on the world. *)
Definition syscall {A} (f : world -> errno + (A * world)) : M A :=
  fun s =>
    match f (st_world s) with
    | inl e => (Raise (exn_of_errno e), s)
    | inr (a, w) => (Ok a, mkState w (st_log s))
    end.

Definition query {A} (f : world -> A) : M A :=
  fun s => (Ok (f (st_world s)), s).

Definition mkdir_call (p : Path) : M unit :=
  syscall (fun w => match os_mkdir p w with
                    | inl e => inl e
                    | inr w' => inr (tt, w')
                    end).

(** [p.mkdir(parents=False, exist_ok=exist_ok)]: [FileNotFoundError] is
    raised again by the first handler of the source, every other [OSError]
    reaches the second. *)
Definition Path_mkdir_flat (p : Path) (exist_ok : bool) : M unit :=
  try_except (mkdir_call p)
    (fun e =>
       match e with
       | FileNotFoundError => Some (raise e)
       | _ =>
           Some (do d <- query (fun w => is_dir w p);
                 if negb exist_ok || negb d then raise e else ret tt)
       end).

(** [p.mkdir(parents=True, exist_ok=exist_ok)], by recursion on the
    components of [p] from the last one: [rparts] is [p.parts] reversed.
    After [FileNotFoundError] the parent is made and the directory itself
    is made by a call with [parents=False]; a path without components is
    its own parent and raises again. *)
Fixpoint Path_mkdir_parents (anchor : bool) (rparts : list str) (exist_ok : bool)
  : M unit :=
  let p := mkPath anchor (rev rparts) in
  try_except (mkdir_call p)
    (fun e =>
       match e with
       | FileNotFoundError =>
           Some (match rparts with
                 | [] => raise e
                 | _ :: rparent =>
                     Path_mkdir_parents anchor rparent true ;;
                     Path_mkdir_flat p exist_ok
                 end)
       | _ =>
           Some (do d <- query (fun w => is_dir w p);
                 if negb exist_ok || negb d then raise e else ret tt)
       end).

(** [p.mkdir(parents=parents, exist_ok=exist_ok)] *)
Definition Path_mkdir (p : Path) (parents exist_ok : bool) : M unit :=
  if parents then Path_mkdir_parents (absolute p) (rev (parts p)) exist_ok
  else Path_mkdir_flat p exist_ok.

(** [p.write_text(content, encoding="utf-8")]: the file is opened, which
    truncates it, and the encoded text is written. *)
Definition Path_write_text (p : Path) (content : str) : M unit :=
  do l <- syscall (open_trunc p);
  match utf8_encode content with
  | None => raise UnicodeEncodeError
  | Some b =>
      fun s => (Ok tt, mkState (set_node (st_world s) l (File b)) (st_log s))
  end.

(** [write_text(path, content)] of the source. *)
Definition write_text (path : Path) (content : str) : M unit :=
  Path_mkdir (parent path) true true ;;
  Path_write_text path content ;;
  emit (WroteText path content).

(** [shutil.copy2(src, dst)]: a directory [dst] stands for the file of the
    same base name inside it; the two must not be the same file; the bytes
    of [src] are read and written to the truncated destination.  The log
    records the call with the bytes that were copied. *)
Definition copy2 (src dst : Path) : M unit :=
  do d <- query (fun w => is_dir w dst);
  let dst' := if d then joinpath dst (basename src) else dst in
  do same <- query (fun w => samefile w src dst');
  if same then raise SameFileError
  else
    do data <- syscall (fun w => match read_bytes src w with
                                 | inl e => inl e
                                 | inr b => inr (b, w)
                                 end);
    do l <- syscall (open_trunc dst');
    (fun s => (Ok tt, mkState (set_node (st_world s) l (File data)) (st_log s))) ;;
    emit (Copied src dst data).

(** ** The program *)

(** [p / "name"] with a literal of the source. *)
Notation "p // s" := (joinpath p (lit s%string))
  (at level 40, left associativity).

(** The steps of [create_project] behind the existence check. *)
Definition render_settings_gradle (project_name : str) : str :=
  replace (lit "__PROJECT_NAME__") project_name SETTINGS_GRADLE.

Definition render_app_build_gradle
    (application_id : str) (compile_sdk min_sdk target_sdk : Z) : str :=
  replace (lit "__TARGET_SDK__") (str_of_int target_sdk)
    (replace (lit "__MIN_SDK__") (str_of_int min_sdk)
       (replace (lit "__COMPILE_SDK__") (str_of_int compile_sdk)
          (replace (lit "__APPLICATION_ID__") application_id APP_BUILD_GRADLE))).

Definition render_main_activity (application_id : str) : str :=
  replace (lit "__APPLICATION_ID__") application_id MAIN_ACTIVITY_TEMPLATE.

Definition main_activity_path (project_root : Path) (application_id : str) : Path :=
  join_paths (project_root // "app" // "src" // "main" // "java")
             (Path_of (split_on 46 application_id))
  // "MainActivity.kt".

(** [create_project(source_file, output_dir, project_name, app_name,
    application_id, compile_sdk, min_sdk, target_sdk)] *)
Definition create_project
    (source_file : option Path) (output_dir : Path)
    (project_name app_name application_id : str)
    (compile_sdk min_sdk target_sdk : Z) : M Path :=
  let project_root := joinpath output_dir project_name in
  do found <- query (fun w => exists_ w project_root);
  if found then raise FileExistsError
  else
    let settings_gradle := render_settings_gradle project_name in
    let app_build_gradle :=
      render_app_build_gradle application_id compile_sdk min_sdk target_sdk in
    write_text (project_root // "settings.gradle.kts") settings_gradle ;;
    write_text (project_root // "build.gradle.kts") ROOT_BUILD_GRADLE ;;
    write_text (project_root // "gradle.properties") GRADLE_PROPERTIES ;;
    write_text (project_root // "app" // "build.gradle.kts") app_build_gradle ;;
    write_text (project_root // "app" // "proguard-rules.pro") [] ;;
    write_text (project_root // "app" // "src" // "main" // "AndroidManifest.xml")
      ANDROID_MANIFEST ;;
    do strings_xml <-
      (fun s => (format STRINGS_XML (lit "app_name") app_name, s));
    write_text
      (project_root // "app" // "src" // "main" // "res" // "values" // "strings.xml")
      strings_xml ;;
    let main_activity_path := main_activity_path project_root application_id in
    match source_file with
    | Some source =>
        Path_mkdir (parent main_activity_path) true true ;;
        copy2 source main_activity_path
    | None =>
        write_text main_activity_path (render_main_activity application_id)
    end ;;
    ret project_root.

(** The host: the platform and the behaviour of child processes.  A child
    either cannot be started, or runs, possibly changing the file system,
    and exits with a return code. *)
Inductive spawn_outcome :=
  | CannotStart (e : exn)
  | Exited (returncode : Z).

Record Host := mkHost {
  platform_win : bool;   (* [sys.platform.startswith("win")] *)
  spawn : list str -> Path -> world -> spawn_outcome * world;
}.

(** [subprocess.run(cmd, cwd=dir, check=True)] *)
Definition subprocess_run_check (h : Host) (cmd : list str) (dir : Path) : M unit :=
  emit (Spawned cmd dir) ;;
  fun s =>
    match spawn h cmd dir (st_world s) with
    | (CannotStart e, w) => (Raise e, mkState w (st_log s))
    | (Exited rc, w) =>
        if (rc =? 0)%Z then (Ok tt, mkState w (st_log s))
        else (Raise (CalledProcessError rc), mkState w (st_log s))
    end.

Definition gradle_wrapper_cmd : list str := [lit "gradle"; lit "wrapper"].

Definition assemble_cmd (gradlew_path : Path) (offline : bool) : list str :=
  [path_str gradlew_path; lit "assembleDebug"]
    ++ (if offline then [lit "--offline"] else []).

(** [run_gradle_build(project_root, offline)] *)
Definition run_gradle_build (h : Host) (project_root : Path) (offline : bool) : M unit :=
  let gradlew := if platform_win h then lit "gradlew.bat" else lit "gradlew" in
  let gradlew_path := joinpath project_root gradlew in
  do present <- query (fun w => exists_ w gradlew_path);
  (if negb present then
     print MsgNoWrapper ;;
     subprocess_run_check h gradle_wrapper_cmd project_root
   else ret tt) ;;
  let cmd := assemble_cmd gradlew_path offline in
  print (MsgRunning cmd) ;;
  subprocess_run_check h cmd project_root.

(** The parsed command line. *)
Record Args := mkArgs {
  arg_source : option Path;
  arg_out : Path;
  arg_project : str;
  arg_app_name : str;
  arg_application_id : str;
  arg_compile_sdk : Z;
  arg_min_sdk : Z;
  arg_target_sdk : Z;
  arg_build : bool;
  arg_offline : bool;
}.

Definition default_project : str := lit "AiGeneratedAndroidApp".

(** [main()], from the parsed arguments to the return value that becomes
    the exit status. *)
Definition main (h : Host) (args : Args) : M Z :=
  let project_name := safe_name (arg_project args) default_project in
  let source_file := arg_source args in
  let proceed : M Z :=
    do created <-
      try_except
        (do root <-
           create_project source_file (arg_out args) project_name
             (arg_app_name args) (arg_application_id args)
             (arg_compile_sdk args) (arg_min_sdk args) (arg_target_sdk args);
         ret (inl root))
        (fun e =>
           match e with
           | FileExistsError => Some (print (MsgError e) ;; ret (inr 3%Z))
           | _ => None
           end);
    match created with
    | inr code => ret code
    | inl project_root =>
        print (MsgCreated project_root) ;;
        print MsgApkHint ;;
        if arg_build args then
          try_except
            (run_gradle_build h project_root (arg_offline args) ;;
             print MsgBuildDone ;;
             ret 0%Z)
            (fun e =>
               match e with
               | CalledProcessError rc =>
                   Some (print (MsgBuildFailed rc) ;;
                         ret (if (rc =? 0)%Z then 1%Z else rc))
               | FileNotFoundError => Some (print MsgGradleMissing ;; ret 4%Z)
               | _ => None
               end)
        else ret 0%Z
    end
  in
  match source_file with
  | Some p =>
      do found <- query (fun w => exists_ w p);
      if negb found then print (MsgSourceMissing p) ;; ret 2%Z else proceed
  | None => proceed
  end.

(** ** The app-module build file, field by field

    The text of [APP_BUILD_GRADLE] between its placeholders; apostrophes
    stand for double quotes as in the templates. *)

(** The text up to the namespace. *)
Definition build_head : str := tpl "plugins {
    id('com.android.application')
    id('org.jetbrains.kotlin.android')
}

android {
    namespace = '".

(** The text from the namespace to the compile SDK. *)
Definition build_compile_sdk : str := tpl "'
    compileSdk = ".

(** The text from the compile SDK to the application id. *)
Definition build_application_id : str := tpl "

    defaultConfig {
        applicationId = '".

(** The text from the application id to the minimum SDK. *)
Definition build_min_sdk : str := tpl "'
        minSdk = ".

(** The text from the minimum SDK to the target SDK. *)
Definition build_target_sdk : str := tpl "
        targetSdk = ".

(** The text behind the target SDK. *)
Definition build_tail : str := tpl "
        versionCode = 1
        versionName = '1.0'

        testInstrumentationRunner = 'androidx.test.runner.AndroidJUnitRunner'
    }

    buildTypes {
        release {
            isMinifyEnabled = false
            proguardFiles(
                getDefaultProguardFile('proguard-android-optimize.txt'),
                'proguard-rules.pro'
            )
        }
    }

    compileOptions {
        sourceCompatibility = JavaVersion.VERSION_17
        targetCompatibility = JavaVersion.VERSION_17
    }

    kotlinOptions {
        jvmTarget = '17'
    }
}

dependencies {
    implementation('androidx.core:core-ktx:1.13.1')
    implementation('androidx.appcompat:appcompat:1.7.0')
    implementation('com.google.android.material:material:1.12.0')
}
".

(** The text of [MAIN_ACTIVITY_TEMPLATE] behind its package line. *)
Definition activity_body : str := tpl "

import android.os.Bundle
import android.widget.TextView
import androidx.appcompat.app.AppCompatActivity

class MainActivity : AppCompatActivity() {
    override fun onCreate(savedInstanceState: Bundle?) {
        super.onCreate(savedInstanceState)
        val textView = TextView(this).apply {
            text = 'Hello from generated Android app'
            textSize = 24f
        }
        setContentView(textView)
    }
}
".

(** ** Notions used in the statements *)

(** [int(s)] on the output of [str]: an optional minus sign and digits. *)
Definition is_digit (c : char) : bool := (48 <=? c) && (c <=? 57).

Definition digits_value (s : str) : N :=
  fold_left (fun acc c => 10 * acc + (c - 48)) s 0.

Definition int_of_str (s : str) : Z :=
  match s with
  | c :: t => if c =? 45 then (- Z.of_N (digits_value t))%Z else Z.of_N (digits_value s)
  | [] => 0%Z
  end.

(** [d] is the decimal numeral of [n]: digits only, at least one, no
    leading zero except for the numeral of zero itself. *)
Definition decimal_of (n : N) (d : str) : Prop :=
  d <> [] /\ forallb is_digit d = true
  /\ (forall t, d = 48 :: t -> t = []) /\ digits_value d = n.

(** [s] is the base-10 rendering of [z]: the numeral of its magnitude,
    behind a minus sign exactly when [z] is negative; no other character,
    so no separator and no padding. *)
Definition renders_int (z : Z) (s : str) : Prop :=
  if (z <? 0)%Z then exists d, s = 45 :: d /\ decimal_of (Z.to_N (- z)) d
  else decimal_of (Z.to_N z) s.

(** The build file with the application id written as [x] at both places
    and the three SDK versions written as [c], [m] and [t]. *)
Definition filled_build (x c m t : str) : str :=
  build_head ++ x ++ build_compile_sdk ++ c ++ build_application_id ++ x
    ++ build_min_sdk ++ m ++ build_target_sdk ++ t ++ build_tail.

(** What the later replacements of [render_app_build_gradle] make of the
    application id that the first one has put in. *)
Definition rescanned_id (application_id : str) (compile_sdk min_sdk target_sdk : Z) : str :=
  replace (lit "__TARGET_SDK__") (str_of_int target_sdk)
    (replace (lit "__MIN_SDK__") (str_of_int min_sdk)
       (replace (lit "__COMPILE_SDK__") (str_of_int compile_sdk) application_id)).

(** The application id contains none of the three SDK placeholders. *)
Definition no_sdk_token (application_id : str) : Prop :=
  occurs (lit "__COMPILE_SDK__") application_id = false
  /\ occurs (lit "__MIN_SDK__") application_id = false
  /\ occurs (lit "__TARGET_SDK__") application_id = false.

(** Membership of a character in a string, and strings without common
    characters. *)
Definition mem_char (q : char) (s : str) : bool := existsb (N.eqb q) s.

Definition avoids (x old : str) : bool := forallb (fun q => negb (mem_char q old)) x.

(** The characters of the placeholders. *)
Definition is_token_char (c : char) : bool := ((65 <=? c) && (c <=? 90)) || (c =? 95).

(** Two nodes of the same kind. *)
Definition same_kind (n n' : node) : bool :=
  match n, n' with
  | Dir, Dir => true
  | File _, File _ => true
  | _, _ => false
  end.

(** [w'] extends [w]: the working directory is the same, and whatever
    exists in [w] exists in [w'] with the same kind. *)
Definition fs_extends (fs fs' : FS) : Prop :=
  forall l n, fs !! l = Some n -> exists n', fs' !! l = Some n' /\ same_kind n n' = true.

Definition world_extends (w w' : world) : Prop :=
  cwd w' = cwd w /\ fs_extends (fs w) (fs w').

(** Every run of [m] relates the state before to the state after by [P],
    whether it returns or raises. *)
Definition steps {A} (P : state -> state -> Prop) (m : M A) : Prop :=
  forall s r s', m s = (r, s') -> P s s'.

Definition extends (s s' : state) : Prop :=
  world_extends (st_world s) (st_world s').

(** The path [root / rel1 / ... / reln] for plain names [rel]. *)
Definition under (root : Path) (rel : list str) : Path :=
  mkPath (absolute root) (parts root ++ rel).

Definition no_dotdot (comps : list str) : Prop :=
  Forall (fun c => is_dotdot c = false) comps.

(** The location that a path without [..] denotes. *)
Definition lexical (w : world) (p : Path) : list str := base w p ++ parts p.

(** In a well-formed file system every node lies in a directory. *)
Definition wf_fs (fs : FS) : Prop :=
  forall l n, fs !! l = Some n -> node_at fs (removelast l) = Some Dir.

(** What an event puts on disk: the path and, for generated text, the
    content. *)
Definition output_of (ev : event) : option (Path * option str) :=
  match ev with
  | WroteText p content => Some (p, Some content)
  | Copied _ dst _ => Some (dst, None)
  | _ => None
  end.

Definition outputs (evs : list event) : list (Path * option str) :=
  omap output_of evs.

(** The commands that were started. *)
Definition spawned (evs : list event) : list (list str) :=
  omap (fun ev => match ev with Spawned cmd _ => Some cmd | _ => None end) evs.

(** The two pieces of [STRINGS_XML] around its field. *)
Definition strings_head : str := tpl "<?xml version='1.0' encoding='utf-8'?>
<resources>
    <string name='app_name'>".

Definition strings_tail : str := tpl "</string>
</resources>
".

(** A step that extends the world and logs nothing. *)
Definition quiet (s s' : state) : Prop := extends s s' /\ st_log s' = st_log s.

(** ** The writes of [create_project] as a list

    The seven calls of [write_text] that precede the source stub, in the
    order of the source, and the step that produces the stub. *)
Definition first_writes
    (project_root : Path) (project_name app_name application_id : str)
    (compile_sdk min_sdk target_sdk : Z) : list (Path * str) :=
  [ (project_root // "settings.gradle.kts", render_settings_gradle project_name);
    (project_root // "build.gradle.kts", ROOT_BUILD_GRADLE);
    (project_root // "gradle.properties", GRADLE_PROPERTIES);
    (project_root // "app" // "build.gradle.kts",
     render_app_build_gradle application_id compile_sdk min_sdk target_sdk);
    (project_root // "app" // "proguard-rules.pro", []);
    (project_root // "app" // "src" // "main" // "AndroidManifest.xml", ANDROID_MANIFEST);
    (project_root // "app" // "src" // "main" // "res" // "values" // "strings.xml",
     strings_head ++ app_name ++ strings_tail) ].

Definition write_all {A} (files : list (Path * str)) (k : M A) : M A :=
  fold_right (fun f rest => write_text (fst f) (snd f) ;; rest) k files.

Definition write_stub (source_file : option Path) (stub : Path) (application_id : str)
  : M unit :=
  match source_file with
  | Some source => Path_mkdir (parent stub) true true ;; copy2 source stub
  | None => write_text stub (render_main_activity application_id)
  end.

(** The names below the project root of the files in [first_writes] and of
    the directory of the source stub. *)
Definition first_names : list (list str) :=
  [ [lit "settings.gradle.kts"];
    [lit "build.gradle.kts"];
    [lit "gradle.properties"];
    [lit "app"; lit "build.gradle.kts"];
    [lit "app"; lit "proguard-rules.pro"];
    [lit "app"; lit "src"; lit "main"; lit "AndroidManifest.xml"];
    [lit "app"; lit "src"; lit "main"; lit "res"; lit "values"; lit "strings.xml"] ].

Definition stub_names (application_id : str) : list str :=
  [lit "app"; lit "src"; lit "main"; lit "java"]
    ++ parts (Path_of (split_on 46 application_id)) ++ [lit "MainActivity.kt"].

(** ** A small concrete run, used to instantiate the theorems *)

(** A host without Gradle in the working directory [/home]. *)
Definition demo_world : world := mkWorld ∅ [lit "home"].
Definition demo_state : state := mkState demo_world [].
Definition demo_out : Path := Path_of [lit "dist"].

(** A host on which every child process starts and exits with status 1. *)
Definition failing_host : Host :=
  mkHost false (fun _ _ w => (Exited 1, w)).

(** A host on which no child process can be started. *)
Definition bare_host : Host :=
  mkHost false (fun _ _ w => (CannotStart FileNotFoundError, w)).

Definition demo_args (source : option Path) (application_id : string) (build : bool) : Args :=
  mkArgs source demo_out (lit "Foo") (lit "Foo App") (lit application_id) 34 24 34 build true.

Definition demo_create (application_id : string) : result Path * state :=
  create_project None demo_out (lit "Foo") (lit "Foo App") (lit application_id)
    34 24 34 demo_state.

(** ** Footprints of the file operations on paths without [..] *)

(** The place from which a path with the given anchor is resolved. *)
Definition origin (anchor : bool) (s : state) : list (list N) :=
  if anchor then [] else cwd (st_world s).

(** The step changes the file system at most by new directories at the
    locations of the non-empty prefixes of [comps]. *)
Definition creates_dirs (anchor : bool) (comps : list (list N)) (s s' : state) : Prop :=
  cwd (st_world s') = cwd (st_world s)
  /\ forall l,
       fs (st_world s') !! l = fs (st_world s) !! l
       \/ (fs (st_world s) !! l = None /\ fs (st_world s') !! l = Some Dir
           /\ exists k, (0 < k <= length comps)%nat
                        /\ l = origin anchor s ++ take k comps).

(** The step changes the file system at most by new directories on the
    way to [comps] and by a file at [comps] itself. *)
Definition touches (anchor : bool) (comps : list (list N)) (s s' : state) : Prop :=
  cwd (st_world s') = cwd (st_world s)
  /\ forall l,
       fs (st_world s') !! l = fs (st_world s) !! l
       \/ (fs (st_world s) !! l = None /\ fs (st_world s') !! l = Some Dir
           /\ exists k, (0 < k < length comps)%nat
                        /\ l = origin anchor s ++ take k comps)
       \/ (l = origin anchor s ++ comps
           /\ exists b, fs (st_world s') !! l = Some (File b)).

(** The invariant of [create_project] with respect to the state [w0] in
    which it started and the location [R] of the project root: the working
    directory is the same, what existed outside the root is as it was, and
    no directory below the root is called [MainActivity.kt]. *)
Definition outside_kept (w0 : world) (R : list (list N)) (s : state) : Prop :=
  forall l n, fs w0 !! l = Some n -> ~ R `prefix_of` l ->
              fs (st_world s) !! l = Some n.

Definition no_stub_dir (R : list (list N)) (s : state) : Prop :=
  forall l, R `prefix_of` l -> l <> R ->
            List.last l [] = lit "MainActivity.kt" ->
            fs (st_world s) !! l <> Some Dir.

Definition project_inv (w0 : world) (R : list (list N)) (s : state) : Prop :=
  cwd (st_world s) = cwd w0 /\ outside_kept w0 R s /\ no_stub_dir R s.

(** A second state for the demonstrations: the output directory exists
    already and something has been printed. *)
Definition demo_state2 : state :=
  mkState (mkWorld {[ [lit "home"; lit "dist"] := Dir ]} [lit "home"])
          [Printed MsgApkHint].

(** A world with a source file [/in/Main.kt] of three bytes. *)
Definition demo_source : Path := Path_of [lit "/in/Main.kt"].

Definition demo_state3 : state :=
  mkState (mkWorld (<[ [lit "in"; lit "Main.kt"] := File [1; 2; 3] ]>
                      {[ [lit "in"] := Dir ]}) [lit "home"]) [].

(** A world in which [/home/Foo/app/build.gradle.kts] exists and [/home/x]
    does not: the root [x/../Foo] does not resolve before the call. *)
Definition shadowed_world : world :=
  mkWorld (<[ [lit "home"; lit "Foo"; lit "app"; lit "build.gradle.kts"] := File [1; 2; 3] ]>
           (<[ [lit "home"; lit "Foo"; lit "app"] := Dir ]>
           (<[ [lit "home"; lit "Foo"] := Dir ]> {[ [lit "home"] := Dir ]})))
          [lit "home"].

Definition shadowed_source : Path := Path_of [lit "Foo/app/build.gradle.kts"].

Definition shadowed_create : result Path * state :=
  create_project (Some shadowed_source) (Path_of [lit "x/.."]) (lit "Foo")
    (lit "Foo App") (lit "com.x.y") 34 24 34 (mkState shadowed_world []).

(** A world in which [/srv/MainActivity.kt] is a directory. *)
Definition occupied_world : world :=
  mkWorld (<[ [lit "in"; lit "Main.kt"] := File [1; 2; 3] ]>
           (<[ [lit "in"] := Dir ]>
           (<[ [lit "srv"; lit "MainActivity.kt"] := Dir ]> {[ [lit "srv"] := Dir ]})))
          [lit "home"].

Definition occupied_create : result Path * state :=
  create_project (Some demo_source) demo_out (lit "Foo") (lit "Foo App") (lit "/srv")
    34 24 34 (mkState occupied_world []).

Definition copied_create : result Path * state :=
  create_project (Some demo_source) demo_out (lit "Foo") (lit "Foo App") (lit "com.x.y")
    34 24 34 demo_state3.

(** ** Notions used in the further properties *)

(** The two pieces of [SETTINGS_GRADLE] around its placeholder. *)
Definition settings_head : str := tpl "pluginManagement {
    repositories {
        google()
        mavenCentral()
        gradlePluginPortal()
    }
}

dependencyResolutionManagement {
    repositoriesMode.set(RepositoriesMode.FAIL_ON_PROJECT_REPOS)
    repositories {
        google()
        mavenCentral()
    }
}

rootProject.name = '".

Definition settings_tail : str := tpl "'
include(':app')
".

(** A step that extends the world and starts no process. *)
Definition calm (s s' : state) : Prop :=
  extends s s' /\ spawned (st_log s') = spawned (st_log s).

(** The wrapper of a project root on the host. *)
Definition gradlew_path (h : Host) (project_root : Path) : Path :=
  joinpath project_root (if platform_win h then lit "gradlew.bat" else lit "gradlew").

(** The file at [p] holds the encoding of [content]. *)
Definition holds_text (s : state) (f : Path * list N) : Prop :=
  exists b, utf8_encode (snd f) = Some b /\ file_bytes (st_world s) (fst f) = Some b.

(** A project [proj] in the working directory, with and without its
    wrapper, and two hosts: one on which every process exits with 0, and
    one on which [gradle wrapper] makes the wrapper of [proj] and every
    other process exits with 7. *)
Definition demo_root : Path := mkPath false [lit "proj"].

Definition unwrapped_state : state :=
  mkState (mkWorld (<[ [lit "home"; lit "proj"] := Dir ]> {[ [lit "home"] := Dir ]})
             [lit "home"]) [].

Definition wrapped_state : state :=
  mkState (set_node (st_world unwrapped_state) [lit "home"; lit "proj"; lit "gradlew"]
             (File [])) [].

Definition quiet_host : Host := mkHost false (fun _ _ w => (Exited 0, w)).

Definition wrapping_host : Host :=
  mkHost false
    (fun cmd _ w =>
       if bool_decide (cmd = gradle_wrapper_cmd)
       then (Exited 0, set_node w [lit "home"; lit "proj"; lit "gradlew"] (File []))
       else (Exited 7, w)).

(** ** Notions for the tree below the project root *)

(** The location [rel] below the root lies on the way to one of the files
    [names]: it is a proper prefix of the name, and not the location of a
    root without components. *)
Definition on_the_way (root : Path) (names : list (list str)) (rel : list str) : Prop :=
  parts root ++ rel <> []
  /\ Exists (fun nm => rel `prefix_of` nm /\ rel <> nm) names.

(** A world like [occupied_world] in which [/srv/MainActivity.kt] does not
    exist. *)
Definition vacant_world : world :=
  mkWorld (<[ [lit "in"; lit "Main.kt"] := File [1; 2; 3] ]>
           (<[ [lit "in"] := Dir ]> {[ [lit "srv"] := Dir ]}))
          [lit "home"].

Definition vacant_create : result Path * state :=
  create_project (Some demo_source) demo_out (lit "Foo") (lit "Foo App") (lit "/srv")
    34 24 34 (mkState vacant_world []).

(** * Properties *)

(** ** The sanitizer *)

Lemma re_sub_unsafe_all_safe s : all_safe (re_sub_unsafe s).
Proof.
  unfold all_safe, re_sub_unsafe. apply List.Forall_forall.
  intros c Hc. apply List.filter_In in Hc. tauto.
Qed.

Lemma safe_char_not_space c : is_safe_char c = true -> is_space c = false.
Proof.
  unfold is_safe_char, is_space. intros H.
  repeat (apply orb_true_iff in H; destruct H as [H|H]);
    try (apply andb_true_iff in H; destruct H as [H1 H2];
         apply N.leb_le in H1; apply N.leb_le in H2);
    try (apply N.eqb_eq in H);
    repeat (apply orb_false_iff; split);
    try (apply andb_false_iff);
    rewrite ?N.leb_gt, ?N.eqb_neq; lia.
Qed.

Lemma re_sub_unsafe_id s : all_safe s -> re_sub_unsafe s = s.
Proof.
  unfold all_safe, re_sub_unsafe. induction 1 as [|c t Hc _ IH]; simpl; [done|].
  by rewrite Hc, IH.
Qed.

Lemma lstrip_all_safe s : all_safe s -> lstrip s = s.
Proof.
  destruct 1 as [|c t Hc _]; [done|]. simpl.
  by rewrite (safe_char_not_space _ Hc).
Qed.

Lemma all_safe_rev s : all_safe s -> all_safe (rev s).
Proof.
  unfold all_safe. rewrite !List.Forall_forall.
  intros H c Hc. apply H. by apply List.in_rev.
Qed.

Lemma strip_all_safe s : all_safe s -> strip s = s.
Proof.
  intros H. unfold strip, rstrip. rewrite (lstrip_all_safe s H).
  rewrite (lstrip_all_safe _ (all_safe_rev _ H)). apply rev_involutive.
Qed.

Lemma safe_name_cases name fallback :
  (re_sub_unsafe (strip name) = [] /\ safe_name name fallback = fallback)
  \/ (re_sub_unsafe (strip name) <> []
      /\ safe_name name fallback = re_sub_unsafe (strip name)).
Proof.
  unfold safe_name. destruct (re_sub_unsafe (strip name)); [left|right]; done.
Qed.

Lemma safe_name_fixed s f : s <> [] -> all_safe s -> safe_name s f = s.
Proof.
  intros Hne Hs. unfold safe_name.
  rewrite (strip_all_safe s Hs), (re_sub_unsafe_id s Hs).
  destruct s; [done|reflexivity].
Qed.

(** ** [str.replace] *)

Lemma mem_char_false_cons q o old :
  mem_char q (o :: old) = false -> o <> q /\ mem_char q old = false.
Proof.
  unfold mem_char. simpl. intros H. apply orb_false_iff in H as [H1 H2].
  apply N.eqb_neq in H1. split; [congruence|done].
Qed.

Lemma is_prefix_sep old : forall a q b,
  mem_char q old = false -> is_prefix old (a ++ q :: b) = is_prefix old a.
Proof.
  induction old as [|o old IH]; intros a q b Hq; [by destruct a|].
  apply mem_char_false_cons in Hq as [Ho Hq].
  destruct a as [|c a]; simpl.
  - apply andb_false_iff. left. by apply N.eqb_neq.
  - by rewrite IH.
Qed.

Lemma is_prefix_length old : forall a,
  is_prefix old a = true -> (length old <= length a)%nat.
Proof.
  induction old as [|o old IH]; intros [|c a] H; simpl in *; try lia; try done.
  apply andb_true_iff in H as [_ H]. apply IH in H. lia.
Qed.

Lemma replace_from_sep old new q b : forall a k,
  old <> [] -> mem_char q old = false -> (k <= length a)%nat ->
  replace_from old new k (a ++ q :: b)
  = replace_from old new k a ++ q :: replace_from old new 0 b.
Proof.
  induction a as [|c a IH]; intros k Hne Hq Hk.
  - simpl in Hk. assert (k = 0%nat) as -> by lia.
    change ([] ++ q :: b) with (q :: b).
    cbn [replace_from app].
    assert (is_prefix old (q :: b) = false) as ->; [|done].
    destruct old as [|o old]; [done|].
    apply mem_char_false_cons in Hq as [Ho _]. simpl.
    apply andb_false_iff. left. by apply N.eqb_neq.
  - change ((c :: a) ++ q :: b) with (c :: (a ++ q :: b)).
    destruct k as [|k]; cbn [replace_from].
    + change (c :: a ++ q :: b) with ((c :: a) ++ q :: b).
      rewrite (is_prefix_sep old (c :: a) q b Hq).
      destruct (is_prefix old (c :: a)) eqn:Hp.
      * apply is_prefix_length in Hp. simpl in Hp.
        rewrite IH by (try done; lia). by rewrite <- app_assoc.
      * rewrite IH by (try done; simpl; lia). done.
    + simpl in Hk. apply IH; try done. lia.
Qed.

Lemma replace_sep old new a q b :
  old <> [] -> mem_char q old = false ->
  replace old new (a ++ q :: b) = replace old new a ++ q :: replace old new b.
Proof.
  intros Hne Hq. destruct old as [|o old]; [done|].
  unfold replace. apply replace_from_sep; [done|done|lia].
Qed.

Lemma replace_nil old new : old <> [] -> replace old new [] = [].
Proof. by destruct old. Qed.

Lemma replace_cons_foreign old new q b :
  old <> [] -> mem_char q old = false ->
  replace old new (q :: b) = q :: replace old new b.
Proof.
  intros Hne Hq. pose proof (replace_sep old new [] q b Hne Hq) as E.
  by rewrite replace_nil in E.
Qed.

(** A non-empty run of characters foreign to [old] splits the string. *)
Lemma replace_chunk old new x : forall a b,
  old <> [] -> x <> [] -> avoids x old = true ->
  replace old new (a ++ x ++ b) = replace old new a ++ x ++ replace old new b.
Proof.
  induction x as [|q x IH]; intros a b Hne Hx Hav; [done|].
  simpl in Hav. apply andb_true_iff in Hav as [Hq Hav].
  apply negb_true_iff in Hq.
  change (a ++ (q :: x) ++ b) with (a ++ q :: (x ++ b)).
  rewrite replace_sep by done.
  destruct x as [|q' x]; [done|].
  specialize (IH [] b Hne). rewrite replace_nil in IH by done.
  cbn [app] in IH |- *. by rewrite IH.
Qed.

Lemma replace_absent old new : forall s,
  occurs old s = false -> replace old new s = s.
Proof.
  destruct old as [|o old]; [by intros []|].
  unfold replace. induction s as [|c s IH]; intros H; [done|].
  cbn [occurs] in H. apply orb_false_iff in H as [Hp H].
  cbn [replace_from]. rewrite Hp. by rewrite IH.
Qed.

(** ** [str] on integers *)

Lemma digits_value_snoc (d : str) (c : char) : digits_value (d ++ [c]) = 10 * digits_value d + (c - 48).
Proof. unfold digits_value. by rewrite fold_left_app. Qed.

Lemma digit_of_mod n : is_digit (48 + n mod 10) = true.
Proof.
  unfold is_digit. assert (n mod 10 < 10) as H by (apply N.mod_lt; lia).
  revert H. generalize (n mod 10). intros r H.
  apply andb_true_iff. split; apply N.leb_le; lia.
Qed.

Lemma digits_from_S f n acc :
  digits_from (S f) n acc
  = if n <? 10 then (48 + n mod 10) :: acc
    else digits_from f (n / 10) ((48 + n mod 10) :: acc).
Proof. reflexivity. Qed.

Lemma digits_from_spec : forall f n acc,
  n < 2 ^ N.of_nat f ->
  exists d, digits_from (S f) n acc = d ++ acc /\ decimal_of n d.
Proof.
  induction f as [|f IH]; intros n acc Hn.
  - simpl in Hn. assert (n = 0) as -> by lia.
    exists [48]. split; [done|]. repeat split; try done. by intros t [= <-].
  - rewrite digits_from_S. destruct (n <? 10) eqn:Hlt.
    + apply N.ltb_lt in Hlt. exists [48 + n mod 10]. split; [done|].
      rewrite N.mod_small by done. repeat split; try done.
      * simpl. rewrite andb_true_r. unfold is_digit.
        apply andb_true_iff. split; apply N.leb_le; lia.
      * by intros t [= _ <-].
      * unfold digits_value. simpl. lia.
    + apply N.ltb_ge in Hlt.
      assert (n / 10 < 2 ^ N.of_nat f) as Hq.
      { rewrite Nat2N.inj_succ, N.pow_succ_r' in Hn.
        apply N.Div0.div_lt_upper_bound.
        revert Hn. generalize (2 ^ N.of_nat f). intros X Hn. lia. }
      destruct (IH (n / 10) ((48 + n mod 10) :: acc) Hq) as (d & Hd & Hne & Hdig & Hz & Hv).
      exists (d ++ [48 + n mod 10]). split.
      { rewrite Hd. by rewrite <- app_assoc. }
      repeat split.
      * by destruct d.
      * rewrite forallb_app, Hdig. simpl. by rewrite digit_of_mod.
      * intros t Ht. destruct d as [|c d]; [done|].
        simpl in Ht. injection Ht as -> Ht.
        specialize (Hz d eq_refl). subst d.
        unfold digits_value in Hv. simpl in Hv.
        assert (1 <= n / 10); [|lia].
        apply N.div_le_lower_bound; lia.
      * rewrite digits_value_snoc, Hv.
        pose proof (N.Div0.div_mod n 10) as E. revert E.
        generalize (n / 10), (n mod 10). intros a b E. lia.
Qed.

Lemma size_nat_bound p : N.pos p < 2 ^ N.of_nat (Pos.size_nat p).
Proof.
  induction p as [p IH|p IH|]; cbn [Pos.size_nat];
    rewrite ?Nat2N.inj_succ, ?N.pow_succ_r'; [| |done];
    revert IH; generalize (2 ^ N.of_nat (Pos.size_nat p)); intros X IH; lia.
Qed.

Lemma str_of_N_decimal n : decimal_of n (str_of_N n).
Proof.
  unfold str_of_N.
  destruct (digits_from_spec (N.size_nat n) n []) as (d & Hd & Hdec).
  - destruct n as [|p]; [done|]. apply size_nat_bound.
  - by rewrite Hd, app_nil_r.
Qed.

Lemma str_of_int_renders z : renders_int z (str_of_int z).
Proof.
  unfold renders_int, str_of_int. destruct (z <? 0)%Z.
  - eexists. split; [reflexivity|]. apply str_of_N_decimal.
  - apply str_of_N_decimal.
Qed.

Lemma decimal_head_digit n d : decimal_of n d -> exists c t, d = c :: t /\ is_digit c = true.
Proof.
  intros (Hne & Hdig & _ & _). destruct d as [|c t]; [done|].
  exists c, t. split; [done|]. simpl in Hdig. by apply andb_true_iff in Hdig as [? _].
Qed.

Lemma int_of_str_of_int z : int_of_str (str_of_int z) = z.
Proof.
  pose proof (str_of_int_renders z) as H. unfold renders_int in H.
  destruct (z <? 0)%Z eqn:Hz.
  - destruct H as (d & -> & _ & _ & _ & Hv). unfold int_of_str.
    rewrite N.eqb_refl, Hv. apply Z.ltb_lt in Hz. lia.
  - destruct (decimal_head_digit _ _ H) as (c & t & E & Hc).
    destruct H as (_ & _ & _ & Hv). rewrite E in *. unfold int_of_str.
    assert ((c =? 45) = false) as ->.
    { unfold is_digit in Hc. apply andb_true_iff in Hc as [Hc _].
      apply N.leb_le in Hc. apply N.eqb_neq. lia. }
    rewrite Hv. apply Z.ltb_ge in Hz. lia.
Qed.

(** The characters of a rendered integer are foreign to the placeholders. *)
Lemma digit_not_token c : is_digit c || (c =? 45) = true -> is_token_char c = false.
Proof.
  unfold is_digit, is_token_char. intros H.
  apply orb_false_iff. rewrite andb_false_iff, !N.leb_gt, N.eqb_neq.
  apply orb_true_iff in H as [H|H].
  - apply andb_true_iff in H as [H1 H2]. apply N.leb_le in H1, H2. lia.
  - apply N.eqb_eq in H. lia.
Qed.

Lemma mem_char_token q old :
  forallb is_token_char old = true -> is_token_char q = false -> mem_char q old = false.
Proof.
  unfold mem_char. induction old as [|o old IH]; simpl; [done|].
  intros H Hq. apply andb_true_iff in H as [Ho H].
  rewrite (IH H Hq), orb_false_r. apply N.eqb_neq. congruence.
Qed.

Lemma str_of_int_chars z :
  forallb (fun c => is_digit c || (c =? 45)) (str_of_int z) = true.
Proof.
  pose proof (str_of_int_renders z) as H. unfold renders_int in H.
  assert (forall d, forallb is_digit d = true ->
                    forallb (fun c => is_digit c || (c =? 45)) d = true) as Hd.
  { induction d as [|c d IH]; simpl; [done|]. intros H'.
    apply andb_true_iff in H' as [-> H']. by rewrite IH. }
  destruct (z <? 0)%Z.
  - destruct H as (d & -> & _ & Hdig & _). simpl. by apply Hd.
  - destruct H as (_ & Hdig & _). by apply Hd.
Qed.

Lemma str_of_int_nonempty z : str_of_int z <> [].
Proof.
  pose proof (str_of_int_renders z) as H. unfold renders_int in H.
  destruct (z <? 0)%Z.
  - by destruct H as (d & -> & _).
  - by destruct H as (? & _).
Qed.

Lemma str_of_int_avoids z old :
  forallb is_token_char old = true -> avoids (str_of_int z) old = true.
Proof.
  intros Hold. unfold avoids. pose proof (str_of_int_chars z) as H.
  induction (str_of_int z) as [|c s IH]; simpl in *; [done|].
  apply andb_true_iff in H as [Hc H]. rewrite (IH H), andb_true_r.
  apply negb_true_iff, mem_char_token; [done|]. by apply digit_not_token.
Qed.

(** ** Rendering of the app-module build file *)

(** A string in the place of [x] between two quote characters is replaced
    on its own. *)
Lemma replace_between old new q a x b :
  old <> [] -> mem_char q old = false ->
  a <> [] -> List.last a 0 = q -> List.hd_error b = Some q ->
  replace old new (a ++ x ++ b) = replace old new a ++ replace old new x ++ replace old new b.
Proof.
  intros Hne Hq Ha Hl Hb.
  rewrite (app_removelast_last 0 Ha), Hl.
  destruct b as [|q' b]; [done|]. injection Hb as ->.
  rewrite <- !app_assoc. cbn [app].
  rewrite (replace_sep old new (removelast a) q) by done.
  rewrite (replace_sep old new x q) by done.
  rewrite (replace_sep old new (removelast a) q []) by done.
  rewrite (replace_cons_foreign old new q b) by done.
  rewrite !replace_nil by done. by rewrite <- !app_assoc.
Qed.

Lemma token_chars :
  forallb is_token_char (lit "__COMPILE_SDK__") = true
  /\ forallb is_token_char (lit "__MIN_SDK__") = true
  /\ forallb is_token_char (lit "__TARGET_SDK__") = true.
Proof. by vm_compute. Qed.

Lemma template_is_filled x :
  replace (lit "__APPLICATION_ID__") x APP_BUILD_GRADLE
  = filled_build x (lit "__COMPILE_SDK__") (lit "__MIN_SDK__") (lit "__TARGET_SDK__").
Proof. vm_compute. reflexivity. Qed.

Ltac close_quote := first [ by vm_compute | vm_compute; reflexivity ].

Lemma fill_compile_sdk x n :
  replace (lit "__COMPILE_SDK__") n
    (filled_build x (lit "__COMPILE_SDK__") (lit "__MIN_SDK__") (lit "__TARGET_SDK__"))
  = filled_build (replace (lit "__COMPILE_SDK__") n x) n
      (lit "__MIN_SDK__") (lit "__TARGET_SDK__").
Proof.
  unfold filled_build.
  set (old := lit "__COMPILE_SDK__").
  set (g1 := build_compile_sdk ++ old ++ build_application_id).
  set (g2 := build_min_sdk ++ lit "__MIN_SDK__" ++ build_target_sdk
               ++ lit "__TARGET_SDK__" ++ build_tail).
  transitivity (replace old n (build_head ++ x ++ (g1 ++ x ++ g2))); [reflexivity|].
  rewrite (replace_between old n 34 build_head x) by close_quote.
  rewrite (replace_between old n 34 g1 x g2) by close_quote.
  assert (replace old n build_head = build_head) as -> by close_quote.
  assert (replace old n g1 = build_compile_sdk ++ n ++ build_application_id) as ->
    by close_quote.
  assert (replace old n g2 = g2) as -> by close_quote.
  unfold g2. by rewrite <- ?app_assoc.
Qed.

Lemma fill_min_sdk x c n :
  c <> [] -> avoids c (lit "__MIN_SDK__") = true ->
  replace (lit "__MIN_SDK__") n
    (filled_build x c (lit "__MIN_SDK__") (lit "__TARGET_SDK__"))
  = filled_build (replace (lit "__MIN_SDK__") n x) c n (lit "__TARGET_SDK__").
Proof.
  intros Hc Hav. unfold filled_build.
  set (old := lit "__MIN_SDK__") in *.
  set (g2 := build_min_sdk ++ old ++ build_target_sdk ++ lit "__TARGET_SDK__" ++ build_tail).
  change (replace old n (build_head ++ x ++ (build_compile_sdk ++ c ++ (build_application_id ++ x ++ g2)))
          = build_head ++ replace old n x ++ build_compile_sdk ++ c ++ build_application_id
              ++ replace old n x ++ build_min_sdk ++ n ++ build_target_sdk
              ++ lit "__TARGET_SDK__" ++ build_tail).
  rewrite (replace_between old n 34 build_head x) by close_quote.
  rewrite (replace_chunk old n c build_compile_sdk) by (done || close_quote).
  rewrite (replace_between old n 34 build_application_id x g2) by close_quote.
  assert (replace old n build_head = build_head) as -> by close_quote.
  assert (replace old n build_compile_sdk = build_compile_sdk) as -> by close_quote.
  assert (replace old n build_application_id = build_application_id) as -> by close_quote.
  assert (replace old n g2 = build_min_sdk ++ n ++ build_target_sdk
                               ++ lit "__TARGET_SDK__" ++ build_tail) as ->
    by close_quote.
  by rewrite <- ?app_assoc.
Qed.

Lemma fill_target_sdk x c m n :
  c <> [] -> avoids c (lit "__TARGET_SDK__") = true ->
  m <> [] -> avoids m (lit "__TARGET_SDK__") = true ->
  replace (lit "__TARGET_SDK__") n (filled_build x c m (lit "__TARGET_SDK__"))
  = filled_build (replace (lit "__TARGET_SDK__") n x) c m n.
Proof.
  intros Hc Hcav Hm Hmav. unfold filled_build.
  set (old := lit "__TARGET_SDK__") in *.
  set (g3 := build_target_sdk ++ old ++ build_tail).
  change (replace old n (build_head ++ x ++ (build_compile_sdk ++ c
                           ++ (build_application_id ++ x ++ (build_min_sdk ++ m ++ g3))))
          = build_head ++ replace old n x ++ build_compile_sdk ++ c ++ build_application_id
              ++ replace old n x ++ build_min_sdk ++ m ++ build_target_sdk ++ n ++ build_tail).
  rewrite (replace_between old n 34 build_head x) by close_quote.
  rewrite (replace_chunk old n c build_compile_sdk) by (done || close_quote).
  rewrite (replace_between old n 34 build_application_id x) by close_quote.
  rewrite (replace_chunk old n m build_min_sdk) by (done || close_quote).
  assert (replace old n build_head = build_head) as -> by close_quote.
  assert (replace old n build_compile_sdk = build_compile_sdk) as -> by close_quote.
  assert (replace old n build_application_id = build_application_id) as -> by close_quote.
  assert (replace old n build_min_sdk = build_min_sdk) as -> by close_quote.
  assert (replace old n g3 = build_target_sdk ++ n ++ build_tail) as -> by close_quote.
  by rewrite <- ?app_assoc.
Qed.

(** The rendered build file is the template with its five fields filled. *)
Lemma render_app_build_gradle_filled id c m t :
  render_app_build_gradle id c m t
  = filled_build (rescanned_id id c m t) (str_of_int c) (str_of_int m) (str_of_int t).
Proof.
  destruct token_chars as (Hc & Hm & Ht).
  unfold render_app_build_gradle, rescanned_id.
  rewrite template_is_filled, fill_compile_sdk.
  rewrite fill_min_sdk by (apply str_of_int_nonempty || by apply str_of_int_avoids).
  rewrite fill_target_sdk by (apply str_of_int_nonempty || by apply str_of_int_avoids).
  reflexivity.
Qed.

Lemma rescanned_id_clean id c m t : no_sdk_token id -> rescanned_id id c m t = id.
Proof.
  intros (H1 & H2 & H3). unfold rescanned_id.
  by rewrite (replace_absent _ _ id H1), (replace_absent _ _ id H2), (replace_absent _ _ id H3).
Qed.

Lemma render_main_activity_form id :
  render_main_activity id = lit "package " ++ id ++ activity_body.
Proof. vm_compute. reflexivity. Qed.

(** ** The monad *)

Lemma bind_inv {A B} (m : M A) (k : A -> M B) s r s' :
  bind m k s = (r, s') ->
  (exists a s1, m s = (Ok a, s1) /\ k a s1 = (r, s'))
  \/ (exists e, m s = (Raise e, s') /\ r = Raise e).
Proof.
  unfold bind. destruct (m s) as [[a|e] s1]; intros H.
  - left. by exists a, s1.
  - right. exists e. by injection H as <- <-.
Qed.

Lemma bind_ok {A B} (m : M A) (k : A -> M B) s b s' :
  bind m k s = (Ok b, s') -> exists a s1, m s = (Ok a, s1) /\ k a s1 = (Ok b, s').
Proof. intros H. apply bind_inv in H as [H|(e & _ & H)]; [done|discriminate]. Qed.

Lemma try_except_inv {A} (m : M A) handler s r s' :
  try_except m handler s = (r, s') ->
  (exists a, m s = (Ok a, s') /\ r = Ok a)
  \/ (exists e s1 h, m s = (Raise e, s1) /\ handler e = Some h /\ h s1 = (r, s'))
  \/ (exists e, m s = (Raise e, s') /\ handler e = None /\ r = Raise e).
Proof.
  unfold try_except. destruct (m s) as [[a|e] s1]; intros H.
  - left. exists a. by injection H as <- <-.
  - right. destruct (handler e) as [h|] eqn:Hh.
    + left. by exists e, s1, h.
    + right. exists e. by injection H as <- <-.
Qed.

Section Steps.
Context (P : state -> state -> Prop).
Hypothesis P_refl : forall s, P s s.
Hypothesis P_trans : forall s1 s2 s3, P s1 s2 -> P s2 s3 -> P s1 s3.

Lemma steps_raise {A} e : steps P (@raise A e).
Proof using P_refl. intros s r s' [= <- <-]. apply P_refl. Qed.

Lemma steps_bind {A B} (m : M A) (k : A -> M B) :
  steps P m -> (forall a, steps P (k a)) -> steps P (bind m k).
Proof using P_trans.
  intros Hm Hk s r s' H. apply bind_inv in H as [(a & s1 & H1 & H2)|(e & H1 & _)].
  - eapply P_trans; [by eapply Hm|by eapply Hk].
  - by eapply Hm.
Qed.

Lemma steps_try {A} (m : M A) handler :
  steps P m -> (forall e h, handler e = Some h -> steps P h) ->
  steps P (try_except m handler).
Proof using P_trans.
  intros Hm Hh s r s' H.
  apply try_except_inv in H
    as [(a & H1 & _)|[(e & s1 & h & H1 & Hhe & H2)|(e & H1 & _ & _)]].
  - by eapply Hm.
  - eapply P_trans; [by eapply Hm|by eapply Hh].
  - by eapply Hm.
Qed.

End Steps.

(** ** Path resolution in a growing file system *)

Lemma same_kind_dir n : same_kind Dir n = true -> n = Dir.
Proof. by destruct n. Qed.

Lemma fs_extends_refl (m : gmap (list (list N)) node) : fs_extends m m.
Proof. intros l n H. exists n. split; [done|by destruct n]. Qed.

Lemma same_kind_trans n1 n2 n3 :
  same_kind n1 n2 = true -> same_kind n2 n3 = true -> same_kind n1 n3 = true.
Proof. by destruct n1, n2, n3. Qed.

Lemma fs_extends_trans (m1 m2 m3 : gmap (list (list N)) node) :
  fs_extends m1 m2 -> fs_extends m2 m3 -> fs_extends m1 m3.
Proof.
  intros H12 H23 l n H. destruct (H12 l n H) as (n2 & H2 & K2).
  destruct (H23 l n2 H2) as (n3 & H3 & K3). exists n3. split; [done|].
  by eapply same_kind_trans.
Qed.

Lemma extends_refl s : extends s s.
Proof. split; [done|apply fs_extends_refl]. Qed.

Lemma extends_trans s1 s2 s3 : extends s1 s2 -> extends s2 s3 -> extends s1 s3.
Proof.
  intros [C1 F1] [C2 F2]. split; [congruence|by eapply fs_extends_trans].
Qed.

Lemma node_at_extends (m m' : gmap (list (list N)) node) l n :
  fs_extends m m' -> node_at m l = Some n ->
  exists n', node_at m' l = Some n' /\ same_kind n n' = true.
Proof.
  intros H. destruct l as [|c l]; simpl.
  - intros [= <-]. by exists Dir.
  - apply H.
Qed.

Lemma node_at_extends_dir (m m' : gmap (list (list N)) node) l :
  fs_extends m m' -> node_at m l = Some Dir -> node_at m' l = Some Dir.
Proof.
  intros H Hl. destruct (node_at_extends m m' l Dir H Hl) as (n' & Hn & K).
  by rewrite (same_kind_dir _ K) in Hn.
Qed.

Lemma walk_extends (m m' : gmap (list (list N)) node) comps : forall cur d,
  fs_extends m m' -> walk m cur comps = inr d -> walk m' cur comps = inr d.
Proof.
  induction comps as [|c comps IH]; intros cur d H Hw; [done|].
  cbn [walk] in *. destruct (is_dotdot c); [by apply IH|].
  destruct (node_at m (cur ++ [c])) as [[b|]|] eqn:Hn; try done.
  rewrite (node_at_extends_dir m m' _ H Hn). by apply IH.
Qed.

Lemma lookup_parent_extends w w' p x :
  world_extends w w' -> lookup_parent w p = inr x -> lookup_parent w' p = inr x.
Proof.
  intros [Hc Hf]. unfold lookup_parent, base. rewrite Hc.
  destruct (split_last (parts p)) as [[dirs name]|]; [|done].
  destruct (walk (fs w) _ dirs) as [e|d] eqn:Hw; [done|].
  by rewrite (walk_extends _ _ _ _ _ Hf Hw).
Qed.

Lemma locate_extends w w' p l :
  world_extends w w' -> locate w p = inr l -> locate w' p = inr l.
Proof.
  intros H. unfold locate.
  destruct (lookup_parent w p) as [e|x] eqn:Hp; [done|].
  rewrite (lookup_parent_extends w w' p x H Hp).
  destruct x as [[d name]|]; [done|]. unfold base. destruct H as [-> _]. done.
Qed.

Lemma stat_extends w w' p l n :
  world_extends w w' -> stat w p = inr (l, n) ->
  exists n', stat w' p = inr (l, n') /\ same_kind n n' = true.
Proof.
  intros H. unfold stat.
  destruct (locate w p) as [e|l0] eqn:Hl; [done|].
  rewrite (locate_extends w w' p l0 H Hl).
  destruct (node_at (fs w) l0) as [n0|] eqn:Hn; [|done].
  intros [= <- <-]. destruct H as [_ Hf].
  destruct (node_at_extends _ _ _ _ Hf Hn) as (n' & -> & K). by exists n'.
Qed.

Lemma is_dir_extends w w' p :
  world_extends w w' -> is_dir w p = true -> is_dir w' p = true.
Proof.
  intros H. unfold is_dir.
  destruct (stat w p) as [e|[l [b|]]] eqn:Hs; try done.
  destruct (stat_extends w w' p l Dir H Hs) as (n' & -> & K).
  by rewrite (same_kind_dir _ K).
Qed.

Lemma is_dir_exists w p : is_dir w p = true -> exists_ w p = true.
Proof. unfold is_dir, exists_. by destruct (stat w p). Qed.

(** Writing a node where there was none, or one of the same kind. *)
Lemma set_node_extends w l n :
  l <> [] ->
  (forall n0, fs w !! l = Some n0 -> same_kind n0 n = true) ->
  world_extends w (set_node w l n).
Proof.
  intros Hl Hk. split; [done|]. intros l' n' H. simpl.
  destruct (decide (l = l')) as [<-|Hne].
  - rewrite lookup_insert_eq. exists n. split; [done|by apply Hk].
  - rewrite lookup_insert_ne by done. exists n'. split; [done|by destruct n'].
Qed.

Lemma node_at_snoc (m : gmap (list (list N)) node) (d : list (list N)) name :
  node_at m (d ++ [name]) = m !! (d ++ [name]).
Proof. by destruct d. Qed.

Lemma os_mkdir_ok p w w' :
  os_mkdir p w = inr w' ->
  exists d name, lookup_parent w p = inr (Some (d, name)) /\ is_dotdot name = false
    /\ fs w !! (d ++ [name]) = None /\ w' = set_node w (d ++ [name]) Dir.
Proof.
  unfold os_mkdir. destruct (lookup_parent w p) as [e|[[d name]|]] eqn:Hp; try done.
  destruct (is_dotdot name) eqn:Hdd; [done|]. rewrite node_at_snoc.
  destruct (fs w !! (d ++ [name])) eqn:Hn; [done|]. intros [= <-]. by exists d, name.
Qed.

Lemma os_mkdir_extends p w w' : os_mkdir p w = inr w' -> world_extends w w'.
Proof.
  intros H. apply os_mkdir_ok in H as (d & name & _ & _ & Hn & ->).
  apply set_node_extends; [by destruct d|]. intros n0. by rewrite Hn.
Qed.

Lemma stat_after_set w p d name n :
  lookup_parent w p = inr (Some (d, name)) -> is_dotdot name = false ->
  world_extends w (set_node w (d ++ [name]) n) ->
  stat (set_node w (d ++ [name]) n) p = inr (d ++ [name], n).
Proof.
  intros Hp Hdd He. unfold stat, locate.
  rewrite (lookup_parent_extends _ _ _ _ He Hp), Hdd, node_at_snoc. simpl.
  by rewrite lookup_insert_eq.
Qed.

Lemma os_mkdir_is_dir p w w' : os_mkdir p w = inr w' -> is_dir w' p = true.
Proof.
  intros H. pose proof (os_mkdir_extends p w w' H) as He.
  apply os_mkdir_ok in H as (d & name & Hp & Hdd & Hn & ->).
  unfold is_dir. by rewrite (stat_after_set w p d name Dir Hp Hdd He).
Qed.

(** ** The file operations extend the world *)

Lemma quiet_refl s : quiet s s.
Proof. split; [apply extends_refl|done]. Qed.

Lemma quiet_trans s1 s2 s3 : quiet s1 s2 -> quiet s2 s3 -> quiet s1 s3.
Proof.
  intros [E1 L1] [E2 L2]. split; [by eapply extends_trans|congruence].
Qed.

Lemma mkdir_call_inv p s r s' :
  mkdir_call p s = (r, s') ->
  (exists e, os_mkdir p (st_world s) = inl e /\ r = Raise (exn_of_errno e) /\ s' = s)
  \/ (exists w', os_mkdir p (st_world s) = inr w' /\ r = Ok tt
                 /\ s' = mkState w' (st_log s)).
Proof.
  unfold mkdir_call, syscall. destruct (os_mkdir p (st_world s)) as [e|w'].
  - intros [= <- <-]. left. by exists e.
  - intros [= <- <-]. right. by exists w'.
Qed.

Lemma mkdir_call_quiet p : steps quiet (mkdir_call p).
Proof.
  intros s r s' H. apply mkdir_call_inv in H as [(e & _ & _ & ->)|(w' & H & _ & ->)].
  - apply quiet_refl.
  - split; [|done]. by apply os_mkdir_extends in H.
Qed.

Lemma mkdir_call_is_dir p s s' :
  mkdir_call p s = (Ok tt, s') -> is_dir (st_world s') p = true.
Proof.
  intros H. apply mkdir_call_inv in H as [(e & _ & H & _)|(w' & H & _ & ->)]; [done|].
  by apply os_mkdir_is_dir in H.
Qed.

(** The second handler of [Path.mkdir]: the directory is there already. *)
Lemma exist_ok_handler_inv p exist_ok e s r s' :
  (do d <- query (fun w => is_dir w p);
   if negb exist_ok || negb d then raise e else ret tt) s = (r, s') ->
  s' = s /\ (r = Ok tt -> is_dir (st_world s) p = true).
Proof.
  unfold bind, query.
  destruct (negb exist_ok || negb (is_dir (st_world s) p)) eqn:Hb.
  - intros [= <- <-]. done.
  - intros [= <- <-]. split; [done|]. intros _.
    apply orb_false_iff in Hb as [_ Hb]. by apply negb_false_iff in Hb.
Qed.

Lemma Path_mkdir_flat_quiet p exist_ok : steps quiet (Path_mkdir_flat p exist_ok).
Proof.
  apply steps_try; [apply quiet_trans|apply mkdir_call_quiet|].
  intros e h He s r s' H. destruct e; injection He as <-;
    first [ injection H as <- <-; apply quiet_refl
          | apply exist_ok_handler_inv in H as [-> _]; apply quiet_refl ].
Qed.

Lemma Path_mkdir_flat_is_dir p exist_ok s s' :
  Path_mkdir_flat p exist_ok s = (Ok tt, s') -> is_dir (st_world s') p = true.
Proof.
  intros H. apply try_except_inv in H
    as [(a & H & _)|[(e & s1 & h & H1 & He & H2)|(e & _ & _ & ?)]]; [| |done].
  - destruct a. by apply mkdir_call_is_dir in H.
  - destruct e; injection He as <-; try discriminate;
      apply exist_ok_handler_inv in H2 as [-> H2]; by apply H2.
Qed.

Lemma Path_mkdir_parents_quiet anchor rparts : forall exist_ok,
  steps quiet (Path_mkdir_parents anchor rparts exist_ok).
Proof.
  induction rparts as [|c rparts IH]; intros exist_ok;
    (apply steps_try; [apply quiet_trans|apply mkdir_call_quiet|]);
    intros e h He s r s' H; destruct e; injection He as <-;
    try (apply exist_ok_handler_inv in H as [-> _]; apply quiet_refl).
  - injection H as <- <-. apply quiet_refl.
  - revert s r s' H. apply steps_bind; [apply quiet_trans|apply IH|].
    intros _. apply Path_mkdir_flat_quiet.
Qed.

Lemma Path_mkdir_parents_is_dir anchor rparts exist_ok s s' :
  Path_mkdir_parents anchor rparts exist_ok s = (Ok tt, s') ->
  is_dir (st_world s') (mkPath anchor (rev rparts)) = true.
Proof.
  destruct rparts as [|c rparts]; intros H;
    apply try_except_inv in H
      as [(a & H & _)|[(e & s1 & h & H1 & He & H2)|(e & _ & _ & ?)]]; try done;
    try (destruct a; by apply mkdir_call_is_dir in H);
    destruct e; injection He as <-; try discriminate;
    try (apply exist_ok_handler_inv in H2 as [-> H2]; by apply H2).
  apply bind_ok in H2 as (_ & s2 & _ & H2). by apply Path_mkdir_flat_is_dir in H2.
Qed.

Lemma Path_mkdir_quiet p parents exist_ok : steps quiet (Path_mkdir p parents exist_ok).
Proof.
  unfold Path_mkdir. destruct parents;
    [apply Path_mkdir_parents_quiet|apply Path_mkdir_flat_quiet].
Qed.

Lemma Path_mkdir_is_dir p parents exist_ok s s' :
  Path_mkdir p parents exist_ok s = (Ok tt, s') -> is_dir (st_world s') p = true.
Proof.
  unfold Path_mkdir. destruct parents; intros H.
  - apply Path_mkdir_parents_is_dir in H. rewrite rev_involutive in H. by destruct p.
  - by apply Path_mkdir_flat_is_dir in H.
Qed.

Lemma open_trunc_ok p w l w' :
  open_trunc p w = inr (l, w') ->
  exists d name, lookup_parent w p = inr (Some (d, name)) /\ is_dotdot name = false
    /\ l = d ++ [name] /\ fs w !! l <> Some Dir /\ w' = set_node w l (File []).
Proof.
  unfold open_trunc. destruct (lookup_parent w p) as [e|[[d name]|]] eqn:Hp; try done.
  destruct (is_dotdot name) eqn:Hdd; [done|]. rewrite node_at_snoc.
  destruct (fs w !! (d ++ [name])) as [[b|]|] eqn:Hn; try done;
    intros [= <- <-]; exists d, name; by rewrite Hn.
Qed.

Lemma set_file_extends w l b :
  l <> [] -> fs w !! l <> Some Dir -> world_extends w (set_node w l (File b)).
Proof.
  intros Hl Hn. apply set_node_extends; [done|]. intros [b0|] H; [done|]. by rewrite H in Hn.
Qed.

(** A file that has been opened for writing at [l] and then filled. *)
Lemma stored_file p w l w' b :
  open_trunc p w = inr (l, w') ->
  world_extends w (set_node w' l (File b))
  /\ stat (set_node w' l (File b)) p = inr (l, File b).
Proof.
  intros H. apply open_trunc_ok in H as (d & name & Hp & Hdd & -> & Hn & ->).
  assert (set_node (set_node w (d ++ [name]) (File [])) (d ++ [name]) (File b)
          = set_node w (d ++ [name]) (File b)) as ->.
  { unfold set_node. simpl. by rewrite insert_insert_eq. }
  assert (world_extends w (set_node w (d ++ [name]) (File b))) as He
    by (apply set_file_extends; [by destruct d|done]).
  split; [done|]. by apply stat_after_set.
Qed.

Lemma Path_write_text_inv p content s r s' :
  Path_write_text p content s = (r, s') ->
  extends s s' /\ st_log s' = st_log s
  /\ (r = Ok tt -> exists b, utf8_encode content = Some b
                             /\ file_bytes (st_world s') p = Some b).
Proof.
  unfold Path_write_text, bind, syscall.
  destruct (open_trunc p (st_world s)) as [e|[l w1]] eqn:Ho.
  - intros [= <- <-]. split; [apply extends_refl|]. done.
  - simpl. destruct (stored_file p _ l w1 [] Ho) as [He0 _].
    destruct (utf8_encode content) as [b|].
    + intros [= <- <-]. destruct (stored_file p _ l w1 b Ho) as [He Hs].
      split; [done|]. split; [done|]. intros _. exists b. split; [done|].
      unfold file_bytes. simpl. by rewrite Hs.
    + intros [= <- <-]. simpl. split; [|done].
      apply open_trunc_ok in Ho as (d & name & _ & _ & -> & Hn & ->).
      apply set_file_extends; [by destruct d|done].
Qed.

Lemma emit_inv ev s r s' :
  emit ev s = (r, s') -> r = Ok tt /\ st_world s' = st_world s /\ st_log s' = st_log s ++ [ev].
Proof. by intros [= <- <-]. Qed.

(** [write_text] on success: the parent is a directory, the file holds the
    encoded content, and the call is logged. *)
Lemma write_text_ok path content s s' :
  write_text path content s = (Ok tt, s') ->
  extends s s' /\ st_log s' = st_log s ++ [WroteText path content]
  /\ is_dir (st_world s') (parent path) = true
  /\ exists b, utf8_encode content = Some b /\ file_bytes (st_world s') path = Some b.
Proof.
  unfold write_text. intros H.
  apply bind_ok in H as ([] & s1 & H1 & H).
  apply bind_ok in H as ([] & s2 & H2 & H).
  apply emit_inv in H as (_ & Hw & Hl).
  pose proof (Path_mkdir_quiet _ _ _ _ _ _ H1) as [E1 L1].
  apply Path_mkdir_is_dir in H1.
  apply Path_write_text_inv in H2 as (E2 & L2 & H2).
  destruct (H2 eq_refl) as (b & Hb & Hf).
  assert (extends s s') as E.
  { unfold extends. rewrite Hw. by apply (extends_trans s s1 s2). }
  split; [done|]. split; [congruence|]. rewrite Hw. split.
  - by eapply is_dir_extends.
  - by exists b.
Qed.

(** ** [create_project], step by step *)

Lemma format_strings_xml app_name :
  format STRINGS_XML (lit "app_name") app_name
  = Ok (strings_head ++ app_name ++ strings_tail).
Proof. vm_compute. reflexivity. Qed.

Lemma create_project_unfold source_file output_dir project_name app_name
    application_id compile_sdk min_sdk target_sdk :
  create_project source_file output_dir project_name app_name application_id
    compile_sdk min_sdk target_sdk
  = let project_root := joinpath output_dir project_name in
    do found <- query (fun w => exists_ w project_root);
    if found then raise FileExistsError
    else
      write_all
        (first_writes project_root project_name app_name application_id
           compile_sdk min_sdk target_sdk)
        (write_stub source_file (main_activity_path project_root application_id)
           application_id ;;
         ret project_root).
Proof.
  unfold create_project, write_all, first_writes, write_stub. cbn [fold_right fst snd].
  cbv zeta. f_equal.
Qed.

Lemma write_all_ok {A} (k : M A) files : forall s a s',
  write_all files k s = (Ok a, s') ->
  exists s1, extends s s1
    /\ st_log s1 = st_log s ++ List.map (fun f => WroteText (fst f) (snd f)) files
    /\ (forall f, In f files -> is_dir (st_world s1) (parent (fst f)) = true)
    /\ k s1 = (Ok a, s').
Proof.
  induction files as [|f files IH]; intros s a s' H.
  - exists s. split; [apply extends_refl|]. split; [by rewrite app_nil_r|]. done.
  - cbn [write_all fold_right] in H. apply bind_ok in H as ([] & s0 & H0 & H).
    apply write_text_ok in H0 as (E0 & L0 & D0 & _).
    destruct (IH s0 a s' H) as (s1 & E1 & L1 & D1 & Hk).
    exists s1. split; [by eapply extends_trans|]. split.
    { rewrite L1, L0. by rewrite <- app_assoc. }
    split; [|done]. intros f' [<-|Hin]; [|by apply D1].
    by eapply is_dir_extends.
Qed.

Lemma copy2_ok src dst s s' :
  copy2 src dst s = (Ok tt, s') ->
  extends s s'
  /\ exists data, read_bytes src (st_world s) = inr data
       /\ st_log s' = st_log s ++ [Copied src dst data]
       /\ file_bytes (st_world s')
            (if is_dir (st_world s) dst then joinpath dst (basename src) else dst)
          = Some data.
Proof.
  unfold copy2. intros H.
  apply bind_ok in H as (d & s0 & [= <- <-] & H).
  apply bind_ok in H as (same & s0 & [= <- <-] & H).
  destruct (samefile _ _ _); [done|].
  apply bind_ok in H as (data & s1 & H1 & H).
  apply bind_ok in H as (l & s2 & H2 & H).
  apply bind_ok in H as ([] & s3 & [= <-] & H).
  apply emit_inv in H as (_ & Hw & Hl).
  unfold syscall in H1, H2.
  destruct (read_bytes src (st_world s)) as [e|b] eqn:Hr; [done|].
  injection H1 as <- <-. simpl in H2.
  destruct (open_trunc _ _) as [e|[l' w2]] eqn:Ho; [done|].
  injection H2 as <- <-. simpl in *.
  destruct (stored_file _ _ _ _ b Ho) as [He Hs].
  split; [unfold extends; by rewrite Hw|].
  exists b. split; [done|]. split; [done|].
  unfold file_bytes. by rewrite Hw, Hs.
Qed.

Lemma write_stub_ok source_file stub id s s' :
  write_stub source_file stub id s = (Ok tt, s') ->
  extends s s'
  /\ exists ev, st_log s' = st_log s ++ [ev]
       /\ output_of ev
          = Some (stub, match source_file with
                        | Some _ => None
                        | None => Some (render_main_activity id)
                        end).
Proof.
  unfold write_stub. destruct source_file as [source|]; intros H.
  - apply bind_ok in H as ([] & s1 & H1 & H).
    pose proof (Path_mkdir_quiet _ _ _ _ _ _ H1) as [E1 L1].
    apply copy2_ok in H as (E & data & _ & L & _).
    split; [by eapply extends_trans|].
    exists (Copied source stub data). split; [congruence|done].
  - apply write_text_ok in H as (E & L & _). split; [done|].
    by exists (WroteText stub (render_main_activity id)).
Qed.

Lemma parent_joinpath_name p n :
  is_abs_str n = false -> parse_parts n = [n] -> parent (joinpath p n) = p.
Proof.
  intros Ha Hp. unfold joinpath, parent. rewrite Ha, Hp. simpl.
  rewrite removelast_last. by destruct p.
Qed.

(** What a successful [create_project] has done. *)
Lemma create_project_ok source_file output_dir project_name app_name
    application_id compile_sdk min_sdk target_sdk s root s' :
  create_project source_file output_dir project_name app_name application_id
    compile_sdk min_sdk target_sdk s = (Ok root, s') ->
  root = joinpath output_dir project_name
  /\ exists_ (st_world s) root = false
  /\ extends s s'
  /\ exists_ (st_world s') root = true
  /\ exists s1 ev,
       extends s s1
       /\ st_log s1
          = st_log s
            ++ List.map (fun f => WroteText (fst f) (snd f))
                 (first_writes root project_name app_name application_id
                    compile_sdk min_sdk target_sdk)
       /\ write_stub source_file (main_activity_path root application_id)
            application_id s1 = (Ok tt, s')
       /\ st_log s' = st_log s1 ++ [ev]
       /\ output_of ev
          = Some (main_activity_path root application_id,
                  match source_file with
                  | Some _ => None
                  | None => Some (render_main_activity application_id)
                  end).
Proof.
  rewrite create_project_unfold. cbv zeta. intros H.
  apply bind_ok in H as (found & s0 & [= <- <-] & H).
  destruct (exists_ (st_world s) (joinpath output_dir project_name)) eqn:Hex; [done|].
  apply write_all_ok in H as (s1 & E1 & L1 & D1 & H).
  apply bind_ok in H as ([] & s2 & H2 & [= <- <-]).
  pose proof H2 as H2'. apply write_stub_ok in H2' as (E2 & ev & L2 & Hev).
  assert (extends s s2) as E by (by eapply extends_trans).
  split; [done|]. split; [done|]. split; [done|]. split.
  - apply is_dir_exists. eapply is_dir_extends; [apply E2|].
    specialize (D1 _ (or_introl eq_refl)). cbn [fst] in D1.
    by rewrite parent_joinpath_name in D1.
  - by exists s1, ev.
Qed.

(** ** Paths below the project root *)

Lemma under_nil root : under root [] = root.
Proof. unfold under. rewrite app_nil_r. by destruct root. Qed.

Lemma joinpath_under root rel n :
  is_abs_str n = false -> joinpath (under root rel) n = under root (rel ++ parse_parts n).
Proof. intros H. unfold joinpath, under. rewrite H. simpl. by rewrite <- app_assoc. Qed.

Lemma join_paths_under root rel q :
  absolute q = false -> join_paths (under root rel) q = under root (rel ++ parts q).
Proof. intros H. unfold join_paths, under. rewrite H. simpl. by rewrite <- app_assoc. Qed.

Lemma main_activity_path_under root id :
  absolute (Path_of (split_on 46 id)) = false ->
  main_activity_path root id = under root (stub_names id).
Proof.
  intros H. unfold main_activity_path, stub_names.
  rewrite <- (under_nil root) at 1.
  rewrite !joinpath_under by done. rewrite join_paths_under by done.
  rewrite joinpath_under by done. reflexivity.
Qed.


(** ** Resolution of paths without [..] *)

Lemma walk_result_lexical (m : gmap (list (list N)) node) comps : forall cur d,
  no_dotdot comps -> walk m cur comps = inr d -> d = cur ++ comps.
Proof.
  induction comps as [|c comps IH]; intros cur d Hnd Hw.
  - simpl in Hw. injection Hw as <-. by rewrite app_nil_r.
  - apply Forall_cons in Hnd as [Hc Hnd]. cbn [walk] in Hw. rewrite Hc in Hw.
    destruct (node_at m (cur ++ [c])) as [[b|]|]; try done.
    apply IH in Hw; [|done]. by rewrite Hw, <- app_assoc.
Qed.

Lemma walk_lexical (m : gmap (list (list N)) node) comps : forall cur,
  no_dotdot comps ->
  (forall k, (0 < k <= length comps)%nat -> node_at m (cur ++ take k comps) = Some Dir) ->
  walk m cur comps = inr (cur ++ comps).
Proof.
  induction comps as [|c comps IH]; intros cur Hnd Hdirs.
  - by rewrite app_nil_r.
  - apply Forall_cons in Hnd as [Hc Hnd]. cbn [walk]. rewrite Hc.
    pose proof (Hdirs 1%nat ltac:(simpl; lia)) as H1. cbn in H1. rewrite take_0 in H1. rewrite H1.
    rewrite IH; [by rewrite <- app_assoc|done|].
    intros k Hk. rewrite <- app_assoc. apply (Hdirs (S k)). simpl. lia.
Qed.

Lemma no_dotdot_app a b : no_dotdot (a ++ b) <-> no_dotdot a /\ no_dotdot b.
Proof. apply Forall_app. Qed.

Lemma split_last_snoc (dirs : list (list N)) name :
  split_last (dirs ++ [name]) = Some (dirs, name).
Proof.
  unfold split_last. destruct (dirs ++ [name]) eqn:E; [by destruct dirs|].
  rewrite <- E. by rewrite removelast_last, last_last.
Qed.

Lemma split_last_inv (l dirs : list (list N)) name :
  split_last l = Some (dirs, name) -> l = dirs ++ [name].
Proof.
  unfold split_last. destruct l as [|c l]; [done|]. intros [= <- <-].
  exact (app_removelast_last [] (l := c :: l) ltac:(discriminate)).
Qed.

Lemma lookup_parent_lexical w p d name :
  no_dotdot (parts p) -> lookup_parent w p = inr (Some (d, name)) ->
  d ++ [name] = lexical w p /\ is_dotdot name = false.
Proof.
  intros Hnd. unfold lookup_parent, lexical.
  destruct (split_last (parts p)) as [[dirs nm]|] eqn:Hs; [|done].
  apply split_last_inv in Hs. rewrite Hs in Hnd |- *.
  apply no_dotdot_app in Hnd as [Hd Hn].
  destruct (walk (fs w) (base w p) dirs) as [e|d'] eqn:Hw; [done|].
  intros [= <- <-]. apply walk_result_lexical in Hw; [|done].
  split; [by rewrite Hw, <- app_assoc|]. by inversion Hn.
Qed.

Lemma stat_lexical w p l n :
  no_dotdot (parts p) -> stat w p = inr (l, n) ->
  l = lexical w p /\ node_at (fs w) l = Some n.
Proof.
  intros Hnd. unfold stat, locate.
  destruct (lookup_parent w p) as [e|[[d name]|]] eqn:Hp; [done| |].
  - apply lookup_parent_lexical in Hp as [Hl Hdd]; [|done]. rewrite Hdd, Hl.
    destruct (node_at (fs w) (lexical w p)) eqn:Hn; [|done]. by intros [= <- <-].
  - unfold lookup_parent in Hp.
    destruct (split_last (parts p)) as [[dirs nm]|] eqn:Hs.
    { by destruct (walk (fs w) (base w p) dirs). }
    assert (parts p = []) as Hnil by (destruct (parts p); done).
    unfold lexical. rewrite Hnil, app_nil_r.
    destruct (node_at (fs w) (base w p)) eqn:Hn; [|done]. by intros [= <- <-].
Qed.

(** In a well-formed file system, what lies above a node is a directory. *)
Lemma wf_above (m : gmap (list (list N)) node) : forall k l n,
  wf_fs m -> m !! (l ++ k) = Some n -> k <> [] -> node_at m l = Some Dir.
Proof.
  induction k as [|x k IH] using rev_ind; intros l n Hwf Hn Hk; [done|].
  rewrite app_assoc in Hn. pose proof (Hwf _ _ Hn) as Hup.
  rewrite removelast_last in Hup.
  destruct k as [|y k]; [by rewrite app_nil_r in Hup|].
  assert (node_at m (l ++ y :: k) = m !! (l ++ y :: k)) as E by (by destruct l).
  rewrite E in Hup. by eapply IH.
Qed.

(** ** Footprints *)

Lemma creates_dirs_refl anchor comps s : creates_dirs anchor comps s s.
Proof. split; [done|]. intros l. by left. Qed.

Lemma creates_dirs_trans anchor comps s1 s2 s3 :
  creates_dirs anchor comps s1 s2 -> creates_dirs anchor comps s2 s3 ->
  creates_dirs anchor comps s1 s3.
Proof.
  intros [C1 H1] [C2 H2]. split; [congruence|]. intros l.
  destruct (H2 l) as [E2|(N2 & D2 & k & Hk & ->)].
  - rewrite E2. apply H1.
  - right. split; [|split; [done|]].
    + destruct (H1 (origin anchor s2 ++ take k comps)) as [E1|(N1 & _)];
        [by rewrite <- E1|done].
    + exists k. split; [done|]. unfold origin. by rewrite C1.
Qed.

Lemma creates_dirs_mono anchor comps more s s' :
  creates_dirs anchor comps s s' -> creates_dirs anchor (comps ++ more) s s'.
Proof.
  intros [C H]. split; [done|]. intros l.
  destruct (H l) as [E|(N & D & k & Hk & ->)]; [by left|right].
  split; [done|]. split; [done|]. exists k. split.
  - rewrite length_app. lia.
  - by rewrite take_app_le by lia.
Qed.

Lemma steps_weaken {A} (P Q : state -> state -> Prop) (m : M A) :
  (forall s s', P s s' -> Q s s') -> steps P m -> steps Q m.
Proof. intros HPQ Hm s r s' H. apply HPQ. by eapply Hm. Qed.

Lemma mkdir_call_creates anchor comps :
  no_dotdot comps -> steps (creates_dirs anchor comps) (mkdir_call (mkPath anchor comps)).
Proof.
  intros Hnd s r s' H.
  apply mkdir_call_inv in H as [(e & _ & _ & ->)|(w' & H & _ & ->)];
    [apply creates_dirs_refl|].
  apply os_mkdir_ok in H as (d & name & Hp & _ & Hn & ->).
  pose proof Hp as Hp'. apply lookup_parent_lexical in Hp' as [Hl _]; [|done].
  unfold lexical, base in Hl. cbn [absolute parts] in Hl.
  split; [done|]. intros l. cbn [st_world set_node fs].
  destruct (decide (d ++ [name] = l)) as [<-|Hne].
  - right. rewrite lookup_insert_eq. split; [done|]. split; [done|].
    exists (length comps). split.
    + split; [|done]. destruct comps; [by destruct d|simpl; lia].
    + by rewrite firstn_all.
  - left. by rewrite lookup_insert_ne.
Qed.

Lemma exist_ok_handler_creates anchor comps p exist_ok e :
  steps (creates_dirs anchor comps)
    (do d <- query (fun w => is_dir w p);
     if negb exist_ok || negb d then raise e else ret tt).
Proof.
  intros s r s' H. apply exist_ok_handler_inv in H as [-> _]. apply creates_dirs_refl.
Qed.

Lemma Path_mkdir_flat_creates anchor comps exist_ok :
  no_dotdot comps ->
  steps (creates_dirs anchor comps) (Path_mkdir_flat (mkPath anchor comps) exist_ok).
Proof.
  intros Hnd. apply steps_try;
    [apply creates_dirs_trans|by apply mkdir_call_creates|].
  intros e h He. destruct e; injection He as <-;
    first [ apply steps_raise; apply creates_dirs_refl
          | apply exist_ok_handler_creates ].
Qed.

Lemma Path_mkdir_parents_creates anchor rparts : forall exist_ok,
  no_dotdot (rev rparts) ->
  steps (creates_dirs anchor (rev rparts)) (Path_mkdir_parents anchor rparts exist_ok).
Proof.
  induction rparts as [|c rparts IH]; intros exist_ok Hnd;
    (apply steps_try; [apply creates_dirs_trans|by apply mkdir_call_creates|]);
    intros e h He; destruct e; injection He as <-;
    try apply exist_ok_handler_creates.
  - apply steps_raise, creates_dirs_refl.
  - apply steps_bind; [apply creates_dirs_trans| |].
    + cbn [rev] in Hnd |- *. apply no_dotdot_app in Hnd as [Hnd _].
      eapply steps_weaken; [|by apply IH]. intros s s'. apply creates_dirs_mono.
    + intros _. by apply Path_mkdir_flat_creates.
Qed.

Lemma Path_mkdir_creates p exist_ok :
  no_dotdot (parts p) ->
  steps (creates_dirs (absolute p) (parts p)) (Path_mkdir p true exist_ok).
Proof.
  intros Hnd. unfold Path_mkdir.
  rewrite <- (rev_involutive (parts p)) at 1.
  apply Path_mkdir_parents_creates. by rewrite rev_involutive.
Qed.

Lemma take_removelast (l : list (list N)) k :
  (k <= length (removelast l))%nat -> take k (removelast l) = take k l.
Proof.
  destruct l as [|x l _] using rev_ind; [done|].
  rewrite removelast_last. intros H. by rewrite take_app_le.
Qed.

Lemma length_removelast_lt (l : list (list N)) :
  l <> [] -> (length (removelast l) < length l)%nat.
Proof.
  destruct l as [|x l _] using rev_ind; [done|]. intros _.
  rewrite removelast_last, length_app. simpl. lia.
Qed.

(** A successful [write_text] touches the path and the way to it. *)
Lemma write_text_touches path content s s' :
  no_dotdot (parts path) ->
  write_text path content s = (Ok tt, s') ->
  touches (absolute path) (parts path) s s'.
Proof.
  intros Hnd H. unfold write_text in H.
  apply bind_ok in H as ([] & s1 & H1 & H).
  apply bind_ok in H as ([] & s2 & H2 & H).
  apply emit_inv in H as (_ & Hw & _).
  assert (no_dotdot (parts (parent path))) as Hndp.
  { cbn [parent parts]. destruct (parts path) as [|c l] using rev_ind; [done|].
    rewrite removelast_last. by apply no_dotdot_app in Hnd as [? _]. }
  pose proof (Path_mkdir_creates (parent path) true Hndp _ _ _ H1) as [C1 D1].
  cbn [parent parts absolute] in D1.
  unfold Path_write_text, bind, syscall in H2.
  destruct (open_trunc path (st_world s1)) as [e|[l w2]] eqn:Ho; [done|].
  destruct (utf8_encode content) as [b|]; [|done]. injection H2 as <-.
  apply open_trunc_ok in Ho as (d & name & Hp & _ & -> & _ & ->).
  apply lookup_parent_lexical in Hp as [Hl _]; [|done].
  unfold lexical, base in Hl.
  assert (d ++ [name] = origin (absolute path) s ++ parts path) as Hloc.
  { unfold origin. by rewrite Hl, C1. }
  unfold touches. rewrite Hw. cbn [st_world set_node fs cwd]. split; [done|]. intros l.
  destruct (decide (d ++ [name] = l)) as [<-|Hne].
  - right. right. split; [done|]. exists b. by rewrite lookup_insert_eq.
  - rewrite !lookup_insert_ne by done.
    destruct (D1 l) as [E|(N & D & k & Hk & ->)]; [by left|].
    right. left. split; [done|]. split; [done|].
    assert (parts path <> []) as Hne'.
    { intros E. rewrite E in Hk. simpl in Hk. lia. }
    exists k. rewrite take_removelast by lia.
    pose proof (length_removelast_lt _ Hne'). split; [lia|done].
Qed.

(** ** The invariant of [create_project] *)

Lemma last_app_nonempty (a t : list (list N)) :
  t <> [] -> List.last (a ++ t) [] = List.last t [].
Proof.
  destruct t as [|x t _] using rev_ind; [done|]. intros _.
  by rewrite app_assoc, !last_last.
Qed.

Lemma last_in (t : list (list N)) : t <> [] -> In (List.last t []) t.
Proof.
  destruct t as [|x t _] using rev_ind; [done|]. intros _.
  rewrite last_last. apply in_or_app. right. by left.
Qed.

(** A directory made on the way to [rp ++ rel], strictly below [rp], bears
    one of the first [k - length rp] names of [rel]. *)
Lemma made_below (B rp rel : list (list N)) k l :
  l = B ++ take k (rp ++ rel) -> (B ++ rp) `prefix_of` l -> l <> B ++ rp ->
  In (List.last l []) (take (k - length rp) rel).
Proof.
  intros -> Hpre Hne.
  destruct (decide (k <= length rp)%nat) as [Hk|Hk].
  - exfalso. rewrite take_app_le in Hpre, Hne by done.
    apply prefix_length in Hpre. rewrite !length_app, length_take in Hpre.
    apply Hne. f_equal. apply take_ge. lia.
  - rewrite take_app_ge in Hne |- * by lia.
    destruct (take (k - length rp) rel) as [|x t] eqn:Et.
    { by rewrite app_nil_r in Hne. }
    rewrite app_assoc, last_app_nonempty by done. by apply last_in.
Qed.

Lemma project_inv_origin w0 root s :
  cwd (st_world s) = cwd w0 ->
  origin (absolute root) s ++ parts root = lexical w0 root.
Proof. intros H. unfold origin, lexical, base. by rewrite H. Qed.

Lemma creates_dirs_project_inv w0 root rel s s' :
  creates_dirs (absolute root) (parts root ++ rel) s s' ->
  Forall (fun c => c <> lit "MainActivity.kt") rel ->
  project_inv w0 (lexical w0 root) s -> project_inv w0 (lexical w0 root) s'.
Proof.
  intros [C H] Hrel (Hc & Hout & Hj).
  pose proof (project_inv_origin w0 root s Hc) as HR.
  split; [congruence|]. split.
  - intros l n Hl Hpre. specialize (Hout l n Hl Hpre).
    destruct (H l) as [E|(N & _)]; [by rewrite E|congruence].
  - intros l Hpre Hne Hlast Hdir.
    destruct (H l) as [E|(_ & _ & k & Hk & El)].
    + rewrite E in Hdir. by apply (Hj l).
    + rewrite <- HR in Hpre, Hne.
      pose proof (made_below _ _ _ _ _ El Hpre Hne) as Hin.
      rewrite Hlast in Hin. apply list_elem_of_In, elem_of_take in Hin as (i & Hi & _).
      apply list_elem_of_lookup_2 in Hi.
      by apply (proj1 (Forall_forall _ _) Hrel) in Hi.
Qed.

Lemma touches_project_inv w0 root rel s s' :
  touches (absolute root) (parts root ++ rel) s s' ->
  Forall (fun c => c <> lit "MainActivity.kt") (removelast rel) ->
  project_inv w0 (lexical w0 root) s -> project_inv w0 (lexical w0 root) s'.
Proof.
  intros [C H] Hrel (Hc & Hout & Hj).
  pose proof (project_inv_origin w0 root s Hc) as HR.
  split; [congruence|]. split.
  - intros l n Hl Hpre. specialize (Hout l n Hl Hpre).
    destruct (H l) as [E|[(N & _)|(El & _)]]; [by rewrite E|congruence|].
    exfalso. apply Hpre. exists rel. by rewrite El, app_assoc, HR.
  - intros l Hpre Hne Hlast Hdir.
    destruct (H l) as [E|[(_ & _ & k & Hk & El)|(_ & b & Hb)]]; [| |congruence].
    + rewrite E in Hdir. by apply (Hj l).
    + rewrite <- HR in Hpre, Hne.
      pose proof (made_below _ _ _ _ _ El Hpre Hne) as Hin.
      rewrite Hlast in Hin. apply list_elem_of_In, elem_of_take in Hin as (i & Hi & Hlt).
      rewrite length_app in Hk.
      assert (removelast rel !! i = Some (lit "MainActivity.kt")) as Hi'.
      { destruct rel as [|x rel _] using rev_ind; [done|].
        rewrite removelast_last. rewrite length_app in Hk. simpl in Hk.
        rewrite lookup_app_l in Hi by lia. done. }
      apply list_elem_of_lookup_2 in Hi'.
      by apply (proj1 (Forall_forall _ _) Hrel) in Hi'.
Qed.

(** ** The components of the source-stub path *)

Lemma split_on_chars sep s :
  Forall (fun w => forall x, In x w -> In x s /\ x <> sep) (split_on sep s).
Proof.
  induction s as [|c s IH]; [by repeat constructor|].
  cbn [split_on]. destruct (c =? sep) eqn:Hc.
  - constructor; [done|]. eapply Forall_impl; [exact IH|].
    intros w Hw x Hx. destruct (Hw x Hx). split; [by right|done].
  - apply N.eqb_neq in Hc.
    destruct (split_on sep s) as [|w ws].
    { constructor; [|constructor]. intros x [<-|[]]. split; [by left|done]. }
    apply Forall_cons in IH as [Hw Hws]. constructor.
    + intros x [<-|Hx]; [split; [by left|done]|].
      destruct (Hw x Hx). split; [by right|done].
    + eapply Forall_impl; [exact Hws|].
      intros w' Hw' x Hx. destruct (Hw' x Hx). split; [by right|done].
Qed.

Lemma parse_parts_chars s :
  Forall (fun w => forall x, In x w -> In x s) (parse_parts s).
Proof.
  unfold parse_parts. apply List.Forall_forall. intros w Hw%List.filter_In x Hx.
  destruct Hw as [Hw _].
  pose proof (proj1 (List.Forall_forall _ _) (split_on_chars 47 s) w Hw x Hx) as [? _]. done.
Qed.

Lemma fold_joinpath_parts (P : list N -> Prop) segments : forall p,
  Forall P (parts p) ->
  Forall (fun seg => Forall P (parse_parts seg)) segments ->
  Forall P (parts (fold_left joinpath segments p)).
Proof.
  induction segments as [|seg segments IH]; intros p Hp Hs; [done|].
  apply Forall_cons in Hs as [Hseg Hs]. cbn [fold_left]. apply IH; [|done].
  unfold joinpath. destruct (is_abs_str seg); cbn [parts]; [done|].
  by apply Forall_app.
Qed.

(** No component that comes from the application id contains a dot. *)
Lemma id_parts_dotless id :
  Forall (fun c => ~ In 46 c) (parts (Path_of (split_on 46 id))).
Proof.
  unfold Path_of. apply fold_joinpath_parts; [by constructor|].
  eapply Forall_impl; [apply (split_on_chars 46 id)|].
  intros seg Hseg. eapply Forall_impl; [apply parse_parts_chars|].
  intros w Hw Hin. by destruct (Hseg 46 (Hw 46 Hin)).
Qed.

Lemma dotless_not_dotdot c : ~ In 46 c -> is_dotdot c = false.
Proof.
  intros H. unfold is_dotdot, str_eqb. apply bool_decide_eq_false.
  intros ->. apply H. by left.
Qed.

Lemma dotless_not_stub c : ~ In 46 c -> c <> lit "MainActivity.kt".
Proof. intros H ->. apply H. vm_compute. tauto. Qed.

Lemma stub_names_no_dotdot id : no_dotdot (stub_names id).
Proof.
  unfold stub_names, no_dotdot. repeat (apply Forall_cons; split; [done|]).
  apply Forall_app. split; [|by repeat constructor].
  eapply Forall_impl; [apply id_parts_dotless|]. apply dotless_not_dotdot.
Qed.

Lemma stub_dirs_not_stub id :
  Forall (fun c => c <> lit "MainActivity.kt") (removelast (stub_names id)).
Proof.
  unfold stub_names.
  rewrite !app_assoc, removelast_last.
  apply Forall_app. split; [by repeat constructor|].
  eapply Forall_impl; [apply id_parts_dotless|]. apply dotless_not_stub.
Qed.

Lemma first_writes_paths root project_name app_name application_id
    compile_sdk min_sdk target_sdk :
  List.map fst (first_writes root project_name app_name application_id
                  compile_sdk min_sdk target_sdk)
  = List.map (under root) first_names.
Proof.
  unfold first_writes, first_names. cbn [List.map fst].
  rewrite <- (under_nil root) at 1 2 3 4 5 6 7.
  by rewrite !joinpath_under.
Qed.

Lemma first_names_plain :
  Forall (fun rel => no_dotdot rel
                     /\ Forall (fun c => c <> lit "MainActivity.kt") (removelast rel))
         first_names.
Proof.
  unfold first_names. repeat constructor; done.
Qed.

(** ** A fresh project root *)

Lemma node_at_nonempty (m : gmap (list (list N)) node) l :
  l <> [] -> node_at m l = m !! l.
Proof. by destruct l. Qed.

Lemma wf_above_node (m : gmap (list (list N)) node) l k n :
  wf_fs m -> node_at m (l ++ k) = Some n -> k <> [] -> node_at m l = Some Dir.
Proof.
  intros Hwf Hn Hk. rewrite node_at_nonempty in Hn by (by destruct l, k).
  by eapply wf_above.
Qed.

(** In a well-formed file system a node at the location that a path
    without [..] denotes is found by [stat]. *)
Lemma stat_of_node w p n :
  wf_fs (fs w) -> no_dotdot (parts p) ->
  node_at (fs w) (lexical w p) = Some n -> stat w p = inr (lexical w p, n).
Proof.
  intros Hwf Hnd Hn. unfold stat, locate, lookup_parent.
  destruct (split_last (parts p)) as [[dirs name]|] eqn:Hs.
  - apply split_last_inv in Hs. unfold lexical in *. rewrite Hs in Hnd, Hn |- *.
    apply no_dotdot_app in Hnd as [Hd Hname]. inversion Hname as [|? ? Hdd _]; subst.
    rewrite (walk_lexical (fs w) dirs (base w p) Hd).
    + rewrite Hdd, <- app_assoc, Hn. done.
    + intros k Hk. apply (wf_above_node _ _ (drop k dirs ++ [name]) n Hwf).
      * by rewrite <- app_assoc, (app_assoc (take k dirs)), take_drop.
      * by destruct (drop k dirs).
  - assert (parts p = []) as Hnil by (destruct (parts p); done).
    unfold lexical in *. rewrite Hnil, app_nil_r in *. by rewrite Hn.
Qed.

Lemma fresh_root w root :
  wf_fs (fs w) -> no_dotdot (parts root) -> exists_ w root = false ->
  forall l, lexical w root `prefix_of` l -> fs w !! l = None.
Proof.
  intros Hwf Hnd Hex l [k ->].
  destruct (fs w !! (lexical w root ++ k)) as [n|] eqn:Hn; [exfalso|done].
  assert (exists n', node_at (fs w) (lexical w root) = Some n') as [n' Hn'].
  { destruct k as [|x k].
    - rewrite app_nil_r in Hn. destruct (lexical w root) eqn:E; [by exists Dir|].
      by exists n.
    - exists Dir. by eapply wf_above. }
  unfold exists_ in Hex. by rewrite (stat_of_node w root n' Hwf Hnd Hn') in Hex.
Qed.

Lemma write_all_keeps {A} (I : state -> Prop) (k : M A) files :
  (forall f, In f files -> forall s s',
      write_text (fst f) (snd f) s = (Ok tt, s') -> I s -> I s') ->
  forall s a s', write_all files k s = (Ok a, s') -> I s ->
  exists s1, I s1 /\ k s1 = (Ok a, s').
Proof.
  induction files as [|f files IH]; intros Hstep s a s' H HI.
  - by exists s.
  - cbn [write_all fold_right] in H. apply bind_ok in H as ([] & s0 & H0 & H).
    apply (IH (fun f' Hf' => Hstep f' (or_intror Hf')) s0 a s' H).
    by apply (Hstep f (or_introl eq_refl) s s0).
Qed.

Lemma under_no_dotdot root rel :
  no_dotdot (parts root) -> no_dotdot rel -> no_dotdot (parts (under root rel)).
Proof. intros. by apply no_dotdot_app. Qed.

(** The seven writes and the directory of the stub keep the invariant. *)
Lemma write_text_under_inv w0 root rel content s s' :
  no_dotdot (parts root) -> no_dotdot rel ->
  Forall (fun c => c <> lit "MainActivity.kt") (removelast rel) ->
  write_text (under root rel) content s = (Ok tt, s') ->
  extends (mkState w0 []) s /\ project_inv w0 (lexical w0 root) s ->
  extends (mkState w0 []) s' /\ project_inv w0 (lexical w0 root) s'.
Proof.
  intros Hroot Hrel Hstub H [He Hinv]. split.
  - apply write_text_ok in H as (E & _). by eapply extends_trans.
  - apply write_text_touches in H; [|by apply under_no_dotdot].
    exact (touches_project_inv w0 root rel s s' H Hstub Hinv).
Qed.

Lemma project_inv_start w0 root :
  wf_fs (fs w0) -> no_dotdot (parts root) -> exists_ w0 root = false ->
  forall log, project_inv w0 (lexical w0 root) (mkState w0 log).
Proof.
  intros Hwf Hnd Hex log. split; [done|]. split.
  - by intros l n Hl _.
  - intros l Hpre _ _. cbn [st_world]. by rewrite (fresh_root w0 root Hwf Hnd Hex l Hpre).
Qed.

(** * The claims *)

(** C1: when the project root (the output directory joined with the
    project name) exists already, [create_project] raises
    [FileExistsError] and leaves the whole state, the file system
    included, as it was; this is the case in particular in the state that a
    successful call with the same arguments has left behind. *)
Theorem existing_root_is_rejected
    source_file output_dir project_name app_name application_id
    compile_sdk min_sdk target_sdk s :
  exists_ (st_world s) (joinpath output_dir project_name) = true
  \/ (exists s0 root,
        create_project source_file output_dir project_name app_name
          application_id compile_sdk min_sdk target_sdk s0 = (Ok root, s)) ->
  create_project source_file output_dir project_name app_name application_id
    compile_sdk min_sdk target_sdk s = (Raise FileExistsError, s).
Proof.
  intros H.
  assert (exists_ (st_world s) (joinpath output_dir project_name) = true) as Hex.
  { destruct H as [H|(s0 & root & H)]; [done|].
    apply create_project_ok in H as (-> & _ & _ & H & _). done. }
  rewrite create_project_unfold. cbv zeta. unfold bind, query. by rewrite Hex.
Qed.

Lemma existing_root_is_rejected_witness :
  fst (demo_create "com.x.y") = Ok (mkPath false [lit "dist"; lit "Foo"])
  /\ create_project None demo_out (lit "Foo") (lit "Foo App") (lit "com.x.y")
       34 24 34 (snd (demo_create "com.x.y"))
     = (Raise FileExistsError, snd (demo_create "com.x.y")).
Proof.
  assert (fst (demo_create "com.x.y") = Ok (mkPath false [lit "dist"; lit "Foo"]))
    as Hrun by (vm_compute; reflexivity).
  split; [exact Hrun|].
  apply existing_root_is_rejected. right.
  exists demo_state, (mkPath false [lit "dist"; lit "Foo"]).
  rewrite <- Hrun. apply surjective_pairing.
Defined.

(** C8: when [--source] names a path that does not exist, [main] returns 2
    after printing one line: the file system is untouched, so no project
    directory and no file has been created. *)
Theorem missing_source_stops_before_any_write h args p s :
  arg_source args = Some p ->
  exists_ (st_world s) p = false ->
  main h args s
  = (Ok 2%Z, mkState (st_world s) (st_log s ++ [Printed (MsgSourceMissing p)])).
Proof.
  intros Hsrc Hex. unfold main. rewrite Hsrc. unfold bind, query. by rewrite Hex.
Qed.

Lemma missing_source_stops_before_any_write_witness :
  let args := demo_args (Some (Path_of [lit "/missing/file.kt"])) "com.x.y" true in
  arg_source args = Some (Path_of [lit "/missing/file.kt"])
  /\ exists_ demo_world (Path_of [lit "/missing/file.kt"]) = false
  /\ main bare_host args demo_state
     = (Ok 2%Z,
        mkState demo_world
          [Printed (MsgSourceMissing (Path_of [lit "/missing/file.kt"]))]).
Proof.
  split; [done|]. split; [by vm_compute|].
  apply (missing_source_stops_before_any_write bare_host
           (demo_args (Some (Path_of [lit "/missing/file.kt"])) "com.x.y" true)
           (Path_of [lit "/missing/file.kt"]) demo_state); [done|by vm_compute].
Defined.

(** The outputs that a successful [create_project] has logged. *)
Lemma create_project_outputs source_file output_dir project_name app_name
    application_id compile_sdk min_sdk target_sdk s root s' :
  create_project source_file output_dir project_name app_name application_id
    compile_sdk min_sdk target_sdk s = (Ok root, s') ->
  root = joinpath output_dir project_name
  /\ exists evs, st_log s' = st_log s ++ evs
       /\ outputs evs
          = List.map (fun f => (fst f, Some (snd f)))
              (first_writes root project_name app_name application_id
                 compile_sdk min_sdk target_sdk)
            ++ [(main_activity_path root application_id,
                 match source_file with
                 | Some _ => None
                 | None => Some (render_main_activity application_id)
                 end)].
Proof.
  intros H. apply create_project_ok in H
    as (Hroot & _ & _ & _ & s1 & ev & _ & L1 & _ & L2 & Hev).
  split; [done|]. eexists. split.
  { rewrite L2, L1, <- app_assoc. reflexivity. }
  unfold outputs. rewrite omap_app. cbn [omap list_omap first_writes List.map fst snd output_of].
  by rewrite Hev.
Qed.

(** C3, as the code has it: [safe_name] trims the name, deletes every
    character outside [[A-Za-z0-9_-]] and returns what is left, or the
    fallback as it is when nothing is left; the result consists of safe
    characters whenever something is left or the fallback itself does;
    [safe_name "My App!!" f] is ["MyApp"]; the function is total. *)
Theorem safe_name_sanitizes (name fallback : list N) :
  safe_name name fallback
  = (if decide (List.filter is_safe_char (strip name) = []) then fallback
     else List.filter is_safe_char (strip name))
  /\ (all_safe fallback \/ List.filter is_safe_char (strip name) <> [] ->
      all_safe (safe_name name fallback))
  /\ safe_name (lit "My App!!") fallback = lit "MyApp".
Proof.
  split; [|split].
  - unfold safe_name, re_sub_unsafe.
    destruct (List.filter is_safe_char (strip name)); by case_decide.
  - intros H.
    destruct (safe_name_cases name fallback) as [[He ->]|[Hne ->]].
    + destruct H as [H|H]; [done|]. by destruct H.
    + apply re_sub_unsafe_all_safe.
  - reflexivity.
Qed.

Lemma safe_name_sanitizes_witness :
  (all_safe default_project \/ List.filter is_safe_char (strip (lit " !! ")) <> [])
  /\ all_safe (safe_name (lit " !! ") default_project).
Proof.
  assert (all_safe default_project) as H.
  { unfold all_safe. repeat constructor. }
  split; [by left|].
  apply (safe_name_sanitizes (lit " !! ") default_project). by left.
Defined.

(** C3 as stated fails: a fallback with other characters comes back
    unchanged when the name has no safe character. *)
Lemma unsafe_fallback_is_returned :
  safe_name (lit "!!") (lit "a b") = lit "a b"
  /\ ~ all_safe (safe_name (lit "!!") (lit "a b")).
Proof.
  split; [reflexivity|]. intros H. change (safe_name (lit "!!") (lit "a b")) with [97; 32; 98] in H.
  inversion H as [|? ? _ H']. inversion H' as [|? ? Hb _]. discriminate.
Qed.

(** C10: with a non-empty fallback of safe characters, sanitizing twice is
    sanitizing once. *)
Theorem safe_name_idempotent (s f : list N) :
  f <> [] -> all_safe f -> safe_name (safe_name s f) f = safe_name s f.
Proof.
  intros Hne Hf. apply safe_name_fixed.
  - destruct (safe_name_cases s f) as [[_ ->]|[H ->]]; done.
  - destruct (safe_name_cases s f) as [[_ ->]|[_ ->]]; [done|].
    apply re_sub_unsafe_all_safe.
Qed.

Lemma safe_name_idempotent_witness :
  default_project <> [] /\ all_safe default_project
  /\ safe_name (safe_name (lit " My App!! ") default_project) default_project
     = safe_name (lit " My App!! ") default_project.
Proof.
  assert (all_safe default_project) as H.
  { unfold all_safe. repeat constructor. }
  split; [done|]. split; [exact H|].
  apply safe_name_idempotent; [done|exact H].
Defined.

(** C7: the rendered build file is the text of the template with the
    three SDK versions in their fields, each written by [str]: for 34, 24
    and 34 the literals [34], [24] and [34]; nothing else of the template
    changes.  [str] writes an integer in base 10: digits only, behind a
    minus sign for a negative number, without leading zero, and reading the
    digits gives the number back. *)
Theorem sdk_versions_are_rendered_in_decimal
    (application_id : list N) (compile_sdk min_sdk target_sdk : Z) :
  render_app_build_gradle application_id compile_sdk min_sdk target_sdk
  = filled_build
      (rescanned_id application_id compile_sdk min_sdk target_sdk)
      (str_of_int compile_sdk) (str_of_int min_sdk) (str_of_int target_sdk)
  /\ render_app_build_gradle application_id 34 24 34
     = filled_build (rescanned_id application_id 34 24 34)
         (lit "34") (lit "24") (lit "34")
  /\ (forall z, renders_int z (str_of_int z) /\ int_of_str (str_of_int z) = z).
Proof.
  split; [apply render_app_build_gradle_filled|].
  split; [apply (render_app_build_gradle_filled application_id 34 24 34)|].
  intros z. split; [apply str_of_int_renders|apply int_of_str_of_int].
Qed.

Lemma occurs_app_r old a b : occurs old b = true -> occurs old (a ++ b) = true.
Proof.
  intros H. induction a as [|c a IH]; [done|].
  cbn [app occurs]. rewrite IH. apply orb_true_r.
Qed.

Lemma is_prefix_app old : forall a b, is_prefix old a = true -> is_prefix old (a ++ b) = true.
Proof.
  induction old as [|o old IH]; intros [|c a] b H; try done. simpl in *.
  apply andb_true_iff in H as [-> H]. by rewrite IH.
Qed.

Lemma occurs_app_l old a b : occurs old a = true -> occurs old (a ++ b) = true.
Proof.
  induction a as [|c a IH]; intros H.
  - simpl in H. rewrite orb_false_r in H.
    destruct old; [by destruct b|done].
  - cbn [occurs] in H. apply orb_true_iff in H as [H|H].
    + change ((c :: a) ++ b) with (c :: a ++ b). cbn [occurs].
      change (c :: a ++ b) with ((c :: a) ++ b). by rewrite is_prefix_app.
    + cbn [app occurs]. rewrite IH by done. apply orb_true_r.
Qed.

(** X18: with the application id [com.example.app] and no source file, a
    successful [create_project] has written the build file with
    [com.example.app] as namespace and as applicationId, and the stub
    [MainActivity.kt] in [.../java/com/example/app] with the package line
    [package com.example.app]; for every application id that contains
    none of the three SDK placeholders, the two places of the build file
    and the package line of the stub hold that same id. *)
Theorem application_id_is_substituted_consistently :
  (forall output_dir project_name app_name compile_sdk min_sdk target_sdk s root s',
     create_project None output_dir project_name app_name (lit "com.example.app")
       compile_sdk min_sdk target_sdk s = (Ok root, s') ->
     let build :=
       filled_build (lit "com.example.app") (str_of_int compile_sdk)
         (str_of_int min_sdk) (str_of_int target_sdk) in
     let stub := main_activity_path root (lit "com.example.app") in
     In (WroteText (root // "app" // "build.gradle.kts") build) (st_log s')
     /\ occurs (tpl "namespace = 'com.example.app'") build = true
     /\ occurs (tpl "applicationId = 'com.example.app'") build = true
     /\ stub = under root [lit "app"; lit "src"; lit "main"; lit "java"; lit "com";
                           lit "example"; lit "app"; lit "MainActivity.kt"]
     /\ In (WroteText stub (lit "package com.example.app" ++ activity_body)) (st_log s')
     /\ exists b, utf8_encode (lit "package com.example.app" ++ activity_body) = Some b
                  /\ file_bytes (st_world s') stub = Some b)
  /\ (forall application_id compile_sdk min_sdk target_sdk,
        no_sdk_token application_id ->
        render_app_build_gradle application_id compile_sdk min_sdk target_sdk
        = filled_build application_id (str_of_int compile_sdk)
            (str_of_int min_sdk) (str_of_int target_sdk)
        /\ render_main_activity application_id
           = lit "package " ++ application_id ++ activity_body).
Proof.
  assert (forall application_id compile_sdk min_sdk target_sdk,
            no_sdk_token application_id ->
            render_app_build_gradle application_id compile_sdk min_sdk target_sdk
            = filled_build application_id (str_of_int compile_sdk)
                (str_of_int min_sdk) (str_of_int target_sdk)) as Hfill.
  { intros id c m t Hid.
    by rewrite render_app_build_gradle_filled, rescanned_id_clean. }
  split.
  - intros out pn an c m t s root s' H build stub.
    apply create_project_ok in H as (_ & _ & _ & _ & s1 & ev & _ & L1 & Hstub & L2 & _).
    unfold write_stub in Hstub. apply write_text_ok in Hstub as (_ & L & _ & b & Hb & Hf).
    rewrite render_main_activity_form in Hb, L.
    split; [|split; [|split; [|split; [|split]]]].
    + rewrite L2, L1. apply in_or_app. left. apply in_or_app. right.
      cbn [first_writes List.map fst snd]. do 3 right. left.
      f_equal. apply Hfill. by vm_compute.
    + unfold build, filled_build.
      transitivity (occurs (tpl "namespace = 'com.example.app'")
                      ((build_head ++ lit "com.example.app" ++ [34])
                         ++ List.tl build_compile_sdk ++ str_of_int c
                         ++ build_application_id ++ lit "com.example.app"
                         ++ build_min_sdk ++ str_of_int m ++ build_target_sdk
                         ++ str_of_int t ++ build_tail)); [reflexivity|].
      apply occurs_app_l. by vm_compute.
    + unfold build, filled_build.
      transitivity (occurs (tpl "applicationId = 'com.example.app'")
                      (build_head ++ lit "com.example.app" ++ build_compile_sdk
                         ++ str_of_int c
                         ++ (build_application_id ++ lit "com.example.app" ++ [34])
                         ++ List.tl build_min_sdk ++ str_of_int m ++ build_target_sdk
                         ++ str_of_int t ++ build_tail)).
      { by rewrite <- !app_assoc. }
      do 4 apply occurs_app_r. apply occurs_app_l. by vm_compute.
    + unfold stub. rewrite main_activity_path_under by (by vm_compute). reflexivity.
    + rewrite L. apply in_or_app. right. by left.
    + by exists b.
  - intros id c m t Hid. split; [by apply Hfill|apply render_main_activity_form].
Qed.

Lemma application_id_is_substituted_consistently_witness :
  fst (demo_create "com.example.app") = Ok (mkPath false [lit "dist"; lit "Foo"])
  /\ no_sdk_token (lit "com.x__y")
  /\ In (WroteText (mkPath false [lit "dist"; lit "Foo"] // "app" // "build.gradle.kts")
           (filled_build (lit "com.example.app") (lit "34") (lit "24") (lit "34")))
        (st_log (snd (demo_create "com.example.app")))
  /\ render_app_build_gradle (lit "com.x__y") 34 24 34
     = filled_build (lit "com.x__y") (lit "34") (lit "24") (lit "34").
Proof.
  assert (no_sdk_token (lit "com.x__y")) as Hid by (vm_compute; repeat split).
  assert (fst (demo_create "com.example.app") = Ok (mkPath false [lit "dist"; lit "Foo"]))
    as Hrun by (vm_compute; reflexivity).
  destruct application_id_is_substituted_consistently as [HA HB].
  split; [exact Hrun|]. split; [exact Hid|]. split.
  - refine (proj1 (HA demo_out (lit "Foo") (lit "Foo App") 34%Z 24%Z 34%Z demo_state
                     (mkPath false [lit "dist"; lit "Foo"])
                     (snd (demo_create "com.example.app")) _)).
    rewrite <- Hrun. apply surjective_pairing.
  - exact (proj1 (HB (lit "com.x__y") 34%Z 24%Z 34%Z Hid)).
Defined.

(** C2: the code breaks the claim on the application id
    [com.example.a__MIN_SDK__].  The build file is rendered by a chain of
    replacements with the application id first, so the replacement of
    [__MIN_SDK__] that follows rewrites the id inside the build file: it
    gets [com.example.a24] as namespace and as applicationId and the id
    itself nowhere, while the stub, rendered by one replacement, keeps the
    id in its package line and in its directory. *)
Lemma application_id_is_rescanned :
  fst (demo_create "com.example.a__MIN_SDK__") = Ok (mkPath false [lit "dist"; lit "Foo"])
  /\ file_bytes (st_world (snd (demo_create "com.example.a__MIN_SDK__")))
       (mkPath false [lit "dist"; lit "Foo"] // "app" // "build.gradle.kts")
     = utf8_encode (render_app_build_gradle (lit "com.example.a__MIN_SDK__") 34 24 34)
  /\ occurs (tpl "namespace = 'com.example.a24'")
       (render_app_build_gradle (lit "com.example.a__MIN_SDK__") 34 24 34) = true
  /\ occurs (tpl "applicationId = 'com.example.a24'")
       (render_app_build_gradle (lit "com.example.a__MIN_SDK__") 34 24 34) = true
  /\ occurs (lit "com.example.a__MIN_SDK__")
       (render_app_build_gradle (lit "com.example.a__MIN_SDK__") 34 24 34) = false
  /\ main_activity_path (mkPath false [lit "dist"; lit "Foo"])
       (lit "com.example.a__MIN_SDK__")
     = under (mkPath false [lit "dist"; lit "Foo"])
         [lit "app"; lit "src"; lit "main"; lit "java"; lit "com"; lit "example";
          lit "a__MIN_SDK__"; lit "MainActivity.kt"]
  /\ file_bytes (st_world (snd (demo_create "com.example.a__MIN_SDK__")))
       (main_activity_path (mkPath false [lit "dist"; lit "Foo"])
          (lit "com.example.a__MIN_SDK__"))
     = utf8_encode (lit "package com.example.a__MIN_SDK__" ++ activity_body)
  /\ render_app_build_gradle (lit "com.example.a__MIN_SDK__") 34 24 34
     <> filled_build (lit "com.example.a__MIN_SDK__") (lit "34") (lit "24") (lit "34").
Proof.
  split; [vm_compute; reflexivity|]. split; [vm_compute; reflexivity|].
  split; [vm_compute; reflexivity|]. split; [vm_compute; reflexivity|].
  split; [vm_compute; reflexivity|]. split; [vm_compute; reflexivity|].
  split; [vm_compute; reflexivity|].
  intros H.
  assert (occurs (lit "com.example.a__MIN_SDK__")
            (render_app_build_gradle (lit "com.example.a__MIN_SDK__") 34 24 34)
          = occurs (lit "com.example.a__MIN_SDK__")
              (filled_build (lit "com.example.a__MIN_SDK__") (lit "34") (lit "24")
                 (lit "34")))
    as E by (by rewrite H).
  vm_compute in E. discriminate.
Qed.

(** ** Empty segments of the application id *)






(** ** The build step *)

Lemma main_after_create h args s root s1 :
  match arg_source args with
  | Some p => exists_ (st_world s) p = true
  | None => True
  end ->
  create_project (arg_source args) (arg_out args)
    (safe_name (arg_project args) default_project) (arg_app_name args)
    (arg_application_id args) (arg_compile_sdk args) (arg_min_sdk args)
    (arg_target_sdk args) s = (Ok root, s1) ->
  arg_build args = true ->
  main h args s
  = try_except
      (run_gradle_build h root (arg_offline args) ;; print MsgBuildDone ;; ret 0%Z)
      (fun e =>
         match e with
         | CalledProcessError rc =>
             Some (print (MsgBuildFailed rc) ;; ret (if (rc =? 0)%Z then 1%Z else rc))
         | FileNotFoundError => Some (print MsgGradleMissing ;; ret 4%Z)
         | _ => None
         end)
      (mkState (st_world s1)
         (st_log s1 ++ [Printed (MsgCreated root)] ++ [Printed MsgApkHint])).
Proof.
  intros Hsrc Hcreate Hbuild. unfold main.
  assert (forall proceed : M Z,
            match arg_source args with
            | Some p =>
                do found <- query (fun w => exists_ w p);
                if negb found then print (MsgSourceMissing p) ;; ret 2%Z else proceed
            | None => proceed
            end s = proceed s) as ->.
  { intros proceed. destruct (arg_source args) as [p|]; [|done].
    unfold bind, query. by rewrite Hsrc. }
  unfold bind at 1. unfold try_except at 1. unfold bind at 1.
  rewrite Hcreate. cbn [ret]. unfold bind at 1. unfold print at 1. cbn [emit].
  unfold bind at 1. unfold print at 1. cbn [emit st_world st_log]. rewrite Hbuild.
  by rewrite <- app_assoc.
Qed.

Lemma bind_ok_eq {A B} (m : M A) (k : A -> M B) s a s1 :
  m s = (Ok a, s1) -> bind m k s = k a s1.
Proof. unfold bind. by intros ->. Qed.

Lemma bind_raise_eq {A B} (m : M A) (k : A -> M B) s e s1 :
  m s = (Raise e, s1) -> bind m k s = (Raise e, s1).
Proof. unfold bind. by intros ->. Qed.

Lemma subprocess_run_check_fails h cmd dir s outcome w' :
  spawn h cmd dir (st_world s) = (outcome, w') ->
  match outcome with
  | Exited 0 => True
  | _ =>
      subprocess_run_check h cmd dir s
      = (Raise match outcome with
               | CannotStart e => e
               | Exited rc => CalledProcessError rc
               end,
         mkState w' (st_log s ++ [Spawned cmd dir]))
  end.
Proof.
  intros Hspawn. unfold subprocess_run_check, bind, emit. cbn [st_world st_log].
  rewrite Hspawn. destruct outcome as [e|[|p|p]]; done.
Qed.

Lemma run_gradle_build_bootstrap h root offline s outcome w' :
  exists_ (st_world s)
    (joinpath root (if platform_win h then lit "gradlew.bat" else lit "gradlew")) = false ->
  spawn h gradle_wrapper_cmd root (st_world s) = (outcome, w') ->
  match outcome with
  | Exited 0 => True
  | _ =>
      run_gradle_build h root offline s
      = (Raise match outcome with
               | CannotStart e => e
               | Exited rc => CalledProcessError rc
               end,
         mkState w' (st_log s ++ [Printed MsgNoWrapper] ++ [Spawned gradle_wrapper_cmd root]))
  end.
Proof.
  intros Habsent Hspawn.
  pose proof (subprocess_run_check_fails h gradle_wrapper_cmd root
                (mkState (st_world s) (st_log s ++ [Printed MsgNoWrapper]))
                outcome w' Hspawn) as Hrun.
  assert (forall x, run_gradle_build h root offline s = x <->
                    bind (print MsgNoWrapper ;; subprocess_run_check h gradle_wrapper_cmd root)
                      (fun _ =>
                         print (MsgRunning (assemble_cmd (joinpath root
                           (if platform_win h then lit "gradlew.bat" else lit "gradlew"))
                           offline)) ;;
                         subprocess_run_check h
                           (assemble_cmd (joinpath root
                              (if platform_win h then lit "gradlew.bat" else lit "gradlew"))
                              offline) root) s = x) as Hstart.
  { intros x. unfold run_gradle_build.
    rewrite (bind_ok_eq (query _) _ s _ s eq_refl), Habsent. done. }
  destruct outcome as [e|[|p|p]]; [|done| |];
    apply Hstart; apply bind_raise_eq;
    rewrite (bind_ok_eq (print MsgNoWrapper) _ s tt _ eq_refl);
    rewrite Hrun; cbn [st_log]; by rewrite <- app_assoc.
Qed.

Lemma spawned_app evs1 evs2 : spawned (evs1 ++ evs2) = spawned evs1 ++ spawned evs2.
Proof. apply omap_app. Qed.

(** C4, as the code has it: when the wrapper is absent and the bootstrap
    [gradle wrapper] fails, the main build step is not started, and [main]
    returns 4 only when Gradle cannot be started ([FileNotFoundError]);
    when [gradle wrapper] runs and exits with a non-zero status, [main]
    reports a failed build and returns that status. *)
Theorem bootstrap_failure_stops_the_build h args s root s1 outcome w' :
  match arg_source args with
  | Some p => exists_ (st_world s) p = true
  | None => True
  end ->
  create_project (arg_source args) (arg_out args)
    (safe_name (arg_project args) default_project) (arg_app_name args)
    (arg_application_id args) (arg_compile_sdk args) (arg_min_sdk args)
    (arg_target_sdk args) s = (Ok root, s1) ->
  arg_build args = true ->
  exists_ (st_world s1)
    (joinpath root (if platform_win h then lit "gradlew.bat" else lit "gradlew")) = false ->
  spawn h gradle_wrapper_cmd root (st_world s1) = (outcome, w') ->
  (outcome = CannotStart FileNotFoundError ->
   main h args s
   = (Ok 4%Z,
      mkState w'
        (st_log s1 ++ [Printed (MsgCreated root); Printed MsgApkHint; Printed MsgNoWrapper;
                       Spawned gradle_wrapper_cmd root; Printed MsgGradleMissing])))
  /\ (forall rc, outcome = Exited rc -> rc <> 0%Z ->
      main h args s
      = (Ok rc,
         mkState w'
           (st_log s1 ++ [Printed (MsgCreated root); Printed MsgApkHint; Printed MsgNoWrapper;
                          Spawned gradle_wrapper_cmd root; Printed (MsgBuildFailed rc)]))).
Proof.
  intros Hsrc Hcreate Hbuild Habsent Hspawn.
  rewrite (main_after_create h args s root s1 Hsrc Hcreate Hbuild).
  pose proof (run_gradle_build_bootstrap h root (arg_offline args)
                (mkState (st_world s1)
                   (st_log s1 ++ [Printed (MsgCreated root)] ++ [Printed MsgApkHint]))
                outcome w' Habsent Hspawn) as Hrun.
  split.
  - intros ->. unfold try_except.
    rewrite (bind_raise_eq _ _ _ _ _ Hrun).
    unfold bind, print, emit, ret. cbn [st_world st_log].
    by rewrite <- !app_assoc.
  - intros rc -> Hrc. unfold try_except.
    assert (run_gradle_build h root (arg_offline args)
              (mkState (st_world s1)
                 (st_log s1 ++ [Printed (MsgCreated root)] ++ [Printed MsgApkHint]))
            = (Raise (CalledProcessError rc),
               mkState w' ((st_log s1 ++ [Printed (MsgCreated root)] ++ [Printed MsgApkHint])
                             ++ [Printed MsgNoWrapper] ++ [Spawned gradle_wrapper_cmd root])))
      as Hrun' by (by destruct rc).
    rewrite (bind_raise_eq _ _ _ _ _ Hrun').
    unfold bind, print, emit, ret. cbn [st_world st_log].
    assert ((rc =? 0)%Z = false) as -> by (by apply Z.eqb_neq).
    by rewrite <- !app_assoc.
Qed.

Lemma bootstrap_failure_stops_the_build_witness :
  fst (demo_create "com.x.y") = Ok (mkPath false [lit "dist"; lit "Foo"])
  /\ fst (main bare_host (demo_args None "com.x.y" true) demo_state) = Ok 4%Z
  /\ spawned (st_log (snd (main bare_host (demo_args None "com.x.y" true) demo_state)))
     = [gradle_wrapper_cmd].
Proof.
  assert (exists_ (st_world (snd (demo_create "com.x.y")))
            (joinpath (mkPath false [lit "dist"; lit "Foo"]) (lit "gradlew")) = false)
    as Habsent by (vm_compute; reflexivity).
  assert (spawned (st_log (snd (demo_create "com.x.y"))) = []) as Hlog
    by (vm_compute; reflexivity).
  assert (fst (demo_create "com.x.y") = Ok (mkPath false [lit "dist"; lit "Foo"]))
    as Hrun by (vm_compute; reflexivity).
  split; [exact Hrun|].
  assert (create_project None demo_out (safe_name (lit "Foo") default_project)
            (lit "Foo App") (lit "com.x.y") 34 24 34 demo_state
          = (Ok (mkPath false [lit "dist"; lit "Foo"]), snd (demo_create "com.x.y")))
    as Hcreate.
  { rewrite <- Hrun. apply surjective_pairing. }
  destruct (bootstrap_failure_stops_the_build bare_host (demo_args None "com.x.y" true)
              demo_state (mkPath false [lit "dist"; lit "Foo"])
              (snd (demo_create "com.x.y")) (CannotStart FileNotFoundError)
              (st_world (snd (demo_create "com.x.y"))) I Hcreate eq_refl Habsent eq_refl)
    as [H4 _].
  rewrite (H4 eq_refl). split; [reflexivity|].
  cbn [snd st_log]. rewrite spawned_app, Hlog. reflexivity.
Defined.

(** C4 as stated fails: on a host where [gradle wrapper] starts and exits
    with status 1, [main] returns 1, the status of a failed build, not 4. *)
Lemma bootstrap_exit_status_is_returned :
  exists_ (st_world (snd (demo_create "com.x.y")))
    (joinpath (mkPath false [lit "dist"; lit "Foo"]) (lit "gradlew")) = false
  /\ fst (spawn failing_host gradle_wrapper_cmd (mkPath false [lit "dist"; lit "Foo"])
            (st_world (snd (demo_create "com.x.y")))) = Exited 1
  /\ fst (main failing_host (demo_args None "com.x.y" true) demo_state) = Ok 1%Z
  /\ spawned (st_log (snd (main failing_host (demo_args None "com.x.y" true) demo_state)))
     = [gradle_wrapper_cmd].
Proof.
  split; [vm_compute; reflexivity|]. split; [reflexivity|].
  split; vm_compute; reflexivity.
Qed.

(** ** The copied source file *)

Lemma stat_node w p l n : stat w p = inr (l, n) -> node_at (fs w) l = Some n.
Proof.
  unfold stat. destruct (locate w p) as [e|l0]; [done|].
  destruct (node_at (fs w) l0) eqn:Hn; [|done]. by intros [= <- <-].
Qed.

Lemma file_bytes_stat w p data :
  file_bytes w p = Some data -> exists l, stat w p = inr (l, File data).
Proof.
  unfold file_bytes. destruct (stat w p) as [e|[l [b|]]]; try done.
  intros [= <-]. by exists l.
Qed.

Lemma parent_under root rel :
  rel <> [] -> parent (under root rel) = under root (removelast rel).
Proof. intros H. unfold parent, under. cbn [absolute parts]. by rewrite removelast_app. Qed.

Lemma stub_names_last id : List.last (stub_names id) [] = lit "MainActivity.kt".
Proof. unfold stub_names. by rewrite !app_assoc, last_last. Qed.

(** Below a fresh root, behind the seven writes and the directory of the
    stub, the stub path is no directory and the source file is as it was. *)
Lemma copy_into_fresh_project w0 root id source data s :
  no_dotdot (parts root) ->
  (forall l, lexical w0 root `prefix_of` l -> fs w0 !! l = None) ->
  file_bytes w0 source = Some data ->
  extends (mkState w0 []) s -> project_inv w0 (lexical w0 root) s ->
  is_dir (st_world s) (under root (stub_names id)) = false
  /\ read_bytes source (st_world s) = inr data.
Proof.
  intros Hnd Hfresh Hsrc He (Hc & Hout & Hj). split.
  - unfold is_dir.
    destruct (stat (st_world s) (under root (stub_names id))) as [e|[l [b|]]] eqn:Hs;
      try done.
    exfalso. apply stat_lexical in Hs as [-> Hn].
    2:{ apply under_no_dotdot; [done|apply stub_names_no_dotdot]. }
    assert (lexical (st_world s) (under root (stub_names id))
            = lexical w0 root ++ stub_names id) as El.
    { unfold lexical, base, under. cbn [absolute parts].
      by rewrite Hc, app_assoc. }
    rewrite El in Hn.
    assert (stub_names id <> []) as Hne by (unfold stub_names; done).
    rewrite node_at_nonempty in Hn by (by destruct (lexical w0 root), (stub_names id)).
    apply (Hj (lexical w0 root ++ stub_names id)); [by eexists| | |done].
    + intros E. apply (f_equal length) in E. rewrite length_app in E.
      destruct (stub_names id); [done|simpl in E; lia].
    + rewrite last_app_nonempty by done. apply stub_names_last.
  - apply file_bytes_stat in Hsrc as [l Hs].
    pose proof (stat_node _ _ _ _ Hs) as Hn.
    assert (l <> []) as Hl by (intros ->; done).
    rewrite node_at_nonempty in Hn by done.
    assert (fs (st_world s) !! l = Some (File data)) as Hkept.
    { apply Hout; [done|]. intros Hpre. by rewrite (Hfresh l Hpre) in Hn. }
    destruct (stat_extends w0 (st_world s) source l (File data) He Hs) as (n' & Hs' & _).
    pose proof (stat_node _ _ _ _ Hs') as Hn'.
    rewrite node_at_nonempty in Hn' by done.
    unfold read_bytes. rewrite Hs'. by replace n' with (File data) by congruence.
Qed.

(** C6, as the code has it: for a source file that exists, in a
    well-formed file system, with a project root path without [..] and an
    application id whose segments do not start with a slash, a successful
    [create_project] leaves at the stub path exactly the bytes that the
    source file had before the call, and it logs a copy, not a rendered
    stub; without a source file it renders the built-in template there. *)
Theorem source_file_is_copied_verbatim
    output_dir project_name app_name application_id compile_sdk min_sdk target_sdk :
  (forall source data s root s',
     wf_fs (fs (st_world s)) ->
     no_dotdot (parts (joinpath output_dir project_name)) ->
     absolute (Path_of (split_on 46 application_id)) = false ->
     file_bytes (st_world s) source = Some data ->
     create_project (Some source) output_dir project_name app_name application_id
       compile_sdk min_sdk target_sdk s = (Ok root, s') ->
     file_bytes (st_world s') (main_activity_path root application_id) = Some data
     /\ List.last (st_log s') (Printed MsgApkHint)
        = Copied source (main_activity_path root application_id) data)
  /\ (forall s root s',
        create_project None output_dir project_name app_name application_id
          compile_sdk min_sdk target_sdk s = (Ok root, s') ->
        List.last (st_log s') (Printed MsgApkHint)
        = WroteText (main_activity_path root application_id)
            (render_main_activity application_id)
        /\ exists b, utf8_encode (render_main_activity application_id) = Some b
             /\ file_bytes (st_world s') (main_activity_path root application_id)
                = Some b).
Proof.
  split.
  - intros source data s root s' Hwf Hnd Hrel Hsrc H.
    rewrite create_project_unfold in H. cbv zeta in H.
    apply bind_ok in H as (found & s0 & [= <- <-] & H).
    set (root0 := joinpath output_dir project_name) in *.
    destruct (exists_ (st_world s) root0) eqn:Hex; [done|].
    set (w0 := st_world s) in *.
    pose proof (fresh_root w0 root0 Hwf Hnd Hex) as Hfresh.
    set (I := fun x => extends (mkState w0 []) x
                        /\ project_inv w0 (lexical w0 root0) x).
    assert (forall f,
              In f (first_writes root0 project_name app_name application_id
                      compile_sdk min_sdk target_sdk) ->
              forall sa sb, write_text (fst f) (snd f) sa = (Ok tt, sb) -> I sa -> I sb)
      as Hstep.
    { intros f Hf sa sb Hwr HI.
      assert (In (fst f) (List.map (under root0) first_names)) as Hin.
      { rewrite <- (first_writes_paths root0 project_name app_name application_id
                      compile_sdk min_sdk target_sdk).
        by apply in_map. }
      apply in_map_iff in Hin as (rel & Erel & Hrelin).
      destruct (proj1 (List.Forall_forall _ _) first_names_plain rel Hrelin)
        as [Hnd' Hstub'].
      rewrite <- Erel in Hwr.
      by apply (write_text_under_inv w0 root0 rel (snd f) sa sb). }
    assert (I s) as HI.
    { split; [split; [done|apply fs_extends_refl]|].
      destruct s as [w log]. by apply project_inv_start. }
    destruct (write_all_keeps I _ _ Hstep s root s' H HI) as (s1 & [He1 Hinv1] & H1).
    clear H. rename H1 into H.
    apply bind_ok in H as ([] & s2 & H & [= <- <-]).
    rewrite (main_activity_path_under root0 application_id Hrel) in *.
    unfold write_stub in H. apply bind_ok in H as ([] & s3 & Hmk & Hcp).
    assert (stub_names application_id <> []) as Hne by (unfold stub_names; done).
    rewrite parent_under in Hmk by done.
    pose proof (Path_mkdir_quiet _ _ _ _ _ _ Hmk) as [Eq _].
    assert (extends (mkState w0 []) s3) as He3 by (by eapply extends_trans).
    apply Path_mkdir_creates in Hmk.
    2:{ apply under_no_dotdot; [done|].
        pose proof (stub_names_no_dotdot application_id) as Hs.
        rewrite (app_removelast_last [] Hne) in Hs.
        by apply no_dotdot_app in Hs as [? _]. }
    pose proof (creates_dirs_project_inv w0 root0 _ s1 s3 Hmk
                  (stub_dirs_not_stub application_id) Hinv1) as Hinv3.
    destruct (copy_into_fresh_project w0 root0 application_id source data s3
                Hnd Hfresh Hsrc He3 Hinv3) as [Hnodir Hread].
    unfold copy2 in Hcp.
    apply bind_ok in Hcp as (d & s4 & [= <- <-] & Hcp). rewrite Hnodir in Hcp.
    apply bind_ok in Hcp as (same & s4 & [= <- <-] & Hcp).
    destruct (samefile _ _ _); [done|].
    apply bind_ok in Hcp as (data' & s4 & Hrd & Hcp).
    unfold syscall in Hrd. rewrite Hread in Hrd. injection Hrd as <- <-.
    apply bind_ok in Hcp as (l & s5 & Hop & Hcp).
    unfold syscall in Hop. cbn [st_world st_log] in Hop.
    destruct (open_trunc _ _) as [e|[l' w5]] eqn:Ho; [done|].
    injection Hop as <- <-.
    apply bind_ok in Hcp as ([] & s6 & [= <-] & Hcp).
    apply emit_inv in Hcp as (_ & Hw & Hl). cbn [st_world st_log] in Hw, Hl.
    destruct (stored_file _ _ _ _ data Ho) as [_ Hst].
    split.
    * unfold file_bytes. by rewrite Hw, Hst.
    * rewrite Hl. apply last_last.
  - intros s root s' H.
    apply create_project_ok in H as (_ & _ & _ & _ & s1 & ev & _ & _ & Hstub & _).
    unfold write_stub in Hstub. apply write_text_ok in Hstub as (_ & L & _ & b & Hb & Hf).
    split; [rewrite L; apply last_last|]. by exists b.
Qed.

Lemma source_file_is_copied_verbatim_witness :
  wf_fs (fs (st_world demo_state3))
  /\ no_dotdot (parts (joinpath demo_out (lit "Foo")))
  /\ absolute (Path_of (split_on 46 (lit "com.x.y"))) = false
  /\ file_bytes (st_world demo_state3) demo_source = Some [1; 2; 3]
  /\ fst copied_create = Ok (mkPath false [lit "dist"; lit "Foo"])
  /\ file_bytes (st_world (snd copied_create))
       (main_activity_path (mkPath false [lit "dist"; lit "Foo"]) (lit "com.x.y"))
     = Some [1; 2; 3].
Proof.
  assert (wf_fs (fs (st_world demo_state3))) as Hwf.
  { change (map_Forall (fun l _ => node_at (fs (st_world demo_state3)) (removelast l)
                                   = Some Dir)
              (<[ [lit "in"; lit "Main.kt"] := File [1; 2; 3] ]>
                 ({[ [lit "in"] := Dir ]} : gmap (list (list N)) node))).
    apply map_Forall_insert_2; [reflexivity|].
    apply map_Forall_singleton. reflexivity. }
  assert (no_dotdot (parts (joinpath demo_out (lit "Foo")))) as Hnd
    by (repeat constructor).
  assert (absolute (Path_of (split_on 46 (lit "com.x.y"))) = false) as Hrel
    by reflexivity.
  assert (file_bytes (st_world demo_state3) demo_source = Some [1; 2; 3]) as Hsrc
    by (vm_compute; reflexivity).
  assert (fst copied_create = Ok (mkPath false [lit "dist"; lit "Foo"])) as Hrun
    by (vm_compute; reflexivity).
  split; [exact Hwf|]. split; [exact Hnd|]. split; [exact Hrel|].
  split; [exact Hsrc|]. split; [exact Hrun|].
  refine (proj1 (proj1 (source_file_is_copied_verbatim demo_out (lit "Foo") (lit "Foo App")
                          (lit "com.x.y") 34%Z 24%Z 34%Z)
                   demo_source [1; 2; 3] demo_state3
                   (mkPath false [lit "dist"; lit "Foo"]) (snd copied_create)
                   Hwf Hnd Hrel Hsrc _)).
  rewrite <- Hrun. apply surjective_pairing.
Defined.

(** C6 as stated fails in two ways.  With the output directory [x/..],
    where [x] does not exist, the root [x/../Foo] does not exist before the
    call although [Foo] does; the call succeeds, overwrites the source file
    [Foo/app/build.gradle.kts] with the generated build file and copies
    that.  With the application id [/srv], the stub path is
    [/srv/MainActivity.kt]; when that is a directory, the copy lands inside
    it. *)
Lemma source_file_is_not_always_copied :
  (file_bytes shadowed_world shadowed_source = Some [1; 2; 3]
   /\ exists_ shadowed_world (joinpath (Path_of [lit "x/.."]) (lit "Foo")) = false
   /\ fst shadowed_create = Ok (mkPath false [lit "x"; lit ".."; lit "Foo"])
   /\ file_bytes (st_world (snd shadowed_create))
        (main_activity_path (mkPath false [lit "x"; lit ".."; lit "Foo"]) (lit "com.x.y"))
      = utf8_encode (render_app_build_gradle (lit "com.x.y") 34 24 34)
   /\ utf8_encode (render_app_build_gradle (lit "com.x.y") 34 24 34) <> Some [1; 2; 3])
  /\ (file_bytes occupied_world demo_source = Some [1; 2; 3]
      /\ fst occupied_create = Ok (mkPath false [lit "dist"; lit "Foo"])
      /\ main_activity_path (mkPath false [lit "dist"; lit "Foo"]) (lit "/srv")
         = mkPath true [lit "srv"; lit "MainActivity.kt"]
      /\ file_bytes (st_world (snd occupied_create))
           (mkPath true [lit "srv"; lit "MainActivity.kt"]) = None
      /\ file_bytes (st_world (snd occupied_create))
           (mkPath true [lit "srv"; lit "MainActivity.kt"; lit "Main.kt"])
         = Some [1; 2; 3]).
Proof.
  split.
  - split; [vm_compute; reflexivity|]. split; [vm_compute; reflexivity|].
    split; [vm_compute; reflexivity|]. split; [vm_compute; reflexivity|].
    vm_compute. discriminate.
  - split; [vm_compute; reflexivity|]. split; [vm_compute; reflexivity|].
    split; [vm_compute; reflexivity|]. split; vm_compute; reflexivity.
Qed.

(** * Further properties *)

(** ** The sanitizer and the project root *)

Lemma space_not_safe c : is_space c = true -> is_safe_char c = false.
Proof.
  intros H. destruct (is_safe_char c) eqn:Hs; [|done].
  by rewrite (safe_char_not_space c Hs) in H.
Qed.

Lemma re_sub_unsafe_lstrip s : re_sub_unsafe (lstrip s) = re_sub_unsafe s.
Proof.
  induction s as [|c s IH]; [done|]. cbn [lstrip].
  destruct (is_space c) eqn:Hc; [|done].
  rewrite IH. unfold re_sub_unsafe. cbn [List.filter]. by rewrite (space_not_safe c Hc).
Qed.

Lemma re_sub_unsafe_rev s : re_sub_unsafe (rev s) = rev (re_sub_unsafe s).
Proof.
  unfold re_sub_unsafe. induction s as [|c s IH]; [done|].
  cbn [rev List.filter]. rewrite List.filter_app, IH. cbn [List.filter].
  destruct (is_safe_char c); [done|]. by rewrite app_nil_r.
Qed.

Lemma re_sub_unsafe_strip s : re_sub_unsafe (strip s) = re_sub_unsafe s.
Proof.
  unfold strip, rstrip.
  rewrite re_sub_unsafe_rev, re_sub_unsafe_lstrip, re_sub_unsafe_rev, rev_involutive.
  apply re_sub_unsafe_lstrip.
Qed.

(** X1: the trimming in [safe_name] changes nothing: the result is the
    safe characters of the whole name in their order, or the fallback when
    the name has none; white space inside the name goes like white space
    around it. *)
Theorem safe_name_keeps_the_safe_characters (name fallback : list N) :
  safe_name name fallback
  = (if decide (List.filter is_safe_char name = []) then fallback
     else List.filter is_safe_char name)
  /\ (forall a b, safe_name (a ++ b) fallback
                  = safe_name (List.filter is_safe_char a ++ List.filter is_safe_char b)
                      fallback).
Proof.
  assert (forall n, safe_name n fallback
                    = (if decide (List.filter is_safe_char n = []) then fallback
                       else List.filter is_safe_char n)) as H.
  { intros n. unfold safe_name. rewrite re_sub_unsafe_strip. unfold re_sub_unsafe.
    destruct (List.filter is_safe_char n); by case_decide. }
  split; [apply H|]. intros a b. rewrite !H, !List.filter_app.
  assert (forall x, List.filter is_safe_char (List.filter is_safe_char x)
                    = List.filter is_safe_char x) as Hidem.
  { intros x. apply (re_sub_unsafe_id _ (re_sub_unsafe_all_safe x)). }
  by rewrite !Hidem.
Qed.

Lemma split_on_absent sep s : ~ In sep s -> split_on sep s = [s].
Proof.
  induction s as [|c s IH]; intros H; [done|]. cbn [split_on].
  assert (c <> sep) as Hc by (intros ->; apply H; by left).
  apply N.eqb_neq in Hc. rewrite Hc, IH; [done|]. intros Hin. apply H. by right.
Qed.

(** A non-empty name without slash that is not a dot is one component. *)
Lemma plain_name_parts s :
  s <> [] -> ~ In 47 s -> s <> [46] -> parse_parts s = [s] /\ is_abs_str s = false.
Proof.
  intros Hne Hslash Hdot. split.
  - unfold parse_parts. rewrite split_on_absent by done. cbn [List.filter].
    unfold kept_part, str_eqb.
    rewrite (bool_decide_eq_false_2 _ Hne), (bool_decide_eq_false_2 _ Hdot). done.
  - destruct s as [|c s]; [done|]. simpl. apply N.eqb_neq. intros ->. apply Hslash. by left.
Qed.

Lemma all_safe_plain s : all_safe s -> ~ In 47 s /\ ~ In 46 s.
Proof.
  intros H. split; intros Hin;
    apply (proj1 (List.Forall_forall _ _) H) in Hin; discriminate.
Qed.

Lemma safe_name_default name :
  safe_name name default_project <> [] /\ all_safe (safe_name name default_project).
Proof.
  assert (all_safe default_project) as Hd by (unfold all_safe; repeat constructor).
  destruct (safe_name_cases name default_project) as [[_ ->]|[Hne ->]].
  - done.
  - split; [done|apply re_sub_unsafe_all_safe].
Qed.

(** X2: the project name that [main] hands to [create_project] is never
    empty and has safe characters only, so the project root is the output
    directory with exactly one more component: its parent is the output
    directory, whatever [--project] was. *)
Theorem project_root_is_a_child_of_the_output_directory (output_dir : Path) (project : list N) :
  let name := safe_name project default_project in
  name <> [] /\ all_safe name
  /\ joinpath output_dir name = under output_dir [name]
  /\ parent (joinpath output_dir name) = output_dir.
Proof.
  intros name. destruct (safe_name_default project) as [Hne Hsafe]. fold name in Hne, Hsafe.
  destruct (all_safe_plain name Hsafe) as [Hslash Hdot].
  assert (name <> [46]) as Hd by (intros E; apply Hdot; rewrite E; by left).
  destruct (plain_name_parts name Hne Hslash Hd) as [Hp Ha].
  split; [done|]. split; [done|]. split.
  - unfold joinpath, under. by rewrite Ha, Hp.
  - by apply parent_joinpath_name.
Qed.

(** X3: an application id whose segments are non-empty and have
    no slash gives one directory per segment, in order, below
    [app/src/main/java]. *)
Theorem one_directory_per_segment (application_id : list N) :
  Forall (fun seg => seg <> [] /\ ~ In 47 seg) (split_on 46 application_id) ->
  Path_of (split_on 46 application_id) = mkPath false (split_on 46 application_id)
  /\ forall root,
       main_activity_path root application_id
       = under root ([lit "app"; lit "src"; lit "main"; lit "java"]
                       ++ split_on 46 application_id ++ [lit "MainActivity.kt"]).
Proof.
  intros H.
  assert (forall segs p,
            Forall (fun seg => seg <> [] /\ ~ In 47 seg /\ ~ In 46 seg) segs ->
            fold_left joinpath segs p = mkPath (absolute p) (parts p ++ segs)) as Hfold.
  { induction segs as [|seg segs IH]; intros p Hs.
    - rewrite app_nil_r. by destruct p.
    - apply Forall_cons in Hs as [(Hne & Hslash & Hdot) Hs]. cbn [fold_left].
      assert (seg <> [46]) as Hd by (intros E; apply Hdot; rewrite E; by left).
      destruct (plain_name_parts seg Hne Hslash Hd) as [Hp Ha].
      rewrite IH by done. unfold joinpath. rewrite Ha, Hp. cbn [absolute parts].
      by rewrite <- app_assoc. }
  assert (Path_of (split_on 46 application_id) = mkPath false (split_on 46 application_id))
    as HP.
  { unfold Path_of. rewrite Hfold; [done|].
    apply List.Forall_forall. intros seg Hin.
    destruct (proj1 (List.Forall_forall _ _) H seg Hin) as [Hne Hslash].
    split; [done|]. split; [done|]. intros Hdot.
    by destruct (proj1 (List.Forall_forall _ _) (split_on_chars 46 application_id)
                   seg Hin 46 Hdot). }
  split; [done|]. intros root.
  rewrite main_activity_path_under by (by rewrite HP).
  unfold stub_names. by rewrite HP.
Qed.

Lemma one_directory_per_segment_witness :
  Forall (fun seg => seg <> [] /\ ~ In 47 seg) (split_on 46 (lit "com.example.app"))
  /\ Path_of (split_on 46 (lit "com.example.app"))
     = mkPath false [lit "com"; lit "example"; lit "app"].
Proof.
  assert (Forall (fun seg => seg <> [] /\ ~ In 47 seg) (split_on 46 (lit "com.example.app")))
    as H.
  { repeat constructor; try done; vm_compute; intros Hin;
      repeat (destruct Hin as [Hin|Hin]; [discriminate|]); done. }
  split; [exact H|].
  exact (proj1 (one_directory_per_segment (lit "com.example.app") H)).
Defined.

(** X4: the project name and the app name are put into their files as
    they are, whatever they contain: [settings.gradle.kts] is its template
    with the name in the place of the placeholder, and [strings.xml] its
    template with the app name in the place of the field; braces or
    placeholders inside the names are not interpreted. *)
Theorem names_are_inserted_verbatim (project_name app_name : list N) :
  render_settings_gradle project_name = settings_head ++ project_name ++ settings_tail
  /\ format STRINGS_XML (lit "app_name") app_name
     = Ok (strings_head ++ app_name ++ strings_tail)
  /\ SETTINGS_GRADLE = settings_head ++ lit "__PROJECT_NAME__" ++ settings_tail
  /\ STRINGS_XML = strings_head ++ lit "{app_name}" ++ strings_tail.
Proof.
  split; [vm_compute; reflexivity|]. split; [apply format_strings_xml|].
  split; vm_compute; reflexivity.
Qed.

(** ** [write_text] *)

(** X5: a successful [write_text] has made the parent of the path a
    directory, has left at the path a regular file with the UTF-8 encoding
    of the content, has logged the call, and has kept every node that
    existed, with its kind. *)
Theorem write_text_stores_the_encoded_content path content s s' :
  write_text path content s = (Ok tt, s') ->
  is_dir (st_world s') (parent path) = true
  /\ (exists b, utf8_encode content = Some b /\ file_bytes (st_world s') path = Some b)
  /\ st_log s' = st_log s ++ [WroteText path content]
  /\ fs_extends (fs (st_world s)) (fs (st_world s')).
Proof.
  intros H. apply write_text_ok in H as ([_ E] & L & D & F). done.
Qed.

Lemma write_text_stores_the_encoded_content_witness :
  fst (write_text (Path_of [lit "a/b/c.txt"]) (lit "hi") demo_state) = Ok tt
  /\ is_dir (st_world (snd (write_text (Path_of [lit "a/b/c.txt"]) (lit "hi") demo_state)))
       (Path_of [lit "a/b"]) = true.
Proof.
  assert (fst (write_text (Path_of [lit "a/b/c.txt"]) (lit "hi") demo_state) = Ok tt)
    as Hrun by (vm_compute; reflexivity).
  split; [exact Hrun|].
  refine (proj1 (write_text_stores_the_encoded_content (Path_of [lit "a/b/c.txt"])
                   (lit "hi") demo_state
                   (snd (write_text (Path_of [lit "a/b/c.txt"]) (lit "hi") demo_state)) _)).
  rewrite <- Hrun. apply surjective_pairing.
Defined.

(** What a successful [write_text] went through. *)
Lemma write_text_steps path content s s' :
  write_text path content s = (Ok tt, s') ->
  exists s1 l w2 b,
    Path_mkdir (parent path) true true s = (Ok tt, s1)
    /\ open_trunc path (st_world s1) = inr (l, w2)
    /\ utf8_encode content = Some b
    /\ s' = mkState (set_node w2 l (File b)) (st_log s1 ++ [WroteText path content]).
Proof.
  unfold write_text. intros H.
  apply bind_ok in H as ([] & s1 & H1 & H).
  apply bind_ok in H as ([] & s2 & H2 & H).
  injection H as <-.
  unfold Path_write_text, bind, syscall in H2.
  destruct (open_trunc path (st_world s1)) as [e|[l w2]] eqn:Ho; [done|].
  destruct (utf8_encode content) as [b|] eqn:Hb; [|done]. injection H2 as <-.
  by exists s1, l, w2, b.
Qed.

Lemma os_mkdir_existing p w : is_dir w p = true -> os_mkdir p w = inl EEXIST.
Proof.
  unfold is_dir, stat, locate, os_mkdir.
  destruct (lookup_parent w p) as [e|[[d name]|]]; try done.
  destruct (is_dotdot name); [done|].
  by destruct (node_at (fs w) (d ++ [name])).
Qed.

(** [mkdir(parents=True, exist_ok=True)] on a directory does nothing. *)
Lemma Path_mkdir_existing p s :
  is_dir (st_world s) p = true -> Path_mkdir p true true s = (Ok tt, s).
Proof.
  intros H. unfold Path_mkdir.
  assert (mkdir_call (mkPath (absolute p) (rev (rev (parts p)))) s
          = (Raise FileExistsError, s)) as Hcall.
  { unfold mkdir_call, syscall. rewrite rev_involutive.
    replace (mkPath (absolute p) (parts p)) with p by (by destruct p).
    by rewrite (os_mkdir_existing p _ H). }
  assert (is_dir (st_world s) (mkPath (absolute p) (rev (rev (parts p)))) = true) as Hd.
  { rewrite rev_involutive. by replace (mkPath (absolute p) (parts p)) with p by (by destruct p). }
  destruct (rev (parts p)) as [|c r]; cbn [Path_mkdir_parents];
    unfold try_except; rewrite Hcall; unfold bind, query; by rewrite Hd.
Qed.

(** X6: where [write_text] has succeeded it succeeds again with any
    content that can be encoded, and the file then holds the new content:
    the parent directories are accepted as they are and the file is
    overwritten. *)
Theorem write_text_overwrites path content content' b' s s1 :
  write_text path content s = (Ok tt, s1) ->
  utf8_encode content' = Some b' ->
  exists s2, write_text path content' s1 = (Ok tt, s2)
    /\ file_bytes (st_world s2) path = Some b'
    /\ st_log s2 = st_log s1 ++ [WroteText path content'].
Proof.
  intros H Hb'. pose proof H as H0.
  apply write_text_ok in H0 as (_ & _ & Hdir & _).
  apply write_text_steps in H as (sa & l & w2 & b & _ & Ho & _ & ->).
  cbn [st_world st_log] in *.
  apply open_trunc_ok in Ho as (d & name & Hp & Hdd & -> & Hn & ->).
  set (w := st_world sa) in *.
  assert (set_node (set_node w (d ++ [name]) (File [])) (d ++ [name]) (File b)
          = set_node w (d ++ [name]) (File b)) as Ew.
  { unfold set_node. simpl. by rewrite insert_insert_eq. }
  rewrite Ew in *.
  assert (world_extends w (set_node w (d ++ [name]) (File b))) as He
    by (apply set_file_extends; [by destruct d|done]).
  pose proof (lookup_parent_extends _ _ _ _ He Hp) as Hp'.
  set (w1 := set_node w (d ++ [name]) (File b)) in *.
  set (s1 := mkState w1 (st_log sa ++ [WroteText path content])).
  assert (open_trunc path w1 = inr (d ++ [name], set_node w1 (d ++ [name]) (File []))) as Ho'.
  { unfold open_trunc. rewrite Hp', Hdd, node_at_snoc. unfold w1. simpl.
    by rewrite lookup_insert_eq. }
  exists (mkState (set_node (set_node w1 (d ++ [name]) (File [])) (d ++ [name]) (File b'))
            (st_log s1 ++ [WroteText path content'])).
  split; [|split; [|done]].
  - unfold write_text.
    rewrite (bind_ok_eq _ _ s1 tt s1 (Path_mkdir_existing _ s1 Hdir)).
    unfold Path_write_text, bind, syscall, emit. cbn [st_world st_log s1].
    by rewrite Ho', Hb'.
  - destruct (stored_file path w1 _ _ b' Ho') as [_ Hs].
    unfold file_bytes. cbn [st_world]. by rewrite Hs.
Qed.

Lemma write_text_overwrites_witness :
  fst (write_text (Path_of [lit "a/b/c.txt"]) (lit "hi") demo_state) = Ok tt
  /\ utf8_encode (lit "ho") = Some (lit "ho")
  /\ exists s2,
       write_text (Path_of [lit "a/b/c.txt"]) (lit "ho")
         (snd (write_text (Path_of [lit "a/b/c.txt"]) (lit "hi") demo_state)) = (Ok tt, s2)
       /\ file_bytes (st_world s2) (Path_of [lit "a/b/c.txt"]) = Some (lit "ho")
       /\ st_log s2
          = st_log (snd (write_text (Path_of [lit "a/b/c.txt"]) (lit "hi") demo_state))
            ++ [WroteText (Path_of [lit "a/b/c.txt"]) (lit "ho")].
Proof.
  assert (fst (write_text (Path_of [lit "a/b/c.txt"]) (lit "hi") demo_state) = Ok tt)
    as Hrun by (vm_compute; reflexivity).
  split; [exact Hrun|]. split; [reflexivity|].
  refine (write_text_overwrites (Path_of [lit "a/b/c.txt"]) (lit "hi") (lit "ho") (lit "ho")
            demo_state
            (snd (write_text (Path_of [lit "a/b/c.txt"]) (lit "hi") demo_state)) _ eq_refl).
  rewrite <- Hrun. apply surjective_pairing.
Defined.

(** X7: where [write_text] succeeds with one content, it raises
    [UnicodeEncodeError] with a content that cannot be encoded (one with a
    surrogate), after the file has been opened: the file is left empty and
    nothing is logged. *)
Theorem write_text_of_unencodable_text_leaves_an_empty_file path content content' s s0 :
  write_text path content s = (Ok tt, s0) ->
  utf8_encode content' = None ->
  exists s', write_text path content' s = (Raise UnicodeEncodeError, s')
    /\ file_bytes (st_world s') path = Some []
    /\ spawned (st_log s') = spawned (st_log s)
    /\ outputs (st_log s') = outputs (st_log s).
Proof.
  intros H Hnone.
  pose proof H as Hsteps.
  apply write_text_steps in Hsteps as (s1 & l & w2 & b & Hmk & Ho & _ & _).
  pose proof (Path_mkdir_quiet _ _ _ _ _ _ Hmk) as [_ Hlog].
  exists (mkState w2 (st_log s1)). split; [|split].
  - unfold write_text. rewrite (bind_ok_eq _ _ s tt s1 Hmk).
    apply bind_raise_eq. unfold Path_write_text, bind, syscall. by rewrite Ho, Hnone.
  - destruct (stored_file path _ l w2 [] Ho) as [_ Hs].
    apply open_trunc_ok in Ho as (d & name & _ & _ & -> & _ & ->).
    assert (set_node (set_node (st_world s1) (d ++ [name]) (File [])) (d ++ [name]) (File [])
            = set_node (st_world s1) (d ++ [name]) (File [])) as Ew.
    { unfold set_node. simpl. by rewrite insert_insert_eq. }
    rewrite Ew in Hs. unfold file_bytes. cbn [st_world]. by rewrite Hs.
  - cbn [st_log]. by rewrite Hlog.
Qed.

Lemma write_text_of_unencodable_text_leaves_an_empty_file_witness :
  fst (write_text (Path_of [lit "a/b/c.txt"]) (lit "hi") demo_state) = Ok tt
  /\ utf8_encode [104; 56320] = None
  /\ exists s', write_text (Path_of [lit "a/b/c.txt"]) [104; 56320] demo_state
                = (Raise UnicodeEncodeError, s')
       /\ file_bytes (st_world s') (Path_of [lit "a/b/c.txt"]) = Some []
       /\ spawned (st_log s') = spawned (st_log demo_state)
       /\ outputs (st_log s') = outputs (st_log demo_state).
Proof.
  assert (fst (write_text (Path_of [lit "a/b/c.txt"]) (lit "hi") demo_state) = Ok tt)
    as Hrun by (vm_compute; reflexivity).
  split; [exact Hrun|]. split; [reflexivity|].
  refine (write_text_of_unencodable_text_leaves_an_empty_file (Path_of [lit "a/b/c.txt"])
            (lit "hi") [104; 56320] demo_state
            (snd (write_text (Path_of [lit "a/b/c.txt"]) (lit "hi") demo_state)) _ eq_refl).
  rewrite <- Hrun. apply surjective_pairing.
Defined.

(** ** [create_project] never removes anything and starts no process *)

Lemma calm_refl s : calm s s.
Proof. split; [apply extends_refl|done]. Qed.

Lemma calm_trans s1 s2 s3 : calm s1 s2 -> calm s2 s3 -> calm s1 s3.
Proof. intros [E1 L1] [E2 L2]. split; [by eapply extends_trans|congruence]. Qed.

Lemma quiet_calm s s' : quiet s s' -> calm s s'.
Proof. intros [E L]. split; [done|by rewrite L]. Qed.

Lemma calm_same_world s s' :
  st_world s' = st_world s -> spawned (st_log s') = spawned (st_log s) -> calm s s'.
Proof.
  intros Hw Hl. split; [|done]. unfold extends. rewrite Hw.
  split; [done|apply fs_extends_refl].
Qed.

Lemma emit_calm ev :
  (forall cmd dir, ev <> Spawned cmd dir) -> steps calm (emit ev).
Proof.
  intros Hev s r s' [= <- <-]. apply calm_same_world; [done|].
  cbn [st_log]. rewrite spawned_app. destruct ev; try by rewrite app_nil_r.
  by destruct (Hev cmd dir).
Qed.

Lemma Path_write_text_calm p content : steps calm (Path_write_text p content).
Proof.
  intros s r s' H. apply Path_write_text_inv in H as (E & L & _).
  split; [done|by rewrite L].
Qed.

Lemma write_text_calm path content : steps calm (write_text path content).
Proof.
  unfold write_text. apply steps_bind; [apply calm_trans| |intros _].
  - eapply steps_weaken; [apply quiet_calm|apply Path_mkdir_quiet].
  - apply steps_bind; [apply calm_trans|apply Path_write_text_calm|intros _].
    by apply emit_calm.
Qed.

(** Opening the destination and storing the bytes, as [copy2] does. *)
Lemma store_calm dst src dst0 data :
  steps calm
    (do l <- syscall (open_trunc dst);
     (fun s => (Ok tt, mkState (set_node (st_world s) l (File data)) (st_log s))) ;;
     emit (Copied src dst0 data)).
Proof.
  intros s r s' H. unfold bind, syscall in H.
  destruct (open_trunc dst (st_world s)) as [e|[l w]] eqn:Ho.
  - injection H as <- <-. apply calm_refl.
  - cbn [emit st_world st_log] in H. injection H as <- <-.
    destruct (stored_file _ _ _ _ data Ho) as [He _].
    split; [done|]. cbn [st_log]. rewrite spawned_app. by rewrite app_nil_r.
Qed.

Lemma copy2_calm src dst : steps calm (copy2 src dst).
Proof.
  unfold copy2.
  apply steps_bind; [apply calm_trans| |intros d].
  { intros s r s' [= <- <-]. apply calm_refl. }
  apply steps_bind; [apply calm_trans| |intros same].
  { intros s r s' [= <- <-]. apply calm_refl. }
  destruct same; [apply steps_raise, calm_refl|].
  apply steps_bind; [apply calm_trans| |intros data].
  { intros s r s' H. unfold syscall in H.
    destruct (read_bytes src (st_world s)); injection H as <- <-;
      by apply calm_same_world. }
  apply store_calm.
Qed.

Lemma write_all_calm {A} (k : M A) files :
  steps calm k -> steps calm (write_all files k).
Proof.
  intros Hk. induction files as [|f files IH]; [done|].
  cbn [write_all fold_right]. apply steps_bind; [apply calm_trans| |by intros _].
  apply write_text_calm.
Qed.

Lemma create_project_calm source_file output_dir project_name app_name
    application_id compile_sdk min_sdk target_sdk :
  steps calm
    (create_project source_file output_dir project_name app_name application_id
       compile_sdk min_sdk target_sdk).
Proof.
  rewrite create_project_unfold. cbv zeta.
  apply steps_bind; [apply calm_trans| |intros found].
  { intros s r s' [= <- <-]. apply calm_refl. }
  destruct found; [apply steps_raise, calm_refl|].
  apply write_all_calm.
  apply steps_bind; [apply calm_trans| |intros _].
  - unfold write_stub. destruct source_file as [source|]; [|apply write_text_calm].
    apply steps_bind; [apply calm_trans| |intros _; apply copy2_calm].
    eapply steps_weaken; [apply quiet_calm|apply Path_mkdir_quiet].
  - intros s r s' [= <- <-]. apply calm_refl.
Qed.

(** X8: however [create_project] ends, with a root or with an exception
    raised half way, it has removed nothing: every node that existed is
    still there, a file as a file and a directory as a directory, the
    working directory is the same, and no process has been started. *)
Theorem create_project_only_adds source_file output_dir project_name app_name
    application_id compile_sdk min_sdk target_sdk s r s' :
  create_project source_file output_dir project_name app_name application_id
    compile_sdk min_sdk target_sdk s = (r, s') ->
  cwd (st_world s') = cwd (st_world s)
  /\ (forall l n, fs (st_world s) !! l = Some n ->
        exists n', fs (st_world s') !! l = Some n' /\ same_kind n n' = true)
  /\ spawned (st_log s') = spawned (st_log s).
Proof.
  intros H. apply create_project_calm in H as [[C E] L]. done.
Qed.

Lemma create_project_only_adds_witness :
  create_project (Some demo_source) demo_out (lit "Foo") (lit "Foo App") (lit "/srv")
    34 24 34 (mkState occupied_world [])
  = (fst occupied_create, snd occupied_create)
  /\ cwd (st_world (snd occupied_create)) = cwd occupied_world.
Proof.
  assert (create_project (Some demo_source) demo_out (lit "Foo") (lit "Foo App") (lit "/srv")
            34 24 34 (mkState occupied_world [])
          = (fst occupied_create, snd occupied_create)) as Hrun
    by apply surjective_pairing.
  split; [exact Hrun|].
  exact (proj1 (create_project_only_adds _ _ _ _ _ _ _ _ _ _ _ Hrun)).
Defined.

(** ** The exit status of [main] *)

Lemma source_check_passes args s (proceed : M Z) :
  match arg_source args with
  | Some p => exists_ (st_world s) p = true
  | None => True
  end ->
  match arg_source args with
  | Some p =>
      do found <- query (fun w => exists_ w p);
      if negb found then print (MsgSourceMissing p) ;; ret 2%Z else proceed
  | None => proceed
  end s = proceed s.
Proof.
  intros H. destruct (arg_source args) as [p|]; [|done].
  unfold bind, query. by rewrite H.
Qed.

(** X9: when the source check passes and the project root exists, [main]
    prints one line and returns 3; the file system is as it was. *)
Theorem main_returns_3_for_an_existing_root h args s :
  match arg_source args with
  | Some p => exists_ (st_world s) p = true
  | None => True
  end ->
  exists_ (st_world s)
    (joinpath (arg_out args) (safe_name (arg_project args) default_project)) = true ->
  main h args s
  = (Ok 3%Z, mkState (st_world s) (st_log s ++ [Printed (MsgError FileExistsError)])).
Proof.
  intros Hsrc Hex. unfold main. rewrite (source_check_passes args s _ Hsrc).
  assert (create_project (arg_source args) (arg_out args)
            (safe_name (arg_project args) default_project) (arg_app_name args)
            (arg_application_id args) (arg_compile_sdk args) (arg_min_sdk args)
            (arg_target_sdk args) s = (Raise FileExistsError, s)) as Hcreate.
  { rewrite create_project_unfold. cbv zeta. unfold bind, query. by rewrite Hex. }
  unfold bind at 1. unfold try_except at 1.
  rewrite (bind_raise_eq _ _ _ _ _ Hcreate). reflexivity.
Qed.

Lemma main_returns_3_for_an_existing_root_witness :
  exists_ (st_world demo_state2)
    (joinpath (mkPath false []) (safe_name (lit "dist") default_project)) = true
  /\ main bare_host
       (mkArgs None (mkPath false []) (lit "dist") (lit "App") (lit "a.b") 34 24 34
          true false) demo_state2
     = (Ok 3%Z,
        mkState (st_world demo_state2)
          (st_log demo_state2 ++ [Printed (MsgError FileExistsError)])).
Proof.
  split; [vm_compute; reflexivity|].
  apply main_returns_3_for_an_existing_root; [exact I|vm_compute; reflexivity].
Defined.

(** X10: without [--build], [main] starts no process whatever the host,
    removes nothing, and returns 0 only when the project root exists
    afterwards. *)
Theorem main_without_build_starts_no_process h args s r s' :
  arg_build args = false ->
  main h args s = (r, s') ->
  spawned (st_log s') = spawned (st_log s)
  /\ fs_extends (fs (st_world s)) (fs (st_world s'))
  /\ (r = Ok 0%Z ->
      exists_ (st_world s')
        (joinpath (arg_out args) (safe_name (arg_project args) default_project)) = true).
Proof.
  intros Hbuild H. unfold main in H. rewrite Hbuild in H.
  set (create := create_project (arg_source args) (arg_out args)
                   (safe_name (arg_project args) default_project) (arg_app_name args)
                   (arg_application_id args) (arg_compile_sdk args) (arg_min_sdk args)
                   (arg_target_sdk args)) in *.
  set (proceed := bind _ _) in H.
  assert (forall s0 r0 s0', proceed s0 = (r0, s0') ->
            spawned (st_log s0') = spawned (st_log s0)
            /\ fs_extends (fs (st_world s0)) (fs (st_world s0'))
            /\ (r0 = Ok 0%Z ->
                exists_ (st_world s0')
                  (joinpath (arg_out args) (safe_name (arg_project args) default_project))
                = true)) as Hproceed.
  { intros s0 r0 s0' Hp. unfold proceed, bind at 1, try_except, bind at 1 in Hp.
    destruct (create s0) as [[root|e] s1] eqn:Hc.
    - pose proof (create_project_calm _ _ _ _ _ _ _ _ _ _ _ Hc) as [[_ E] L].
      apply create_project_ok in Hc as (-> & _ & _ & Hex & _).
      cbn in Hp. injection Hp as <- <-. cbn [st_world st_log].
      rewrite !spawned_app, !app_nil_r. done.
    - pose proof (create_project_calm _ _ _ _ _ _ _ _ _ _ _ Hc) as [[_ E] L].
      destruct e; cbn in Hp; injection Hp as <- <-; cbn [st_world st_log];
        rewrite ?spawned_app, ?app_nil_r; done. }
  destruct (arg_source args) as [p|]; [|by apply Hproceed].
  unfold bind at 1, query in H.
  destruct (exists_ (st_world s) p); cbn [negb] in H; [by apply Hproceed|].
  cbn in H. injection H as <- <-. cbn [st_world st_log].
  rewrite spawned_app, app_nil_r. split; [done|]. split; [apply fs_extends_refl|done].
Qed.

Lemma main_without_build_starts_no_process_witness :
  fst (main failing_host (demo_args None "com.x.y" false) demo_state) = Ok 0%Z
  /\ spawned (st_log (snd (main failing_host (demo_args None "com.x.y" false) demo_state)))
     = spawned (st_log demo_state).
Proof.
  assert (fst (main failing_host (demo_args None "com.x.y" false) demo_state) = Ok 0%Z)
    as Hrun by (vm_compute; reflexivity).
  split; [exact Hrun|].
  refine (proj1 (main_without_build_starts_no_process failing_host
                   (demo_args None "com.x.y" false) demo_state (Ok 0%Z)
                   (snd (main failing_host (demo_args None "com.x.y" false) demo_state))
                   eq_refl _)).
  rewrite <- Hrun. apply surjective_pairing.
Defined.

(** ** The build step *)

Lemma subprocess_run_check_inv h cmd dir s outcome w' :
  spawn h cmd dir (st_world s) = (outcome, w') ->
  subprocess_run_check h cmd dir s
  = (match outcome with
     | CannotStart e => Raise e
     | Exited rc => if (rc =? 0)%Z then Ok tt else Raise (CalledProcessError rc)
     end,
     mkState w' (st_log s ++ [Spawned cmd dir])).
Proof.
  intros Hspawn. unfold subprocess_run_check, bind, emit. cbn [st_world st_log].
  rewrite Hspawn. destruct outcome as [e|rc]; [done|]. by destruct (rc =? 0)%Z.
Qed.

Lemma run_gradle_build_start h root offline s :
  run_gradle_build h root offline s
  = bind (if negb (exists_ (st_world s) (gradlew_path h root))
          then print MsgNoWrapper ;; subprocess_run_check h gradle_wrapper_cmd root
          else ret tt)
      (fun _ =>
         print (MsgRunning (assemble_cmd (gradlew_path h root) offline)) ;;
         subprocess_run_check h (assemble_cmd (gradlew_path h root) offline) root) s.
Proof. reflexivity. Qed.

(** X11: with the wrapper present, [run_gradle_build] does not run
    [gradle wrapper]: it starts one process, the wrapper with
    [assembleDebug] and with [--offline] exactly when asked, in the project
    root; it returns when that exits with 0, raises [CalledProcessError]
    with the status otherwise, and passes on the exception when the
    wrapper cannot be started. *)
Theorem existing_wrapper_is_used h root offline s outcome w' :
  exists_ (st_world s) (gradlew_path h root) = true ->
  spawn h (assemble_cmd (gradlew_path h root) offline) root (st_world s) = (outcome, w') ->
  run_gradle_build h root offline s
  = (match outcome with
     | CannotStart e => Raise e
     | Exited rc => if (rc =? 0)%Z then Ok tt else Raise (CalledProcessError rc)
     end,
     mkState w'
       (st_log s ++ [Printed (MsgRunning (assemble_cmd (gradlew_path h root) offline));
                     Spawned (assemble_cmd (gradlew_path h root) offline) root]))
  /\ assemble_cmd (gradlew_path h root) offline
     = [path_str (gradlew_path h root); lit "assembleDebug"]
         ++ (if offline then [lit "--offline"] else []).
Proof.
  intros Hex Hspawn. split; [|done].
  rewrite run_gradle_build_start, Hex. cbn [negb].
  rewrite (bind_ok_eq (ret tt) _ s tt s eq_refl).
  rewrite (bind_ok_eq (print _) _ s tt _ eq_refl).
  rewrite (subprocess_run_check_inv h _ root (mkState (st_world s) _) outcome w' Hspawn).
  cbn [st_log]. by rewrite <- app_assoc.
Qed.

Lemma existing_wrapper_is_used_witness :
  exists_ (st_world wrapped_state) (gradlew_path quiet_host demo_root) = true
  /\ fst (run_gradle_build quiet_host demo_root true wrapped_state) = Ok tt
  /\ spawned (st_log (snd (run_gradle_build quiet_host demo_root true wrapped_state)))
     = [[lit "proj/gradlew"; lit "assembleDebug"; lit "--offline"]].
Proof.
  assert (exists_ (st_world wrapped_state) (gradlew_path quiet_host demo_root) = true)
    as Hex by (vm_compute; reflexivity).
  split; [exact Hex|].
  rewrite (proj1 (existing_wrapper_is_used quiet_host demo_root true wrapped_state
                    (Exited 0) (st_world wrapped_state) Hex eq_refl)).
  split; reflexivity.
Defined.

(** X12: with the wrapper absent and a [gradle wrapper] that exits with 0,
    [run_gradle_build] goes on to the build without looking for the
    wrapper again: the build command is started in the file system that the
    bootstrap has left, and its outcome is the outcome of the function. *)
Theorem bootstrap_is_followed_by_the_build h root offline s w1 outcome w2 :
  exists_ (st_world s) (gradlew_path h root) = false ->
  spawn h gradle_wrapper_cmd root (st_world s) = (Exited 0, w1) ->
  spawn h (assemble_cmd (gradlew_path h root) offline) root w1 = (outcome, w2) ->
  run_gradle_build h root offline s
  = (match outcome with
     | CannotStart e => Raise e
     | Exited rc => if (rc =? 0)%Z then Ok tt else Raise (CalledProcessError rc)
     end,
     mkState w2
       (st_log s ++ [Printed MsgNoWrapper; Spawned gradle_wrapper_cmd root;
                     Printed (MsgRunning (assemble_cmd (gradlew_path h root) offline));
                     Spawned (assemble_cmd (gradlew_path h root) offline) root])).
Proof.
  intros Hex Hboot Hbuild.
  rewrite run_gradle_build_start, Hex. cbn [negb].
  assert ((print MsgNoWrapper ;; subprocess_run_check h gradle_wrapper_cmd root) s
          = (Ok tt, mkState w1 (st_log s ++ [Printed MsgNoWrapper]
                                  ++ [Spawned gradle_wrapper_cmd root]))) as Hfirst.
  { rewrite (bind_ok_eq (print _) _ s tt _ eq_refl).
    rewrite (subprocess_run_check_inv h _ root (mkState (st_world s) _) (Exited 0) w1 Hboot).
    cbn [st_log]. by rewrite <- app_assoc. }
  rewrite (bind_ok_eq _ _ s tt _ Hfirst).
  rewrite (bind_ok_eq (print _) _ _ tt _ eq_refl).
  rewrite (subprocess_run_check_inv h _ root (mkState w1 _) outcome w2 Hbuild).
  cbn [st_log]. by rewrite <- !app_assoc.
Qed.

Lemma bootstrap_is_followed_by_the_build_witness :
  exists_ (st_world unwrapped_state) (gradlew_path wrapping_host demo_root) = false
  /\ run_gradle_build wrapping_host demo_root false unwrapped_state
     = (Raise (CalledProcessError 7),
        mkState (st_world wrapped_state)
          [Printed MsgNoWrapper; Spawned gradle_wrapper_cmd demo_root;
           Printed (MsgRunning (assemble_cmd (gradlew_path wrapping_host demo_root) false));
           Spawned (assemble_cmd (gradlew_path wrapping_host demo_root) false) demo_root]).
Proof.
  assert (exists_ (st_world unwrapped_state) (gradlew_path wrapping_host demo_root) = false)
    as Hex by (vm_compute; reflexivity).
  split; [exact Hex|].
  exact (bootstrap_is_followed_by_the_build wrapping_host demo_root false unwrapped_state
           (st_world wrapped_state) (Exited 7) (st_world wrapped_state)
           Hex eq_refl eq_refl).
Defined.

(** ** What [create_project] touches *)

Lemma copy2_touches src dst s s' :
  is_dir (st_world s) dst = false -> no_dotdot (parts dst) ->
  copy2 src dst s = (Ok tt, s') ->
  touches (absolute dst) (parts dst) s s'.
Proof.
  intros Hd Hnd H. unfold copy2 in H.
  apply bind_ok in H as (d & s0 & [= <- <-] & H). rewrite Hd in H.
  apply bind_ok in H as (same & s0 & [= <- <-] & H).
  destruct (samefile _ _ _); [done|].
  apply bind_ok in H as (data & s1 & H1 & H).
  unfold syscall in H1. destruct (read_bytes src (st_world s)) as [e|data']; [done|].
  injection H1 as <- <-.
  apply bind_ok in H as (l & s2 & H2 & H).
  unfold syscall in H2. cbn [st_world st_log] in H2.
  destruct (open_trunc dst (st_world s)) as [e|[l' w2]] eqn:Ho; [done|].
  injection H2 as <- <-.
  apply bind_ok in H as ([] & s3 & [= <-] & H).
  apply emit_inv in H as (_ & Hw & _). cbn [st_world st_log] in Hw.
  apply open_trunc_ok in Ho as (d' & name & Hp & _ & -> & _ & ->).
  apply lookup_parent_lexical in Hp as [Hl _]; [|done].
  unfold lexical, base in Hl.
  unfold touches. rewrite Hw. cbn [set_node fs cwd]. split; [done|]. intros l0.
  destruct (decide (d' ++ [name] = l0)) as [<-|Hne].
  - right. right. split; [by rewrite Hl|]. exists data'. by rewrite lookup_insert_eq.
  - left. by rewrite !lookup_insert_ne.
Qed.

(** Under the invariant of the project the path of the stub is no
    directory. *)
Lemma stub_is_no_directory w0 root id s :
  no_dotdot (parts root) -> project_inv w0 (lexical w0 root) s ->
  is_dir (st_world s) (under root (stub_names id)) = false.
Proof.
  intros Hnd (Hc & _ & Hj). unfold is_dir.
  destruct (stat (st_world s) (under root (stub_names id))) as [e|[l [b|]]] eqn:Hs;
    try done.
  exfalso. apply stat_lexical in Hs as [-> Hn].
  2:{ apply under_no_dotdot; [done|apply stub_names_no_dotdot]. }
  assert (lexical (st_world s) (under root (stub_names id))
          = lexical w0 root ++ stub_names id) as El.
  { unfold lexical, base, under. cbn [absolute parts]. by rewrite Hc, app_assoc. }
  assert (stub_names id <> []) as Hne by (unfold stub_names; done).
  rewrite El in Hn.
  rewrite node_at_nonempty in Hn by (by destruct (lexical w0 root), (stub_names id)).
  apply (Hj (lexical w0 root ++ stub_names id)); [by eexists| | |done].
  - intros E. apply (f_equal length) in E. rewrite length_app in E.
    destruct (stub_names id); [done|simpl in E; lia].
  - rewrite last_app_nonempty by done. apply stub_names_last.
Qed.

(** An invariant [J] that every step below the root keeps is kept by a
    successful [create_project] on a fresh root, together with the
    invariant of the project. *)
Lemma create_project_invariant (J : state -> Prop) source_file output_dir project_name
    app_name application_id compile_sdk min_sdk target_sdk s root s' :
  wf_fs (fs (st_world s)) ->
  no_dotdot (parts (joinpath output_dir project_name)) ->
  absolute (Path_of (split_on 46 application_id)) = false ->
  (forall rel sa sb,
     In rel (stub_names application_id :: first_names) ->
     cwd (st_world sa) = cwd (st_world s) ->
     touches (absolute (joinpath output_dir project_name))
       (parts (joinpath output_dir project_name) ++ rel) sa sb ->
     J sa -> J sb) ->
  (forall sa sb,
     cwd (st_world sa) = cwd (st_world s) ->
     creates_dirs (absolute (joinpath output_dir project_name))
       (parts (joinpath output_dir project_name)
          ++ removelast (stub_names application_id)) sa sb ->
     J sa -> J sb) ->
  create_project source_file output_dir project_name app_name application_id
    compile_sdk min_sdk target_sdk s = (Ok root, s') ->
  J s ->
  J s'
  /\ project_inv (st_world s) (lexical (st_world s) (joinpath output_dir project_name)) s'.
Proof.
  intros Hwf Hnd Hrel Htouch Hmkdirs H HJ.
  rewrite create_project_unfold in H. cbv zeta in H.
  apply bind_ok in H as (found & s0 & [= <- <-] & H).
  set (root0 := joinpath output_dir project_name) in *.
  destruct (exists_ (st_world s) root0) eqn:Hex; [done|].
  set (w0 := st_world s) in *.
  pose proof (fresh_root w0 root0 Hwf Hnd Hex) as Hfresh.
  set (I := fun x => (extends (mkState w0 []) x
                      /\ project_inv w0 (lexical w0 root0) x) /\ J x).
  assert (forall rel content sa sb,
            In rel (stub_names application_id :: first_names) ->
            write_text (under root0 rel) content sa = (Ok tt, sb) -> I sa -> I sb)
    as Hwrite.
  { intros rel content sa sb Hin Hwr [HI HJa].
    assert (no_dotdot rel
            /\ Forall (fun c => c <> lit "MainActivity.kt") (removelast rel))
      as [Hnd' Hstub'].
    { destruct Hin as [<-|Hin];
        [split; [apply stub_names_no_dotdot|apply stub_dirs_not_stub]|].
      exact (proj1 (List.Forall_forall _ _) first_names_plain rel Hin). }
    split; [by apply (write_text_under_inv w0 root0 rel content sa sb)|].
    apply (Htouch rel sa sb Hin); [by destruct HI as [_ [? _]]| |done].
    apply write_text_touches in Hwr; [done|by apply under_no_dotdot]. }
  assert (forall f,
            In f (first_writes root0 project_name app_name application_id
                    compile_sdk min_sdk target_sdk) ->
            forall sa sb, write_text (fst f) (snd f) sa = (Ok tt, sb) -> I sa -> I sb)
    as Hstep.
  { intros f Hf sa sb Hwr HI.
    assert (In (fst f) (List.map (under root0) first_names)) as Hin.
    { rewrite <- (first_writes_paths root0 project_name app_name application_id
                    compile_sdk min_sdk target_sdk).
      by apply in_map. }
    apply in_map_iff in Hin as (rel & Erel & Hrelin).
    rewrite <- Erel in Hwr.
    apply (Hwrite rel (snd f) sa sb); [by right|done|done]. }
  assert (I s) as HI.
  { split; [|done]. split; [split; [done|apply fs_extends_refl]|].
    destruct s as [w log]. by apply project_inv_start. }
  destruct (write_all_keeps I _ _ Hstep s root s' H HI) as (s1 & HI1 & H1).
  clear H. rename H1 into H.
  apply bind_ok in H as ([] & s2 & H & [= <- <-]).
  rewrite (main_activity_path_under root0 application_id Hrel) in *.
  assert (I s2) as [[_ Hinv] HJ'].
  { unfold write_stub in H. destruct source_file as [source|].
    - apply bind_ok in H as ([] & s3 & Hmk & Hcp).
      destruct HI1 as [[He1 Hinv1] HJ1].
      assert (stub_names application_id <> []) as Hne by (unfold stub_names; done).
      rewrite parent_under in Hmk by done.
      pose proof (Path_mkdir_quiet _ _ _ _ _ _ Hmk) as [Eq _].
      assert (extends (mkState w0 []) s3) as He3 by (by eapply extends_trans).
      apply Path_mkdir_creates in Hmk.
      2:{ apply under_no_dotdot; [done|].
          pose proof (stub_names_no_dotdot application_id) as Hs.
          rewrite (app_removelast_last [] Hne) in Hs.
          by apply no_dotdot_app in Hs as [? _]. }
      pose proof (creates_dirs_project_inv w0 root0 _ s1 s3 Hmk
                    (stub_dirs_not_stub application_id) Hinv1) as Hinv3.
      assert (J s3) as HJ3.
      { apply (Hmkdirs s1 s3); [by destruct Hinv1 as [? _]|done|done]. }
      pose proof (stub_is_no_directory w0 root0 application_id s3 Hnd Hinv3) as Hnodir.
      pose proof (copy2_ok _ _ _ _ Hcp) as [Ecp _].
      apply copy2_touches in Hcp;
        [|done|apply under_no_dotdot; [done|apply stub_names_no_dotdot]].
      split; [split; [by eapply extends_trans|]|].
      + exact (touches_project_inv w0 root0 _ s3 s2 Hcp
                 (stub_dirs_not_stub application_id) Hinv3).
      + apply (Htouch (stub_names application_id) s3 s2); [by left| |done|done].
        by destruct Hinv3 as [? _].
    - by apply (Hwrite (stub_names application_id)
                 (render_main_activity application_id) s1 s2); [left|..]. }
  done.
Qed.

(** X13: in a well-formed file system, with a root path without [..] and
    an application id whose segments do not start with a slash, a
    successful [create_project] has changed nothing outside the project
    root: every node that existed is there with the same content; and
    before the call nothing existed at or below the root. *)
Theorem create_project_stays_below_the_root source_file output_dir project_name
    app_name application_id compile_sdk min_sdk target_sdk s root s' :
  wf_fs (fs (st_world s)) ->
  no_dotdot (parts (joinpath output_dir project_name)) ->
  absolute (Path_of (split_on 46 application_id)) = false ->
  create_project source_file output_dir project_name app_name application_id
    compile_sdk min_sdk target_sdk s = (Ok root, s') ->
  forall l,
    if bool_decide (lexical (st_world s) root `prefix_of` l)
    then fs (st_world s) !! l = None
    else forall n, fs (st_world s) !! l = Some n -> fs (st_world s') !! l = Some n.
Proof.
  intros Hwf Hnd Hrel H l.
  pose proof H as H0. apply create_project_ok in H0 as (-> & Hex & _).
  destruct (create_project_invariant (fun _ => True) _ _ _ _ _ _ _ _ _ _ _
              Hwf Hnd Hrel (fun _ _ _ _ _ _ _ => I) (fun _ _ _ _ _ => I) H I)
    as [_ (_ & Hout & _)].
  case_bool_decide as Hpre.
  - by apply (fresh_root _ _ Hwf Hnd Hex).
  - intros n Hn. by apply Hout.
Qed.

Lemma create_project_stays_below_the_root_witness :
  fst copied_create = Ok (mkPath false [lit "dist"; lit "Foo"])
  /\ fs (st_world (snd copied_create)) !! [lit "in"; lit "Main.kt"] = Some (File [1; 2; 3]).
Proof.
  assert (wf_fs (fs (st_world demo_state3))) as Hwf.
  { change (map_Forall (fun l _ => node_at (fs (st_world demo_state3)) (removelast l)
                                   = Some Dir)
              (<[ [lit "in"; lit "Main.kt"] := File [1; 2; 3] ]>
                 ({[ [lit "in"] := Dir ]} : gmap (list (list N)) node))).
    apply map_Forall_insert_2; [reflexivity|].
    apply map_Forall_singleton. reflexivity. }
  assert (no_dotdot (parts (joinpath demo_out (lit "Foo")))) as Hnd
    by (repeat constructor).
  assert (fst copied_create = Ok (mkPath false [lit "dist"; lit "Foo"])) as Hrun
    by (vm_compute; reflexivity).
  split; [exact Hrun|].
  assert (create_project (Some demo_source) demo_out (lit "Foo") (lit "Foo App")
            (lit "com.x.y") 34 24 34 demo_state3
          = (Ok (mkPath false [lit "dist"; lit "Foo"]), snd copied_create)) as Hcreate.
  { rewrite <- Hrun. apply surjective_pairing. }
  assert (absolute (Path_of (split_on 46 (lit "com.x.y"))) = false) as Hrel
    by reflexivity.
  pose proof (create_project_stays_below_the_root (Some demo_source) demo_out (lit "Foo")
                (lit "Foo App") (lit "com.x.y") 34%Z 24%Z 34%Z demo_state3
                (mkPath false [lit "dist"; lit "Foo"]) (snd copied_create)
                Hwf Hnd Hrel Hcreate [lit "in"; lit "Main.kt"]) as Hl.
  rewrite bool_decide_eq_false_2 in Hl.
  - apply Hl. vm_compute. reflexivity.
  - intros [k Hk]. vm_compute in Hk. discriminate.
Defined.

(** ** A fresh project has no wrapper *)

Lemma made_at_child (B rp rel : list (list N)) k x :
  B ++ take k (rp ++ rel) = (B ++ rp) ++ [x] -> exists rel', rel = x :: rel'.
Proof.
  rewrite <- app_assoc. intros H%app_inv_head.
  destruct (decide (k <= length rp)%nat) as [Hk|Hk].
  - rewrite take_app_le in H by done. apply (f_equal length) in H.
    rewrite length_take, length_app in H. simpl in H. lia.
  - rewrite take_app_ge in H by lia. apply app_inv_head in H.
    destruct rel as [|y rel]; [by rewrite take_nil in H|].
    destruct (k - length rp)%nat; [done|]. cbn in H. injection H as -> _. by eexists.
Qed.

Lemma touches_keeps_absent w0 root rel x sa sb :
  cwd (st_world sa) = cwd w0 ->
  touches (absolute root) (parts root ++ rel) sa sb ->
  List.hd_error rel <> Some x ->
  fs (st_world sa) !! (lexical w0 root ++ [x]) = None ->
  fs (st_world sb) !! (lexical w0 root ++ [x]) = None.
Proof.
  intros Hc [_ H] Hhd Hn.
  pose proof (project_inv_origin w0 root sa Hc) as HR.
  destruct (H (lexical w0 root ++ [x])) as [E|[(_ & _ & k & _ & El)|(El & _)]].
  - by rewrite E.
  - exfalso. rewrite <- HR, <- app_assoc in El. symmetry in El.
    rewrite (app_assoc _ (parts root)) in El.
    apply made_at_child in El as [rel' ->]. by apply Hhd.
  - exfalso. rewrite <- HR, <- !app_assoc in El.
    apply app_inv_head, app_inv_head in El. subst rel. by apply Hhd.
Qed.

Lemma creates_dirs_keeps_absent w0 root rel x sa sb :
  cwd (st_world sa) = cwd w0 ->
  creates_dirs (absolute root) (parts root ++ rel) sa sb ->
  List.hd_error rel <> Some x ->
  fs (st_world sa) !! (lexical w0 root ++ [x]) = None ->
  fs (st_world sb) !! (lexical w0 root ++ [x]) = None.
Proof.
  intros Hc [_ H] Hhd Hn.
  pose proof (project_inv_origin w0 root sa Hc) as HR.
  destruct (H (lexical w0 root ++ [x])) as [E|(_ & _ & k & _ & El)].
  - by rewrite E.
  - exfalso. rewrite <- HR, <- app_assoc in El. symmetry in El.
    rewrite (app_assoc _ (parts root)) in El.
    apply made_at_child in El as [rel' ->]. by apply Hhd.
Qed.

Lemma first_names_heads x :
  x = lit "gradlew" \/ x = lit "gradlew.bat" ->
  forall rel, In rel first_names -> List.hd_error rel <> Some x.
Proof.
  intros Hx rel Hin. unfold first_names in Hin.
  repeat (destruct Hin as [<-|Hin]; [destruct Hx as [-> | ->]; discriminate|]).
  done.
Qed.

(** X14: in a well-formed file system, with a root path without [..] and
    an application id whose segments do not start with a slash, the project
    that [create_project] has just made has no wrapper, under either name:
    [run_gradle_build] on it prints that the wrapper is missing and starts
    with [gradle wrapper], so that [--build] needs a system Gradle. *)
Theorem fresh_project_has_no_wrapper h source_file output_dir project_name
    app_name application_id compile_sdk min_sdk target_sdk s root s' offline :
  wf_fs (fs (st_world s)) ->
  no_dotdot (parts (joinpath output_dir project_name)) ->
  absolute (Path_of (split_on 46 application_id)) = false ->
  create_project source_file output_dir project_name app_name application_id
    compile_sdk min_sdk target_sdk s = (Ok root, s') ->
  exists_ (st_world s') (gradlew_path h root) = false
  /\ exists r s2 evs,
       run_gradle_build h root offline s' = (r, s2)
       /\ st_log s2
          = st_log s' ++ Printed MsgNoWrapper :: Spawned gradle_wrapper_cmd root :: evs.
Proof.
  intros Hwf Hnd Hrel H.
  pose proof H as H0. apply create_project_ok in H0 as (-> & Hex & _).
  set (root0 := joinpath output_dir project_name) in *.
  set (x := if platform_win h then lit "gradlew.bat" else lit "gradlew").
  assert (x = lit "gradlew" \/ x = lit "gradlew.bat") as Hx
    by (unfold x; destruct (platform_win h); [by right|by left]).
  set (w0 := st_world s) in *.
  destruct (create_project_invariant
              (fun y => fs (st_world y) !! (lexical w0 root0 ++ [x]) = None)
              source_file output_dir project_name app_name application_id
              compile_sdk min_sdk target_sdk s root0 s' Hwf Hnd Hrel)
    as [Habsent (Hc & _)]; [| |done| |].
  - intros rel sa sb Hin Hca Ht. apply (touches_keeps_absent w0 root0 rel x sa sb Hca Ht).
    destruct Hin as [<-|Hin]; [|by apply first_names_heads].
    unfold stub_names. cbn. destruct Hx as [-> | ->]; discriminate.
  - intros sa sb Hca Hm. apply (creates_dirs_keeps_absent w0 root0 _ x sa sb Hca Hm).
    unfold stub_names. rewrite !app_assoc, removelast_last. cbn.
    destruct Hx as [-> | ->]; discriminate.
  - apply (fresh_root w0 root0 Hwf Hnd Hex). by eexists.
  - assert (gradlew_path h root0 = under root0 [x]) as Epath.
    { unfold gradlew_path. fold x. rewrite <- (under_nil root0) at 1.
      rewrite joinpath_under by (destruct Hx as [-> | ->]; reflexivity).
      by destruct Hx as [-> | ->]. }
    assert (exists_ (st_world s') (gradlew_path h root0) = false) as Hno.
    { rewrite Epath. unfold exists_.
      destruct (stat (st_world s') (under root0 [x])) as [e|[l n]] eqn:Hs; [done|].
      exfalso. apply stat_lexical in Hs as [-> Hn].
      2:{ apply under_no_dotdot; [done|]. constructor; [|constructor].
          by destruct Hx as [-> | ->]. }
      assert (lexical (st_world s') (under root0 [x]) = lexical w0 root0 ++ [x]) as El.
      { unfold lexical, base, under. cbn [absolute parts]. by rewrite Hc, app_assoc. }
      rewrite El, node_at_snoc, Habsent in Hn. done. }
    split; [done|].
    rewrite run_gradle_build_start, Hno. cbn [negb].
    destruct (spawn h gradle_wrapper_cmd root0 (st_world s')) as [o1 w1] eqn:Hs1.
    pose proof (subprocess_run_check_inv h gradle_wrapper_cmd root0
                  (mkState (st_world s') (st_log s' ++ [Printed MsgNoWrapper]))
                  o1 w1 Hs1) as Hboot.
    cbn [st_log] in Hboot. rewrite <- app_assoc in Hboot.
    assert ((print MsgNoWrapper ;; subprocess_run_check h gradle_wrapper_cmd root0) s'
            = subprocess_run_check h gradle_wrapper_cmd root0
                (mkState (st_world s') (st_log s' ++ [Printed MsgNoWrapper]))) as Hp
      by reflexivity.
    destruct (match o1 with
              | CannotStart e => Raise e
              | Exited rc => if (rc =? 0)%Z then Ok tt else Raise (CalledProcessError rc)
              end) as [[]|e] eqn:Ho.
    + rewrite (bind_ok_eq _ _ s' tt _ (eq_trans Hp Hboot)).
      rewrite (bind_ok_eq (print _) _ _ tt _ eq_refl). cbn [st_world st_log].
      destruct (spawn h (assemble_cmd (gradlew_path h root0) offline) root0 w1)
        as [o2 w2] eqn:Hs2.
      rewrite (subprocess_run_check_inv h _ root0 (mkState w1 _) o2 w2 Hs2).
      eexists _, _, _. split; [reflexivity|]. cbn [st_log].
      rewrite <- !app_assoc. reflexivity.
    + rewrite (bind_raise_eq _ _ s' e _ (eq_trans Hp Hboot)).
      exists (Raise e), (mkState w1 (st_log s' ++ [Printed MsgNoWrapper]
                                       ++ [Spawned gradle_wrapper_cmd root0])), [].
      done.
Qed.

Lemma fresh_project_has_no_wrapper_witness :
  fst copied_create = Ok (mkPath false [lit "dist"; lit "Foo"])
  /\ exists_ (st_world (snd copied_create))
       (gradlew_path bare_host (mkPath false [lit "dist"; lit "Foo"])) = false.
Proof.
  assert (wf_fs (fs (st_world demo_state3))) as Hwf.
  { change (map_Forall (fun l _ => node_at (fs (st_world demo_state3)) (removelast l)
                                   = Some Dir)
              (<[ [lit "in"; lit "Main.kt"] := File [1; 2; 3] ]>
                 ({[ [lit "in"] := Dir ]} : gmap (list (list N)) node))).
    apply map_Forall_insert_2; [reflexivity|].
    apply map_Forall_singleton. reflexivity. }
  assert (no_dotdot (parts (joinpath demo_out (lit "Foo")))) as Hnd
    by (repeat constructor).
  assert (absolute (Path_of (split_on 46 (lit "com.x.y"))) = false) as Hrel
    by reflexivity.
  assert (fst copied_create = Ok (mkPath false [lit "dist"; lit "Foo"])) as Hrun
    by (vm_compute; reflexivity).
  split; [exact Hrun|].
  refine (proj1 (fresh_project_has_no_wrapper bare_host (Some demo_source) demo_out
                   (lit "Foo") (lit "Foo App") (lit "com.x.y") 34%Z 24%Z 34%Z demo_state3
                   (mkPath false [lit "dist"; lit "Foo"]) (snd copied_create) true
                   Hwf Hnd Hrel _)).
  rewrite <- Hrun. apply surjective_pairing.
Defined.

(** ** The generated tree *)

Lemma lexical_inj w p q :
  absolute p = absolute q -> lexical w p = lexical w q -> p = q.
Proof.
  unfold lexical, base. intros Ha. rewrite Ha. intros H%app_inv_head.
  destruct p, q. simpl in *. congruence.
Qed.

(** A file that a step leaves alone, in a state that extends the one
    before, is read as before. *)
Lemma holds_text_kept f s s' :
  no_dotdot (parts (fst f)) -> extends s s' ->
  (forall n, fs (st_world s) !! lexical (st_world s) (fst f) = Some n ->
             fs (st_world s') !! lexical (st_world s) (fst f) = Some n) ->
  holds_text s f -> holds_text s' f.
Proof.
  intros Hnd He Hk (b & Hb & Hf). exists b. split; [done|].
  apply file_bytes_stat in Hf as [l Hs].
  pose proof (stat_lexical _ _ _ _ Hnd Hs) as [-> Hn].
  destruct (stat_extends _ _ _ _ _ He Hs) as (n' & Hs' & _).
  pose proof (stat_node _ _ _ _ Hs') as Hn'.
  assert (lexical (st_world s) (fst f) <> []) as Hne.
  { intros E. rewrite E in Hn. done. }
  rewrite node_at_nonempty in Hn, Hn' by done.
  rewrite (Hk _ Hn) in Hn'. injection Hn' as <-.
  unfold file_bytes. by rewrite Hs'.
Qed.

Lemma touches_keeps_text f p s s' :
  no_dotdot (parts (fst f)) -> extends s s' ->
  absolute (fst f) = absolute p -> fst f <> p ->
  touches (absolute p) (parts p) s s' ->
  holds_text s f -> holds_text s' f.
Proof.
  intros Hnd He Ha Hne [_ Ht]. apply holds_text_kept; [done|done|]. intros n Hn.
  destruct (Ht (lexical (st_world s) (fst f))) as [E|[(N & _)|(El & _)]].
  - by rewrite E.
  - by rewrite Hn in N.
  - exfalso. apply Hne. by apply (lexical_inj (st_world s)).
Qed.

Lemma creates_dirs_keeps_text f anchor comps s s' :
  no_dotdot (parts (fst f)) -> extends s s' ->
  creates_dirs anchor comps s s' ->
  holds_text s f -> holds_text s' f.
Proof.
  intros Hnd He [_ Hc]. apply holds_text_kept; [done|done|]. intros n Hn.
  destruct (Hc (lexical (st_world s) (fst f))) as [E|(N & _)]; [by rewrite E|].
  by rewrite Hn in N.
Qed.

Lemma write_text_keeps_text f path content s s' :
  no_dotdot (parts (fst f)) -> no_dotdot (parts path) ->
  absolute (fst f) = absolute path -> fst f <> path ->
  write_text path content s = (Ok tt, s') ->
  holds_text s f -> holds_text s' f.
Proof.
  intros Hf Hp Ha Hne H. pose proof (write_text_ok _ _ _ _ H) as (He & _).
  apply write_text_touches in H; [|done].
  by apply (touches_keeps_text f path).
Qed.

(** The files of a list of writes to different paths hold their contents
    behind the last write. *)
Lemma write_all_holds {A} anchor (k : M A) files : forall (I : state -> Prop) s a s',
  Forall (fun f => no_dotdot (parts (fst f)) /\ absolute (fst f) = anchor) files ->
  List.NoDup (List.map fst files) ->
  (forall f, In f files -> forall sa sb,
      write_text (fst f) (snd f) sa = (Ok tt, sb) -> I sa -> I sb) ->
  write_all files k s = (Ok a, s') -> I s ->
  exists s1, k s1 = (Ok a, s') /\ I s1 /\ forall f, In f files -> holds_text s1 f.
Proof.
  induction files as [|f files IH]; intros I s a s' Hall Hnd Hstep H HI.
  - exists s. split; [done|]. split; [done|]. by intros f [].
  - apply Forall_cons in Hall as [[Hf Ha] Hall].
    inversion Hnd as [|x l Hnin Hnd' [Ex El]]; clear Ex El x l.
    cbn [write_all fold_right] in H. apply bind_ok in H as ([] & s0 & Hw0 & H).
    destruct (IH (fun x => I x /\ holds_text x f) s0 a s' Hall Hnd')
      as (s1 & Hk & [HI1 Hf1] & Hrest).
    + intros f' Hin sa sb Hw [HIa Hfa]. split.
      * by apply (Hstep f' (or_intror Hin) sa sb).
      * destruct (proj1 (List.Forall_forall _ _) Hall f' Hin) as [Hf' Ha'].
        apply (write_text_keeps_text f (fst f') (snd f') sa sb Hf Hf');
          [by rewrite Ha'| |exact Hw|exact Hfa].
        intros E. apply Hnin. rewrite E. by apply in_map.
    + exact H.
    + split; [by apply (Hstep f (or_introl eq_refl) s s0)|].
      apply write_text_ok in Hw0 as (_ & _ & _ & Hb). exact Hb.
    + exists s1. split; [done|]. split; [done|].
      intros f' [<-|Hin]; [done|by apply Hrest].
Qed.

Lemma first_names_NoDup : List.NoDup first_names.
Proof.
  unfold first_names.
  repeat (constructor;
          [intros Hin; repeat (destruct Hin as [Hin|Hin]; [discriminate|]); done|]).
  constructor.
Qed.

Lemma under_inj root rel rel' : under root rel = under root rel' -> rel = rel'.
Proof. unfold under. intros [= H]. by apply app_inv_head in H. Qed.

Lemma NoDup_under root rels :
  List.NoDup rels -> List.NoDup (List.map (under root) rels).
Proof.
  induction 1 as [|rel rels Hnin _ IH]; cbn [List.map]; constructor; [|done].
  intros (r & E & Hin)%in_map_iff. apply under_inj in E. by subst.
Qed.

Lemma stub_names_not_first id : ~ In (stub_names id) first_names.
Proof.
  unfold first_names, stub_names. intros Hin.
  repeat (destruct Hin as [Hin|Hin]; [cbn in Hin; discriminate|]). done.
Qed.

(** What a successful [create_project] leaves below a fresh root: the seven
    generated files with their rendered texts, and the stub, generated or
    copied. *)
Lemma create_project_files source_file output_dir project_name
    app_name application_id compile_sdk min_sdk target_sdk s root s' :
  wf_fs (fs (st_world s)) ->
  no_dotdot (parts (joinpath output_dir project_name)) ->
  absolute (Path_of (split_on 46 application_id)) = false ->
  create_project source_file output_dir project_name app_name application_id
    compile_sdk min_sdk target_sdk s = (Ok root, s') ->
  (forall f, In f (first_writes root project_name app_name application_id
                     compile_sdk min_sdk target_sdk) -> holds_text s' f)
  /\ match source_file with
     | None => holds_text s' (main_activity_path root application_id,
                              render_main_activity application_id)
     | Some _ => exists b,
         file_bytes (st_world s') (main_activity_path root application_id) = Some b
     end.
Proof.
  intros Hwf Hnd Hrel H.
  pose proof H as H0. apply create_project_ok in H0 as (-> & _).
  rewrite create_project_unfold in H. cbv zeta in H.
  apply bind_ok in H as (found & s0 & [= <- <-] & H).
  set (root0 := joinpath output_dir project_name) in *.
  destruct (exists_ (st_world s) root0) eqn:Hex; [done|].
  set (w0 := st_world s) in *.
  set (files := first_writes root0 project_name app_name application_id
                  compile_sdk min_sdk target_sdk) in *.
  set (I := fun x => extends (mkState w0 []) x /\ project_inv w0 (lexical w0 root0) x).
  assert (forall f, In f files ->
            exists rel, In rel first_names /\ fst f = under root0 rel) as Hfiles.
  { intros f Hf.
    assert (In (fst f) (List.map (under root0) first_names)) as Hin.
    { rewrite <- (first_writes_paths root0 project_name app_name application_id
                    compile_sdk min_sdk target_sdk).
      by apply in_map. }
    apply in_map_iff in Hin as (rel & Erel & Hrelin). by exists rel. }
  assert (forall f, In f files ->
            no_dotdot (parts (fst f)) /\ absolute (fst f) = absolute root0) as Hplain.
  { intros f Hf. destruct (Hfiles f Hf) as (rel & Hin & ->).
    split; [|done]. apply under_no_dotdot; [done|].
    exact (proj1 (proj1 (List.Forall_forall _ _) first_names_plain rel Hin)). }
  assert (I s) as HI.
  { split; [split; [done|apply fs_extends_refl]|].
    destruct s as [w log]. by apply project_inv_start. }
  destruct (write_all_holds (absolute root0)
              (write_stub source_file (main_activity_path root0 application_id)
                 application_id ;; ret root0)
              files I s root0 s') as (s1 & Hk & HI1 & Hheld).
  - apply List.Forall_forall. exact Hplain.
  - unfold files. rewrite first_writes_paths. apply NoDup_under, first_names_NoDup.
  - intros f Hf sa sb Hwr HIa. destruct (Hfiles f Hf) as (rel & Hin & E).
    rewrite E in Hwr.
    destruct (proj1 (List.Forall_forall _ _) first_names_plain rel Hin) as [Hr Hs].
    by apply (write_text_under_inv w0 root0 rel (snd f) sa sb).
  - exact H.
  - exact HI.
  - clear H. rename Hk into H.
    apply bind_ok in H as ([] & s2 & H & [= <-]).
    rewrite (main_activity_path_under root0 application_id Hrel) in *.
    assert (no_dotdot (parts (under root0 (stub_names application_id)))) as Hstub
      by (apply under_no_dotdot; [done|apply stub_names_no_dotdot]).
    assert (forall f, In f files -> fst f <> under root0 (stub_names application_id))
      as Hdiff.
    { intros f Hf E. destruct (Hfiles f Hf) as (rel & Hin & E').
      rewrite E' in E. apply under_inj in E. subst rel.
      by apply (stub_names_not_first application_id). }
    unfold write_stub in H. destruct source_file as [source|].
    + apply bind_ok in H as ([] & s3 & Hmk & Hcp).
      destruct HI1 as [He1 Hinv1].
      assert (stub_names application_id <> []) as Hne by (unfold stub_names; done).
      rewrite parent_under in Hmk by done.
      pose proof (Path_mkdir_quiet _ _ _ _ _ _ Hmk) as [Eq _].
      apply Path_mkdir_creates in Hmk.
      2:{ apply under_no_dotdot; [done|].
          pose proof (stub_names_no_dotdot application_id) as Hs.
          rewrite (app_removelast_last [] Hne) in Hs.
          by apply no_dotdot_app in Hs as [? _]. }
      pose proof (creates_dirs_project_inv w0 root0 _ s1 s3 Hmk
                    (stub_dirs_not_stub application_id) Hinv1) as Hinv3.
      pose proof (stub_is_no_directory w0 root0 application_id s3 Hnd Hinv3) as Hnodir.
      pose proof (copy2_ok _ _ _ _ Hcp) as (Ecp & data & _ & _ & Hdata).
      rewrite Hnodir in Hdata.
      apply copy2_touches in Hcp; [|done|done].
      split; [|by exists data].
      intros f Hf. destruct (Hplain f Hf) as [Hfnd Hfa].
      apply (touches_keeps_text f (under root0 (stub_names application_id)) s3 s2);
        [done|done|done|by apply Hdiff|done|].
      apply (creates_dirs_keeps_text f _ _ s1 s3 Hfnd Eq Hmk). by apply Hheld.
    + split.
      * intros f Hf. destruct (Hplain f Hf) as [Hfnd Hfa].
        apply (write_text_keeps_text f _ _ s1 s2 Hfnd Hstub Hfa (Hdiff f Hf) H).
        by apply Hheld.
      * apply write_text_ok in H as (_ & _ & _ & Hb). exact Hb.
Qed.


(** X15: in a well-formed file system, with a root path without [..] and
    an application id whose segments do not start with a slash, a
    successful [create_project] leaves every one of the seven generated
    files with the UTF-8 encoding of its rendered text, none overwritten
    by a later step, and, when no source file was given, the stub with the
    rendered activity. *)
Theorem generated_files_hold_their_contents source_file output_dir project_name
    app_name application_id compile_sdk min_sdk target_sdk s root s' :
  wf_fs (fs (st_world s)) ->
  no_dotdot (parts (joinpath output_dir project_name)) ->
  absolute (Path_of (split_on 46 application_id)) = false ->
  create_project source_file output_dir project_name app_name application_id
    compile_sdk min_sdk target_sdk s = (Ok root, s') ->
  (forall f, In f (first_writes root project_name app_name application_id
                     compile_sdk min_sdk target_sdk) -> holds_text s' f)
  /\ (source_file = None ->
      holds_text s' (main_activity_path root application_id,
                     render_main_activity application_id)).
Proof.
  intros Hwf Hnd Hrel H.
  destruct (create_project_files _ _ _ _ _ _ _ _ _ _ _ Hwf Hnd Hrel H)
    as [Hfiles Hstub].
  split; [exact Hfiles|]. intros ->. exact Hstub.
Qed.

Lemma generated_files_hold_their_contents_witness :
  fst (demo_create "com.x.y") = Ok (mkPath false [lit "dist"; lit "Foo"])
  /\ holds_text (snd (demo_create "com.x.y"))
       (main_activity_path (mkPath false [lit "dist"; lit "Foo"]) (lit "com.x.y"),
        render_main_activity (lit "com.x.y")).
Proof.
  assert (wf_fs (fs (st_world demo_state))) as Hwf by (intros l n Hl; done).
  assert (no_dotdot (parts (joinpath demo_out (lit "Foo")))) as Hnd
    by (repeat constructor).
  assert (absolute (Path_of (split_on 46 (lit "com.x.y"))) = false) as Hrel
    by reflexivity.
  assert (fst (demo_create "com.x.y") = Ok (mkPath false [lit "dist"; lit "Foo"])) as Hrun
    by (vm_compute; reflexivity).
  split; [exact Hrun|].
  refine (proj2 (generated_files_hold_their_contents None demo_out (lit "Foo")
                   (lit "Foo App") (lit "com.x.y") 34%Z 24%Z 34%Z demo_state
                   (mkPath false [lit "dist"; lit "Foo"]) (snd (demo_create "com.x.y"))
                   Hwf Hnd Hrel _) eq_refl).
  rewrite <- Hrun. apply surjective_pairing.
Defined.

(** ** The exit status 0 after a build *)

Lemma subprocess_run_check_ok h cmd dir s s' :
  subprocess_run_check h cmd dir s = (Ok tt, s') ->
  spawn h cmd dir (st_world s) = (Exited 0, st_world s')
  /\ st_log s' = st_log s ++ [Spawned cmd dir].
Proof.
  destruct (spawn h cmd dir (st_world s)) as [o w] eqn:Hs.
  rewrite (subprocess_run_check_inv h cmd dir s o w Hs).
  destruct o as [e|rc]; [done|]. destruct (rc =? 0)%Z eqn:Hrc; [|done].
  apply Z.eqb_eq in Hrc as ->. by intros [= <-].
Qed.

Lemma run_gradle_build_ok h root offline s s' :
  run_gradle_build h root offline s = (Ok tt, s') ->
  exists w log,
    spawn h (assemble_cmd (gradlew_path h root) offline) root w = (Exited 0, st_world s')
    /\ st_log s' = log ++ [Spawned (assemble_cmd (gradlew_path h root) offline) root].
Proof.
  rewrite run_gradle_build_start. intros H.
  apply bind_ok in H as ([] & s1 & _ & H).
  apply bind_ok in H as ([] & s2 & [= <-] & H).
  apply subprocess_run_check_ok in H as [Hs Hl]. cbn [st_world st_log] in *.
  by eexists _, _.
Qed.

Lemma main_create_raises h args s e s1 :
  match arg_source args with
  | Some p => exists_ (st_world s) p = true
  | None => True
  end ->
  create_project (arg_source args) (arg_out args)
    (safe_name (arg_project args) default_project) (arg_app_name args)
    (arg_application_id args) (arg_compile_sdk args) (arg_min_sdk args)
    (arg_target_sdk args) s = (Raise e, s1) ->
  fst (main h args s) <> Ok 0%Z.
Proof.
  intros Hsrc Hcreate. unfold main. rewrite (source_check_passes args s _ Hsrc).
  unfold bind at 1. unfold try_except at 1.
  rewrite (bind_raise_eq _ _ _ _ _ Hcreate). by destruct e.
Qed.

(** X16: with [--build], [main] returns 0 only when the project root did
    not exist, the wrapper in the project root was run with [assembleDebug]
    in that root and exited with 0, and the line of the finished build is
    the last one printed; the file system is the one that this process
    left.  A failed or missing build tool never gives the status 0. *)
Theorem main_returns_0_only_after_a_successful_build h args s s' :
  arg_build args = true ->
  main h args s = (Ok 0%Z, s') ->
  let root := joinpath (arg_out args) (safe_name (arg_project args) default_project) in
  let cmd := assemble_cmd (gradlew_path h root) (arg_offline args) in
  exists_ (st_world s) root = false
  /\ (exists w, spawn h cmd root w = (Exited 0, st_world s'))
  /\ exists log, st_log s' = log ++ [Spawned cmd root; Printed MsgBuildDone].
Proof.
  intros Hbuild H root cmd.
  assert (match arg_source args with
          | Some p => exists_ (st_world s) p = true
          | None => True
          end) as Hsrc.
  { destruct (arg_source args) as [p|] eqn:Es; [|done].
    destruct (exists_ (st_world s) p) eqn:Hp; [done|]. exfalso.
    assert (main h args s
            = (Ok 2%Z, mkState (st_world s) (st_log s ++ [Printed (MsgSourceMissing p)])))
      as E by (unfold main; rewrite Es; unfold bind, query; by rewrite Hp).
    rewrite E in H. discriminate. }
  destruct (create_project (arg_source args) (arg_out args)
              (safe_name (arg_project args) default_project) (arg_app_name args)
              (arg_application_id args) (arg_compile_sdk args) (arg_min_sdk args)
              (arg_target_sdk args) s) as [[root'|e] s1] eqn:Hc.
  2:{ exfalso. apply (main_create_raises h args s e s1 Hsrc Hc). by rewrite H. }
  rewrite (main_after_create h args s root' s1 Hsrc Hc Hbuild) in H.
  apply create_project_ok in Hc as (-> & Hex & _). fold root in H, Hex.
  split; [done|].
  apply try_except_inv in H
    as [(a & H & _)|[(e & s2 & k & _ & He & H)|(e & _ & _ & ?)]]; [| |done].
  - apply bind_ok in H as ([] & s2 & Hrun & H). injection H as H. subst s'.
    apply run_gradle_build_ok in Hrun as (w & log & Hs & Hl). fold cmd in Hs, Hl.
    cbn [st_world st_log]. split; [by exists w|]. exists log.
    by rewrite Hl, <- app_assoc.
  - exfalso. destruct e as [| | | | | | |rc]; try discriminate He; injection He as <-.
    all: idtac.
    + discriminate H.
    + injection H as H _. destruct (rc =? 0)%Z eqn:Hrc; [done|].
      by apply Z.eqb_neq in Hrc.
Qed.

Lemma main_returns_0_only_after_a_successful_build_witness :
  fst (main quiet_host (demo_args None "com.x.y" true) demo_state) = Ok 0%Z
  /\ exists_ (st_world demo_state)
       (joinpath demo_out (safe_name (lit "Foo") default_project)) = false.
Proof.
  assert (fst (main quiet_host (demo_args None "com.x.y" true) demo_state) = Ok 0%Z)
    as Hrun by (vm_compute; reflexivity).
  split; [exact Hrun|].
  refine (proj1 (main_returns_0_only_after_a_successful_build quiet_host
                   (demo_args None "com.x.y" true) demo_state
                   (snd (main quiet_host (demo_args None "com.x.y" true) demo_state))
                   eq_refl _)).
  rewrite <- Hrun. apply surjective_pairing.
Defined.

(** ** An output directory that is a regular file *)

Lemma walk_app (m : gmap (list (list N)) node) a : forall cur b,
  walk m cur (a ++ b)
  = match walk m cur a with
    | inl e => inl e
    | inr d => walk m d b
    end.
Proof.
  induction a as [|c a IH]; intros cur b; [done|]. cbn [walk app].
  destruct (is_dotdot c); [apply IH|].
  destruct (node_at m (cur ++ [c])) as [[data|]|]; first [done|apply IH].
Qed.

(** In a well-formed file system a walk that starts in a directory ends in
    a directory, also behind [..]. *)
Lemma walk_ends_in_dir (m : gmap (list (list N)) node) comps : forall cur d,
  wf_fs m -> node_at m cur = Some Dir -> walk m cur comps = inr d ->
  node_at m d = Some Dir.
Proof.
  induction comps as [|c comps IH]; intros cur d Hwf Hcur Hw.
  - by injection Hw as <-.
  - cbn [walk] in Hw. destruct (is_dotdot c).
    + apply (IH (removelast cur) d Hwf); [|done].
      destruct cur as [|x cur]; [done|].
      rewrite node_at_nonempty in Hcur by done. exact (Hwf _ _ Hcur).
    + destruct (node_at m (cur ++ [c])) as [[data|]|] eqn:Hn; try done.
      by apply (IH (cur ++ [c]) d Hwf).
Qed.

Lemma removelast_is_dir (m : gmap (list (list N)) node) d :
  wf_fs m -> node_at m d = Some Dir -> node_at m (removelast d) = Some Dir.
Proof.
  intros Hwf Hd. destruct d as [|x d]; [done|].
  rewrite node_at_nonempty in Hd by done. exact (Hwf _ _ Hd).
Qed.

(** No path leads through a regular file. *)
Lemma below_a_file w p b name :
  wf_fs (fs w) -> node_at (fs w) (cwd w) = Some Dir -> file_bytes w p = Some b ->
  lookup_parent w (under p [name]) = inl ENOTDIR.
Proof.
  intros Hwf Hcwd Hb. apply file_bytes_stat in Hb as [l Hs].
  assert (node_at (fs w) (base w p) = Some Dir) as Hbase
    by (unfold base; by destruct (absolute p)).
  unfold stat, locate, lookup_parent in Hs. unfold lookup_parent.
  cbn [under parts absolute]. rewrite split_last_snoc.
  assert (base w (under p [name]) = base w p) as -> by reflexivity.
  destruct (split_last (parts p)) as [[dirs nm]|] eqn:Hsp.
  - destruct (walk (fs w) (base w p) dirs) as [e|d] eqn:Hw; [done|].
    pose proof (walk_ends_in_dir _ _ _ _ Hwf Hbase Hw) as Hd.
    apply split_last_inv in Hsp. rewrite Hsp, walk_app, Hw. cbn [walk].
    destruct (is_dotdot nm).
    + exfalso. rewrite (removelast_is_dir _ _ Hwf Hd) in Hs. discriminate.
    + destruct (node_at (fs w) (d ++ [nm])) as [n|] eqn:Hn; [|done].
      by injection Hs as _ ->.
  - exfalso. rewrite Hbase in Hs. discriminate.
Qed.

Lemma Path_eta p : mkPath (absolute p) (parts p) = p.
Proof. by destruct p. Qed.

(** [mkdir(parents=True, exist_ok=True)] below a regular file. *)
Lemma Path_mkdir_below_a_file p s :
  lookup_parent (st_world s) p = inl ENOTDIR ->
  Path_mkdir p true true s = (Raise NotADirectoryError, s).
Proof.
  intros Hlp. unfold Path_mkdir.
  assert (mkdir_call (mkPath (absolute p) (rev (rev (parts p)))) s
          = (Raise NotADirectoryError, s)) as Hcall.
  { unfold mkdir_call, syscall, os_mkdir. by rewrite rev_involutive, Path_eta, Hlp. }
  assert (is_dir (st_world s) (mkPath (absolute p) (rev (rev (parts p)))) = false) as Hd.
  { unfold is_dir, stat, locate. by rewrite rev_involutive, Path_eta, Hlp. }
  destruct (rev (parts p)) as [|c r]; cbn [Path_mkdir_parents];
    unfold try_except; rewrite Hcall; unfold bind, query; by rewrite Hd.
Qed.

(** X17: in a well-formed file system whose working directory is a
    directory, when [--out] names a regular file, by whatever path, [main]
    ends with [NotADirectoryError], which it does not handle: there is no
    exit status of its own, nothing has been printed and nothing written. *)
Theorem main_raises_when_the_output_directory_is_a_file h args s b :
  match arg_source args with
  | Some p => exists_ (st_world s) p = true
  | None => True
  end ->
  wf_fs (fs (st_world s)) ->
  node_at (fs (st_world s)) (cwd (st_world s)) = Some Dir ->
  file_bytes (st_world s) (arg_out args) = Some b ->
  main h args s = (Raise NotADirectoryError, s).
Proof.
  intros Hsrc Hwf Hcwd Hb.
  set (name := safe_name (arg_project args) default_project).
  destruct (safe_name_default (arg_project args)) as [Hnn Hsafe]. fold name in Hnn, Hsafe.
  destruct (all_safe_plain name Hsafe) as [Hslash Hdot].
  assert (name <> [46]) as Hd by (intros E; apply Hdot; rewrite E; by left).
  destruct (plain_name_parts name Hnn Hslash Hd) as [Hp Ha].
  assert (joinpath (arg_out args) name = under (arg_out args) [name]) as Eroot
    by (unfold joinpath, under; by rewrite Ha, Hp).
  pose proof (below_a_file (st_world s) (arg_out args) b name Hwf Hcwd Hb) as Hlp.
  rewrite <- Eroot in Hlp.
  set (root := joinpath (arg_out args) name) in *.
  assert (exists_ (st_world s) root = false) as Hex
    by (unfold exists_, stat, locate; by rewrite Hlp).
  assert (create_project (arg_source args) (arg_out args) name (arg_app_name args)
            (arg_application_id args) (arg_compile_sdk args) (arg_min_sdk args)
            (arg_target_sdk args) s = (Raise NotADirectoryError, s)) as Hcreate.
  { rewrite create_project_unfold. cbv zeta. fold root.
    unfold bind at 1, query. rewrite Hex.
    unfold first_writes. cbn [write_all fold_right fst snd].
    apply bind_raise_eq. unfold write_text.
    rewrite parent_joinpath_name by reflexivity.
    apply bind_raise_eq. by apply Path_mkdir_below_a_file. }
  unfold main. rewrite (source_check_passes args s _ Hsrc).
  unfold bind at 1. unfold try_except at 1. fold name.
  by rewrite (bind_raise_eq _ _ _ _ _ Hcreate).
Qed.

Lemma main_raises_when_the_output_directory_is_a_file_witness :
  file_bytes (st_world wrapped_state) (Path_of [lit "proj/../proj/gradlew"]) = Some []
  /\ main bare_host
       (mkArgs None (Path_of [lit "proj/../proj/gradlew"]) (lit "Foo") (lit "Foo App")
          (lit "com.x.y") 34 24 34 false false) wrapped_state
     = (Raise NotADirectoryError, wrapped_state).
Proof.
  split; [vm_compute; reflexivity|].
  apply (main_raises_when_the_output_directory_is_a_file bare_host
           (mkArgs None (Path_of [lit "proj/../proj/gradlew"]) (lit "Foo") (lit "Foo App")
              (lit "com.x.y") 34 24 34 false false) wrapped_state []).
  - exact I.
  - change (map_Forall (fun l _ => node_at (fs (st_world wrapped_state)) (removelast l)
                                   = Some Dir)
              (<[ [lit "home"; lit "proj"; lit "gradlew"] := File [] ]>
                 (<[ [lit "home"; lit "proj"] := Dir ]>
                    ({[ [lit "home"] := Dir ]} : gmap (list (list N)) node)))).
    apply map_Forall_insert_2; [reflexivity|].
    apply map_Forall_insert_2; [reflexivity|].
    apply map_Forall_singleton. reflexivity.
  - reflexivity.
  - vm_compute; reflexivity.
Defined.

(** ** The tree below the project root *)

Lemma walk_dirs (m : gmap (list (list N)) node) comps : forall cur d,
  no_dotdot comps -> walk m cur comps = inr d ->
  forall k, (0 < k <= length comps)%nat -> m !! (cur ++ take k comps) = Some Dir.
Proof.
  induction comps as [|c comps IH]; intros cur d Hnd Hw k Hk; [simpl in Hk; lia|].
  apply Forall_cons in Hnd as [Hc Hnd]. cbn [walk] in Hw. rewrite Hc in Hw.
  destruct (node_at m (cur ++ [c])) as [[data|]|] eqn:Hn; try done.
  destruct k as [|k]; [lia|]. cbn [take].
  destruct k as [|k].
  - rewrite take_0. by rewrite node_at_snoc in Hn.
  - change (cur ++ c :: take (S k) comps) with (cur ++ [c] ++ take (S k) comps).
    rewrite app_assoc. apply (IH _ d Hnd Hw). simpl in Hk. lia.
Qed.

(** A file that can be read through a path without [..] is a node at the
    location of the path, below directories. *)
Lemma file_on_disk w p b :
  no_dotdot (parts p) -> file_bytes w p = Some b ->
  fs w !! lexical w p = Some (File b)
  /\ forall k, (0 < k < length (parts p))%nat ->
               fs w !! (base w p ++ take k (parts p)) = Some Dir.
Proof.
  intros Hnd Hb. apply file_bytes_stat in Hb as [l Hs].
  pose proof (stat_lexical _ _ _ _ Hnd Hs) as [-> Hn]. split.
  - destruct (lexical w p) as [|x l]; [done|]. by rewrite node_at_nonempty in Hn.
  - intros k Hk. unfold stat, locate, lookup_parent in Hs.
    destruct (split_last (parts p)) as [[dirs nm]|] eqn:Hsp.
    + apply split_last_inv in Hsp. rewrite Hsp in Hnd, Hk |- *.
      apply no_dotdot_app in Hnd as [Hd _]. rewrite length_app in Hk. simpl in Hk.
      destruct (walk (fs w) (base w p) dirs) as [e|d] eqn:Hw; [done|].
      rewrite take_app_le by lia. apply (walk_dirs _ _ _ d Hd Hw). lia.
    + destruct (parts p); [simpl in Hk; lia|done].
Qed.

(** The part of [rp ++ nm] up to a location below [rp]. *)
Lemma way_below (rp rel nm : list (list N)) k :
  rp ++ rel = take k (rp ++ nm) -> (0 < k < length (rp ++ nm))%nat ->
  rp ++ rel <> [] /\ rel `prefix_of` nm /\ rel <> nm.
Proof.
  intros E Hk.
  assert (length (rp ++ rel) = k) as Hlen by (rewrite E, length_take; lia).
  split; [|split].
  - intros E0. rewrite E0 in Hlen. simpl in Hlen. lia.
  - exists (drop k (rp ++ nm)).
    apply (app_inv_head rp). rewrite app_assoc, E. by rewrite take_drop.
  - intros ->. rewrite Hlen in Hk. lia.
Qed.

Lemma prefix_is_taken (rp rel nm : list (list N)) :
  rel `prefix_of` nm -> rp ++ rel = take (length (rp ++ rel)) (rp ++ nm).
Proof.
  intros [t ->]. rewrite app_assoc. by rewrite take_app_length.
Qed.

(** Below a fresh root a successful [create_project] leaves nothing but
    its files and the directories on the way to them. *)
Lemma create_project_nodes source_file output_dir project_name
    app_name application_id compile_sdk min_sdk target_sdk s root s' :
  wf_fs (fs (st_world s)) ->
  no_dotdot (parts (joinpath output_dir project_name)) ->
  absolute (Path_of (split_on 46 application_id)) = false ->
  create_project source_file output_dir project_name app_name application_id
    compile_sdk min_sdk target_sdk s = (Ok root, s') ->
  cwd (st_world s') = cwd (st_world s)
  /\ forall rel,
       fs (st_world s') !! (lexical (st_world s) root ++ rel) = None
       \/ (fs (st_world s') !! (lexical (st_world s) root ++ rel) = Some Dir
           /\ on_the_way root (stub_names application_id :: first_names) rel)
       \/ (exists b, fs (st_world s') !! (lexical (st_world s) root ++ rel) = Some (File b)
                     /\ In rel (stub_names application_id :: first_names)).
Proof.
  intros Hwf Hnd Hrel H.
  pose proof H as H0. apply create_project_ok in H0 as (-> & Hex & _).
  set (root0 := joinpath output_dir project_name) in *.
  set (w0 := st_world s) in *.
  set (names := stub_names application_id :: first_names).
  set (J := fun x : state => forall rel,
         fs (st_world x) !! (lexical w0 root0 ++ rel) = None
         \/ (fs (st_world x) !! (lexical w0 root0 ++ rel) = Some Dir
             /\ on_the_way root0 names rel)
         \/ (exists b, fs (st_world x) !! (lexical w0 root0 ++ rel) = Some (File b)
                       /\ In rel names)).
  assert (forall nm k rel sa,
            In nm names -> cwd (st_world sa) = cwd w0 ->
            (0 < k < length (parts root0 ++ nm))%nat ->
            lexical w0 root0 ++ rel
            = origin (absolute root0) sa ++ take k (parts root0 ++ nm) ->
            on_the_way root0 names rel) as Hway.
  { intros nm k rel sa Hin Hc Hk El.
    rewrite <- (project_inv_origin w0 root0 sa Hc), <- app_assoc in El.
    apply app_inv_head in El.
    destruct (way_below _ _ _ _ El Hk) as (Hne & Hpre & Hneq).
    split; [done|]. apply Exists_exists. exists nm.
    split; [by apply list_elem_of_In|done]. }
  destruct (create_project_invariant J source_file output_dir project_name app_name
              application_id compile_sdk min_sdk target_sdk s root0 s' Hwf Hnd Hrel)
    as [HJ (Hc & _)]; [| |done| |by split].
  - intros nm sa sb Hin Hc [_ Ht] HJa rel.
    destruct (Ht (lexical w0 root0 ++ rel)) as [E|[(_ & D & k & Hk & El)|(El & b & Hb)]].
    + rewrite E. apply HJa.
    + right. left. split; [done|]. by apply (Hway nm k rel sa).
    + right. right. exists b. split; [done|].
      rewrite <- (project_inv_origin w0 root0 sa Hc), <- app_assoc in El.
      apply app_inv_head, app_inv_head in El. by subst rel.
  - intros sa sb Hc [_ Ht] HJa rel.
    destruct (Ht (lexical w0 root0 ++ rel)) as [E|(_ & D & k & Hk & El)].
    + rewrite E. apply HJa.
    + right. left. split; [done|].
      assert (stub_names application_id <> []) as Hne by (unfold stub_names; done).
      pose proof (length_removelast_lt _ Hne) as Hlt.
      fold root0 in Hk, El. rewrite length_app in Hk.
      apply (Hway (stub_names application_id) k rel sa); [by left|done| |].
      * rewrite length_app. lia.
      * rewrite El. apply (f_equal (app (origin (absolute root0) sa))).
        rewrite (app_removelast_last [] Hne) at 2.
        rewrite app_assoc. symmetry. apply take_app_le. rewrite length_app. lia.
  - intros rel. left. apply (fresh_root w0 root0 Hwf Hnd Hex). by eexists.
Qed.

(** The files of a project and the directories on the way to them, in the
    file system that a successful [create_project] leaves. *)
Lemma project_file_on_disk w0 root names nm b (s' : state) :
  no_dotdot (parts root) -> no_dotdot nm ->
  cwd (st_world s') = cwd w0 -> In nm names ->
  file_bytes (st_world s') (under root nm) = Some b ->
  fs (st_world s') !! (lexical w0 root ++ nm) = Some (File b)
  /\ forall rel, on_the_way root names rel -> rel `prefix_of` nm -> rel <> nm ->
                 fs (st_world s') !! (lexical w0 root ++ rel) = Some Dir.
Proof.
  intros Hnd Hnm Hc Hin Hb.
  destruct (file_on_disk (st_world s') (under root nm) b) as [Hfile Hdirs];
    [by apply under_no_dotdot|done|].
  assert (forall rel, lexical (st_world s') (under root rel) = lexical w0 root ++ rel)
    as El.
  { intros rel. unfold lexical, base, under. cbn [absolute parts].
    by rewrite Hc, app_assoc. }
  split; [by rewrite <- El|].
  intros rel [Hne _] Hpre Hneq.
  specialize (Hdirs (length (parts root ++ rel))).
  cbn [under parts absolute] in Hdirs.
  rewrite <- (prefix_is_taken _ _ _ Hpre) in Hdirs.
  rewrite <- El. unfold lexical. cbn [under parts absolute].
  assert (base (st_world s') (under root nm) = base (st_world s') (under root rel))
    as <- by reflexivity.
  apply Hdirs. split.
  - destruct (parts root ++ rel); [done|simpl; lia].
  - rewrite !length_app. destruct Hpre as [t ->]. rewrite length_app.
    destruct t as [|x t]; [by rewrite app_nil_r in Hneq|simpl; lia].
Qed.

Lemma holds_text_pair s p content :
  holds_text s (p, content) ->
  exists b, utf8_encode content = Some b /\ file_bytes (st_world s) p = Some b.
Proof. intros H. exact H. Qed.

(** Every file of the project can be read after a successful
    [create_project]. *)
Lemma project_files_readable source_file output_dir project_name
    app_name application_id compile_sdk min_sdk target_sdk s root s' :
  wf_fs (fs (st_world s)) ->
  no_dotdot (parts (joinpath output_dir project_name)) ->
  absolute (Path_of (split_on 46 application_id)) = false ->
  create_project source_file output_dir project_name app_name application_id
    compile_sdk min_sdk target_sdk s = (Ok root, s') ->
  forall nm, In nm (stub_names application_id :: first_names) ->
    no_dotdot nm /\ exists b, file_bytes (st_world s') (under root nm) = Some b.
Proof.
  intros Hwf Hnd Hrel H nm Hin.
  destruct (create_project_files _ _ _ _ _ _ _ _ _ _ _ Hwf Hnd Hrel H) as [Hfiles Hstub].
  apply create_project_ok in H as (-> & _).
  destruct Hin as [<-|Hin].
  - split; [apply stub_names_no_dotdot|].
    rewrite (main_activity_path_under _ _ Hrel) in Hstub.
    destruct source_file; [exact Hstub|].
    apply holds_text_pair in Hstub as (b & _ & Hb). by exists b.
  - split; [exact (proj1 (proj1 (List.Forall_forall _ _) first_names_plain nm Hin))|].
    assert (In (under (joinpath output_dir project_name) nm)
              (List.map fst (first_writes (joinpath output_dir project_name) project_name
                               app_name application_id compile_sdk min_sdk target_sdk)))
      as Hf by (rewrite first_writes_paths; by apply in_map).
    apply in_map_iff in Hf as (f & Ef & Hf).
    destruct (Hfiles f Hf) as (b & _ & Hb). rewrite Ef in Hb. by exists b.
Qed.

(** The tree below the root after a successful [create_project], node by
    node: the generated files with their rendered texts, the stub, the
    directories on the way, and nothing else. *)
Lemma create_project_tree source_file output_dir project_name
    app_name application_id compile_sdk min_sdk target_sdk s root s' :
  wf_fs (fs (st_world s)) ->
  no_dotdot (parts (joinpath output_dir project_name)) ->
  absolute (Path_of (split_on 46 application_id)) = false ->
  create_project source_file output_dir project_name app_name application_id
    compile_sdk min_sdk target_sdk s = (Ok root, s') ->
  let at_ rel := fs (st_world s') !! (lexical (st_world s) root ++ rel) in
  let names := stub_names application_id :: first_names in
  (forall f, In f (first_writes root project_name app_name application_id
                     compile_sdk min_sdk target_sdk) ->
     forall rel, fst f = under root rel ->
       exists b, utf8_encode (snd f) = Some b /\ at_ rel = Some (File b))
  /\ (exists b, at_ (stub_names application_id) = Some (File b)
                /\ (source_file = None ->
                    utf8_encode (render_main_activity application_id) = Some b))
  /\ (forall rel, ~ In rel names -> on_the_way root names rel -> at_ rel = Some Dir)
  /\ (forall rel, ~ In rel names -> ~ on_the_way root names rel -> at_ rel = None).
Proof.
  intros Hwf Hnd Hrel H at_ names.
  destruct (create_project_files _ _ _ _ _ _ _ _ _ _ _ Hwf Hnd Hrel H) as [Hfiles Hstub].
  destruct (create_project_nodes _ _ _ _ _ _ _ _ _ _ _ Hwf Hnd Hrel H) as [Hc Hnodes].
  pose proof (project_files_readable _ _ _ _ _ _ _ _ _ _ _ Hwf Hnd Hrel H) as Hread.
  pose proof H as H0. apply create_project_ok in H0 as (Eroot & _).
  rewrite <- Eroot in Hnd.
  rewrite (main_activity_path_under _ _ Hrel) in Hstub.
  assert (forall nm b, In nm names -> no_dotdot nm ->
            file_bytes (st_world s') (under root nm) = Some b ->
            at_ nm = Some (File b)) as Hat.
  { intros nm b Hin Hnm Hb.
    exact (proj1 (project_file_on_disk (st_world s) root names nm b s' Hnd Hnm Hc Hin Hb)). }
  split; [|split; [|split]].
  - intros f Hf rel Ef. destruct (Hfiles f Hf) as (b & Hb & Hfb). exists b.
    split; [done|]. rewrite Ef in Hfb.
    assert (In rel first_names) as Hin.
    { assert (In (fst f) (List.map (under root) first_names)) as Hm
        by (rewrite <- (first_writes_paths root project_name app_name application_id
                          compile_sdk min_sdk target_sdk); by apply in_map).
      apply in_map_iff in Hm as (rel' & E' & Hin'). rewrite Ef in E'.
      apply under_inj in E'. by subst rel'. }
    apply (Hat rel b); [by right| |done].
    exact (proj1 (proj1 (List.Forall_forall _ _) first_names_plain rel Hin)).
  - destruct source_file as [p|].
    + destruct Hstub as [b Hb]. exists b. split; [|intros [=]].
      apply (Hat _ b); [by left|apply stub_names_no_dotdot|exact Hb].
    + apply holds_text_pair in Hstub as (b & Hb & Hfb).
      exists b. split; [|intros _; exact Hb].
      apply (Hat _ b); [by left|apply stub_names_no_dotdot|exact Hfb].
  - intros rel Hnin Hway. pose proof Hway as [_ Hex].
    apply Exists_exists in Hex as (nm & Hin%list_elem_of_In & Hpre & Hneq).
    destruct (Hread nm Hin) as (Hnm & b & Hb).
    exact (proj2 (project_file_on_disk (st_world s) root names nm b s' Hnd Hnm Hc Hin Hb)
             rel Hway Hpre Hneq).
  - intros rel Hnin Hnway.
    destruct (Hnodes rel) as [E|[(_ & Hway)|(b & _ & Hin)]];
      [exact E|exfalso; exact (Hnway Hway)|exfalso; exact (Hnin Hin)].
Qed.

(** C9, as the code has it: in well-formed file systems, with a root path
    without [..] and an application id whose segments do not start with a
    slash, two successful calls of [create_project] with the same
    arguments, from whatever states, return the same root, log the same
    outputs, and leave the same tree below the root: the same paths, with
    directories at the same places and the same content in every
    generated file; the copied stub is a regular file at the same place in
    both. *)
Theorem create_project_depends_on_its_arguments_only
    source_file output_dir project_name app_name application_id
    compile_sdk min_sdk target_sdk s1 s2 root1 root2 s1' s2' :
  wf_fs (fs (st_world s1)) -> wf_fs (fs (st_world s2)) ->
  no_dotdot (parts (joinpath output_dir project_name)) ->
  absolute (Path_of (split_on 46 application_id)) = false ->
  create_project source_file output_dir project_name app_name application_id
    compile_sdk min_sdk target_sdk s1 = (Ok root1, s1') ->
  create_project source_file output_dir project_name app_name application_id
    compile_sdk min_sdk target_sdk s2 = (Ok root2, s2') ->
  root1 = root2
  /\ (exists evs1 evs2,
        st_log s1' = st_log s1 ++ evs1 /\ st_log s2' = st_log s2 ++ evs2
        /\ outputs evs1 = outputs evs2)
  /\ forall rel,
       fs (st_world s1') !! (lexical (st_world s1) root1 ++ rel)
       = fs (st_world s2') !! (lexical (st_world s2) root2 ++ rel)
       \/ (source_file <> None /\ rel = stub_names application_id
           /\ exists b1 b2,
                fs (st_world s1') !! (lexical (st_world s1) root1 ++ rel) = Some (File b1)
                /\ fs (st_world s2') !! (lexical (st_world s2) root2 ++ rel)
                   = Some (File b2)).
Proof.
  intros Hwf1 Hwf2 Hnd Hrel H1 H2.
  destruct (create_project_tree _ _ _ _ _ _ _ _ _ _ _ Hwf1 Hnd Hrel H1)
    as (Hf1 & (c1 & Hc1 & Hg1) & Hd1 & Hn1).
  destruct (create_project_tree _ _ _ _ _ _ _ _ _ _ _ Hwf2 Hnd Hrel H2)
    as (Hf2 & (c2 & Hc2 & Hg2) & Hd2 & Hn2).
  apply create_project_outputs in H1 as (-> & evs1 & L1 & O1).
  apply create_project_outputs in H2 as (-> & evs2 & L2 & O2).
  set (root := joinpath output_dir project_name) in *.
  split; [done|]. split; [exists evs1, evs2; by rewrite O1, O2|].
  intros rel.
  destruct (decide (rel = stub_names application_id)) as [->|Hns].
  { destruct source_file as [p|].
    - right. split; [done|]. split; [done|]. by exists c1, c2.
    - left. rewrite Hc1, Hc2. specialize (Hg1 eq_refl). specialize (Hg2 eq_refl).
      congruence. }
  destruct (decide (rel ∈ first_names)) as [Hin%list_elem_of_In|Hnin].
  { left.
    assert (In (under root rel)
              (List.map fst (first_writes root project_name app_name application_id
                               compile_sdk min_sdk target_sdk)))
      as Hf by (rewrite first_writes_paths; by apply in_map).
    apply in_map_iff in Hf as (f & Ef & Hf).
    destruct (Hf1 f Hf rel Ef) as (b1 & Hb1 & ->).
    destruct (Hf2 f Hf rel Ef) as (b2 & Hb2 & ->). congruence. }
  assert (~ In rel (stub_names application_id :: first_names)) as Hout.
  { intros [E|Hin]; [by apply Hns|]. by apply Hnin, list_elem_of_In. }
  left.
  destruct (decide (parts root ++ rel <> []
                    /\ Exists (fun nm => rel `prefix_of` nm /\ rel <> nm)
                         (stub_names application_id :: first_names))) as [Hway|Hnway].
  - by rewrite (Hd1 rel Hout Hway), (Hd2 rel Hout Hway).
  - by rewrite (Hn1 rel Hout Hnway), (Hn2 rel Hout Hnway).
Qed.

Lemma create_project_depends_on_its_arguments_only_witness :
  fst (demo_create "com.x.y") = Ok (mkPath false [lit "dist"; lit "Foo"])
  /\ fst (create_project None demo_out (lit "Foo") (lit "Foo App") (lit "com.x.y")
            34 24 34 demo_state3) = Ok (mkPath false [lit "dist"; lit "Foo"])
  /\ fs (st_world (snd (demo_create "com.x.y")))
       !! (lexical (st_world demo_state) (mkPath false [lit "dist"; lit "Foo"])
             ++ [lit "app"; lit "build.gradle.kts"])
     = fs (st_world (snd (create_project None demo_out (lit "Foo") (lit "Foo App")
                            (lit "com.x.y") 34 24 34 demo_state3)))
         !! (lexical (st_world demo_state3) (mkPath false [lit "dist"; lit "Foo"])
               ++ [lit "app"; lit "build.gradle.kts"]).
Proof.
  assert (wf_fs (fs (st_world demo_state))) as Hwf1 by (intros l n Hl; done).
  assert (wf_fs (fs (st_world demo_state3))) as Hwf2.
  { change (map_Forall (fun l _ => node_at (fs (st_world demo_state3)) (removelast l)
                                   = Some Dir)
              (<[ [lit "in"; lit "Main.kt"] := File [1; 2; 3] ]>
                 ({[ [lit "in"] := Dir ]} : gmap (list (list N)) node))).
    apply map_Forall_insert_2; [reflexivity|].
    apply map_Forall_singleton. reflexivity. }
  assert (no_dotdot (parts (joinpath demo_out (lit "Foo")))) as Hnd
    by (repeat constructor).
  assert (absolute (Path_of (split_on 46 (lit "com.x.y"))) = false) as Hrel
    by reflexivity.
  assert ([lit "app"; lit "build.gradle.kts"] <> stub_names (lit "com.x.y")) as Hne
    by discriminate.
  assert (fst (demo_create "com.x.y") = Ok (mkPath false [lit "dist"; lit "Foo"]))
    as Hrun1 by (vm_compute; reflexivity).
  assert (fst (create_project None demo_out (lit "Foo") (lit "Foo App") (lit "com.x.y")
                 34 24 34 demo_state3) = Ok (mkPath false [lit "dist"; lit "Foo"]))
    as Hrun2 by (vm_compute; reflexivity).
  split; [exact Hrun1|]. split; [exact Hrun2|].
  refine (match proj2 (proj2 (create_project_depends_on_its_arguments_only None demo_out
                   (lit "Foo") (lit "Foo App") (lit "com.x.y") 34%Z 24%Z 34%Z
                   demo_state demo_state3
                   (mkPath false [lit "dist"; lit "Foo"])
                   (mkPath false [lit "dist"; lit "Foo"])
                   (snd (demo_create "com.x.y"))
                   (snd (create_project None demo_out (lit "Foo") (lit "Foo App")
                           (lit "com.x.y") 34 24 34 demo_state3))
                   Hwf1 Hwf2 Hnd Hrel _ _))
                 [lit "app"; lit "build.gradle.kts"] with
          | or_introl E => E
          | or_intror (conj _ (conj E _)) => match Hne E with end
          end).
  - rewrite <- Hrun1. apply surjective_pairing.
  - rewrite <- Hrun2. apply surjective_pairing.
Defined.

(** C9 as stated fails: the place of the copied stub depends on the file
    system.  With the application id [/srv] the stub path is
    [/srv/MainActivity.kt]; where that is a directory the copy lands in it
    as [/srv/MainActivity.kt/Main.kt], elsewhere it is the file
    [/srv/MainActivity.kt]: the same arguments, two sets of output paths. *)
Lemma output_paths_depend_on_the_file_system :
  fst occupied_create = Ok (mkPath false [lit "dist"; lit "Foo"])
  /\ fst vacant_create = Ok (mkPath false [lit "dist"; lit "Foo"])
  /\ fs (st_world (snd occupied_create)) !! [lit "srv"; lit "MainActivity.kt"; lit "Main.kt"]
     = Some (File [1; 2; 3])
  /\ fs (st_world (snd vacant_create)) !! [lit "srv"; lit "MainActivity.kt"; lit "Main.kt"]
     = None
  /\ fs (st_world (snd occupied_create)) !! [lit "srv"; lit "MainActivity.kt"] = Some Dir
  /\ fs (st_world (snd vacant_create)) !! [lit "srv"; lit "MainActivity.kt"]
     = Some (File [1; 2; 3]).
Proof.
  split; [vm_compute; reflexivity|]. split; [vm_compute; reflexivity|].
  split; [vm_compute; reflexivity|]. split; [vm_compute; reflexivity|].
  split; vm_compute; reflexivity.
Qed.
